(** * MFlix database layer ([mflix/db.py]): a shallow embedding

    The Python module builds MongoDB requests (find cursors and aggregation
    pipelines) and post-processes what the driver returns.  The functions of
    [db.py] are embedded below under their own names; the requests they
    build are kept as data ([query], [stage], [cursor]) and executed by a
    small executable model of the document store ([aggregate],
    [list_cursor], [count_documents]).  Python exceptions are the [Raise]
    branch of [result].

    What the model of the store assumes: numbers are integers; a sort puts
    documents with equal sort keys in an order of the store's choosing,
    which may differ from one request to the next ([tie_rank]); the text
    index is a score function; failures of the environment are an oracle on
    requests.  The driver's refusal to encode an integer beyond 64 bits is
    modelled for aggregations ([aggregate]); the skip, the limit and the
    filter values of a [find] are taken to be within them. *)

From Stdlib Require Import ZArith List String Ascii Bool Lia Permutation.
From Stdlib Require Import Sorting.Sorted.
From stdpp Require Import base option gmap strings.
Import ListNotations.

#[local] Set Warnings "-register-all".

Local Open Scope string_scope.
Local Open Scope list_scope.

(** ** BSON / Python values *)

(** Values stored in documents and passed in the [filters] dictionary.
    [VNull] is BSON null and Python [None]; numbers are integers; a date is
    its number of milliseconds since the epoch; an ObjectId is the number
    its bytes denote, below [2 ^ 96] for the usual twelve bytes (see
    [oid_of_bytes] for the others). *)
Inductive value : Type :=
| VNull
| VBool (b : bool)
| VInt (z : Z)
| VStr (s : string)
| VDate (ms : Z)
| VOid (oid : Z)
| VArr (vs : list value)
| VDoc (fields : list (string * value)).

(** A document is an ordered list of fields. *)
Abbreviation doc := (list (string * value)).

Fixpoint get_field (k : string) (d : doc) : option value :=
  match d with
  | [] => None
  | (k', v) :: d' => if String.eqb k k' then Some v else get_field k d'
  end.

(** [d[k] = v] on a document: an existing field keeps its position, a new
    one goes last. *)
Fixpoint set_field (k : string) (v : value) (d : doc) : doc :=
  match d with
  | [] => [(k, v)]
  | (k', v') :: d' =>
      if String.eqb k k' then (k, v) :: d' else (k', v') :: set_field k v d'
  end.

(** Python's [d.get(k)]: [None] when the key is missing. *)
Definition dict_get (k : string) (d : doc) : value :=
  match get_field k d with
  | Some v => v
  | None => VNull
  end.

(** A dotted field path such as ["tomatoes.viewer.numReviews"], already
    split at the dots: each step enters an embedded document. *)
Fixpoint get_path (p : list string) (v : value) : option value :=
  match p with
  | [] => Some v
  | k :: p' =>
      match v with
      | VDoc fs =>
          match get_field k fs with
          | Some v' => get_path p' v'
          | None => None
          end
      | _ => None
      end
  end.

(** Structural equality of values. *)
Fixpoint value_eqb (a b : value) {struct a} : bool :=
  let fix arr_eqb (xs ys : list value) {struct xs} : bool :=
    match xs, ys with
    | [], [] => true
    | x :: xs', y :: ys' => value_eqb x y && arr_eqb xs' ys'
    | _, _ => false
    end in
  let fix doc_eqb (xs ys : list (string * value)) {struct xs} : bool :=
    match xs, ys with
    | [], [] => true
    | (k, x) :: xs', (k', y) :: ys' =>
        String.eqb k k' && value_eqb x y && doc_eqb xs' ys'
    | _, _ => false
    end in
  match a, b with
  | VNull, VNull => true
  | VBool x, VBool y => Bool.eqb x y
  | VInt x, VInt y => Z.eqb x y
  | VStr x, VStr y => String.eqb x y
  | VDate x, VDate y => Z.eqb x y
  | VOid x, VOid y => Z.eqb x y
  | VArr xs, VArr ys => arr_eqb xs ys
  | VDoc xs, VDoc ys => doc_eqb xs ys
  | _, _ => false
  end.

(** Equality of two possibly missing values, as the aggregation operator
    [$eq] sees them: a missing field equals only a missing field. *)
Definition opt_value_eqb (a b : option value) : bool :=
  match a, b with
  | Some x, Some y => value_eqb x y
  | None, None => true
  | _, _ => false
  end.

(** ** The BSON sort order *)

(** A value is ordered first by its type bracket (null and missing, then
    numbers, strings, documents, arrays, ObjectIds, booleans, dates), then
    inside the bracket.  The order is the lexicographic order on these keys.
    Embedded documents and arrays are not ordered further: the sort keys of
    this module (review count, date, count, text score) are scalars. *)
Definition codes (s : string) : list Z :=
  map (fun c => Z.of_N (N_of_ascii c)) (list_ascii_of_string s).

Definition sort_key (v : option value) : list Z :=
  match v with
  | None | Some VNull => [2]
  | Some (VInt z) => [3; z]
  | Some (VStr s) => 4 :: codes s
  | Some (VDoc _) => [5]
  | Some (VArr _) => [6]
  | Some (VOid o) => [8; o]
  | Some (VBool b) => [9; if b then 1 else 0]
  | Some (VDate ms) => [10; ms]
  end%Z.

Fixpoint lex_leb (a b : list Z) : bool :=
  match a, b with
  | [], _ => true
  | _ :: _, [] => false
  | x :: a', y :: b' =>
      if (x <? y)%Z then true
      else if (y <? x)%Z then false
      else lex_leb a' b'
  end.

(** pymongo's [ASCENDING] (1) and [DESCENDING] (-1). *)
Inductive direction := ASCENDING | DESCENDING.

(** [before dir kx ky]: a document with key [kx] may stand before one with
    key [ky]. *)
Definition before (dir : direction) (kx ky : list Z) : bool :=
  match dir with
  | ASCENDING => lex_leb kx ky
  | DESCENDING => lex_leb ky kx
  end.

Section StableSort.
Context {A : Type}.
Variable key : A -> list Z.
Variable dir : direction.

(** Insertion behind every element that may stand before [x]: equal keys
    keep their input order. *)
Fixpoint insert_sorted (x : A) (l : list A) : list A :=
  match l with
  | [] => [x]
  | y :: l' =>
      if before dir (key y) (key x) then y :: insert_sorted x l'
      else x :: y :: l'
  end.

Definition sort_by (l : list A) : list A :=
  fold_left (fun acc x => insert_sorted x acc) l [].
End StableSort.

(** ** Exceptions *)

Inductive exn : Type :=
| AssertionError (msg : string)
| IndexError
| StopIteration
| InvalidId
| ValueError (msg : string)
| OverflowError (msg : string)
| OperationFailure (msg : string) (code : option Z)
| ConnectionFailure (msg : string).

Inductive result (A : Type) : Type :=
| Ok (a : A)
| Raise (e : exn).
Arguments Ok {A} a.
Arguments Raise {A} e.

Definition bind {A B : Type} (r : result A) (k : A -> result B) : result B :=
  match r with
  | Ok a => k a
  | Raise e => Raise e
  end.

Notation "'let!' x ':=' r 'in' k" := (bind r (fun x => k))
  (at level 10, x name, r at level 100, k at level 200).

(** [try: r except h]: the handler [h] says what each exception turns into;
    [None] lets it propagate. *)
Definition try_except {A : Type} (r : result A) (h : exn -> option (result A))
  : result A :=
  match r with
  | Ok a => Ok a
  | Raise e => match h e with Some r' => r' | None => Raise e end
  end.

(** ** Requests to the document store *)

(** Query predicates, as far as this module builds them. *)
Inductive query : Type :=
| QAll                                   (* {} *)
| QText (search : value)                 (* {"$text": {"$search": search}} *)
| QIn (field : string) (vals : value)    (* {field: {"$in": vals}} *)
| QEq (field : string) (v : value).      (* {field: v} *)

(** Aggregation stages, as far as this module builds them.  Field
    references are kept without their [$]. *)
Inductive stage : Type :=
| Match (q : query)                      (* {"$match": q} *)
| MatchExprEq (field var : string)
    (* {"$match": {"$expr": {"$eq": ["$field", "$$var"]}}} *)
| Sort (path : string) (dir : direction) (* {"$sort": {path: dir}} *)
| Skip (n : Z)                           (* {"$skip": n} *)
| Limit (n : Z)                          (* {"$limit": n} *)
| Count (name : string)                  (* {"$count": name} *)
| Bucket (groupBy : string) (boundaries : list Z) (default : value)
    (* {"$bucket": {"groupBy": "$groupBy", "boundaries": boundaries,
                    "default": default, "output": {"count": {"$sum": 1}}}} *)
| Facet (branches : list (string * list stage))   (* {"$facet": {...}} *)
| AddFields (field src : string)         (* {"$addFields": {field: "$src"}} *)
| Lookup (from let_var let_field : string) (pipeline : list stage)
         (as_field : string)
    (* {"$lookup": {"from": from, "let": {let_var: "$let_field"},
                    "pipeline": pipeline, "as": as_field}} *)
| GroupCount (by_field : string).
    (* {"$group": {"_id": "$by_field", "count": {"$sum": 1}}} *)

(** The projection and the sort specifications given to [find]. *)
Inductive projection : Type :=
| ProjTextScore (field : string).        (* {field: {"$meta": "textScore"}} *)

Inductive sort_spec : Type :=
| SortField (path : string) (dir : direction)   (* [(path, dir)] *)
| SortTextScore (field : string).        (* [(field, {"$meta": "textScore"})] *)

(** A pymongo cursor: nothing is sent before it is iterated. *)
Record cursor : Type := mkCursor {
  c_query : query;
  c_project : option projection;
  c_sort : option sort_spec;
  c_skip : Z;
  c_limit : Z
}.

Inductive request : Type :=
| ReqAggregate (coll : string) (pipeline : list stage) (allowDiskUse : bool)
| ReqFind (coll : string) (c : cursor)
| ReqCount (coll : string) (q : query).

(** What can go wrong inside the store or on the way to it.  The driver
    raises the first as [OperationFailure] and the second as
    [ConnectionFailure]. *)
Inductive failure : Type :=
| CommandFailed (msg : string) (code : Z)
| Unreachable (msg : string).

Definition exn_of_failure (f : failure) : exn :=
  match f with
  | CommandFailed msg code => OperationFailure msg (Some code)
  | Unreachable msg => ConnectionFailure msg
  end.

(** The store: the two collections this module reads, the relevance score
    of the text index on [movies] (a document matches a search when its
    score is positive), the failures of the environment (resource limits,
    network), given per request, and the order in which the store happens
    to come across the documents while it serves a request: of two
    documents with equal sort keys, a sort returns the one of lower rank
    first.  MongoDB promises no more about such documents, and the rank
    may change from one request to the next. *)
Record database : Type := mkDatabase {
  movies : list doc;
  comments : list doc;
  text_score : string -> doc -> Z;
  fault : request -> option failure;
  tie_rank : request -> doc -> Z
}.

Definition collection (db : database) (name : string) : list doc :=
  if String.eqb name "movies" then movies db
  else if String.eqb name "comments" then comments db
  else [].

Definition healthy (db : database) : Prop := forall r, fault db r = None.

Definition check_fault (db : database) (r : request) : result unit :=
  match fault db r with
  | Some f => Raise (exn_of_failure f)
  | None => Ok tt
  end.

(** ** Evaluation of queries *)

Definition check_query (q : query) : result unit :=
  match q with
  | QText (VStr _) => Ok tt
  | QText _ =>
      Raise (OperationFailure "$search had the wrong type" (Some 14%Z))
  | QIn _ (VArr _) => Ok tt
  | QIn _ _ => Raise (OperationFailure "$in needs an array" (Some 2%Z))
  | QAll | QEq _ _ => Ok tt
  end.

(** A field matches a value when it equals it or, being an array, contains
    it; a missing field matches null. *)
Definition field_matches (f : option value) (v : value) : bool :=
  match f with
  | Some (VArr xs) => value_eqb (VArr xs) v || existsb (fun x => value_eqb x v) xs
  | Some x => value_eqb x v
  | None => value_eqb VNull v
  end.

Definition matches (db : database) (q : query) (d : doc) : bool :=
  match q with
  | QAll => true
  | QText (VStr s) => (0 <? text_score db s d)%Z
  | QText _ => false
  | QIn f (VArr vals) => existsb (field_matches (get_field f d)) vals
  | QIn _ _ => false
  | QEq f v => field_matches (get_field f d) v
  end.

(** ** Evaluation of aggregation pipelines *)

(** ["a.b.c"] to [["a"; "b"; "c"]]. *)
Fixpoint split_path (s : string) : list string :=
  match s with
  | EmptyString => [EmptyString]
  | String c s' =>
      if Ascii.eqb c "."%char then EmptyString :: split_path s'
      else match split_path s' with
           | [] => [String c EmptyString]
           | w :: ws => String c w :: ws
           end
  end.

Definition doc_path (path : string) (d : doc) : option value :=
  get_path (split_path path) (VDoc d).

(** The documents in the order the store comes across them: by rank. *)
Definition arrange (rank : doc -> Z) (ds : list doc) : list doc :=
  sort_by (fun d => [rank d]) ASCENDING ds.

(** [$sort] and [cursor.sort] on one field, in a request whose documents
    the store ranks by [rank]: documents with equal keys come out by rank
    (and in the order of the input when the ranks are equal too). *)
Definition sort_docs (rank : doc -> Z) (path : string) (dir : direction)
    (ds : list doc) : list doc :=
  sort_by (fun d => sort_key (doc_path path d)) dir (arrange rank ds).

(** The lower bound of the range [lo <= z < hi] of [bounds] holding [z]. *)
Fixpoint bucket_of (bounds : list Z) (z : Z) : option Z :=
  match bounds with
  | lo :: ((hi :: _) as rest) =>
      if ((lo <=? z) && (z <? hi))%Z then Some lo else bucket_of rest z
  | _ => None
  end.

(** The [_id] of the bucket a document falls in: numbers inside the
    boundaries go to their range, anything else (missing, null, not a
    number, out of range) to the default bucket. *)
Definition bucket_label (groupBy : string) (bounds : list Z) (default : value)
    (d : doc) : value :=
  match get_field groupBy d with
  | Some (VInt z) =>
      match bucket_of bounds z with
      | Some lo => VInt lo
      | None => default
      end
  | _ => default
  end.

Definition count_where (f : doc -> bool) (ds : list doc) : Z :=
  Z.of_nat (length (List.filter f ds)).

(** One output document per non-empty bucket, ranges first, default last. *)
Definition bucket_docs (groupBy : string) (bounds : list Z) (default : value)
    (ds : list doc) : list doc :=
  flat_map
    (fun l =>
       let n := count_where (fun d => value_eqb (bucket_label groupBy bounds default d) l) ds in
       if (n =? 0)%Z then [] else [[("_id", l); ("count", VInt n)]])
    (map VInt (removelast bounds) ++ [default]).

Fixpoint increasing (bounds : list Z) : bool :=
  match bounds with
  | lo :: ((hi :: _) as rest) => (lo <? hi)%Z && increasing rest
  | _ => true
  end.

(** The store refuses boundaries that are not increasing, fewer than two
    of them, and a numeric default lying inside them. *)
Definition check_bucket (bounds : list Z) (default : value) : bool :=
  increasing bounds && (2 <=? length bounds)%nat &&
  match default with
  | VInt z => match bucket_of bounds z with Some _ => false | None => true end
  | _ => true
  end.

(** The group key of a document: a missing field groups with null. *)
Definition group_key (by_field : string) (d : doc) : value :=
  match get_field by_field d with
  | Some v => v
  | None => VNull
  end.

(** The distinct values of a list, in order of first appearance. *)
Fixpoint distinct (seen : list value) (vs : list value) : list value :=
  match vs with
  | [] => []
  | v :: vs' =>
      if existsb (value_eqb v) seen then distinct seen vs'
      else v :: distinct (v :: seen) vs'
  end.

Definition group_count_docs (by_field : string) (ds : list doc) : list doc :=
  map (fun k =>
         [("_id", k);
          ("count", VInt (count_where (fun d => value_eqb (group_key by_field d) k) ds))])
      (distinct [] (map (group_key by_field) ds)).

(** Variables bound by [$lookup]'s [let]; a variable may be bound to a
    missing field. *)
Definition env : Type := list (string * option value).

Fixpoint lookup_var (x : string) (e : env) : option (option value) :=
  match e with
  | [] => None
  | (y, v) :: e' => if String.eqb x y then Some v else lookup_var x e'
  end.

Fixpoint mapM {A B : Type} (f : A -> result B) (l : list A) : result (list B) :=
  match l with
  | [] => Ok []
  | x :: l' =>
      let! y := f x in
      let! ys := mapM f l' in
      Ok (y :: ys)
  end.

Definition skip_negative : exn :=
  OperationFailure "Argument to $skip cannot be negative" (Some 15956%Z).

Definition limit_not_positive : exn :=
  OperationFailure "the limit must be positive" (Some 15958%Z).

Fixpoint run_stage (db : database) (rank : doc -> Z) (e : env) (s : stage)
    (input : list doc) {struct s} : result (list doc) :=
  let fix run_stages (e : env) (p : list stage) (input : list doc)
      {struct p} : result (list doc) :=
    match p with
    | [] => Ok input
    | s' :: p' =>
        let! out := run_stage db rank e s' input in
        run_stages e p' out
    end in
  let fix run_branches (bs : list (string * list stage)) {struct bs}
      : result doc :=
    match bs with
    | [] => Ok []
    | (name, p) :: bs' =>
        let! out := run_stages e p input in
        let! rest := run_branches bs' in
        Ok ((name, VArr (map VDoc out)) :: rest)
    end in
  match s with
  | Match q =>
      let! _ := check_query q in
      Ok (List.filter (matches db q) input)
  | MatchExprEq field var =>
      match lookup_var var e with
      | Some v =>
          Ok (List.filter (fun d => opt_value_eqb (get_field field d) v) input)
      | None =>
          Raise (OperationFailure "Use of undefined variable" (Some 17276%Z))
      end
  | Sort path dir => Ok (sort_docs rank path dir input)
  | Skip n =>
      if (n <? 0)%Z then Raise skip_negative
      else Ok (skipn (Z.to_nat n) input)
  | Limit n =>
      if (n <=? 0)%Z then Raise limit_not_positive
      else Ok (firstn (Z.to_nat n) input)
  | Count name =>
      match input with
      | [] => Ok []
      | _ :: _ => Ok [[(name, VInt (Z.of_nat (length input)))]]
      end
  | Bucket groupBy bounds default =>
      if check_bucket bounds default then
        Ok (bucket_docs groupBy bounds default input)
      else
        Raise (OperationFailure "invalid $bucket specification" (Some 40194%Z))
  | Facet branches =>
      let! out := run_branches branches in
      Ok [out]
  | AddFields field src =>
      Ok (map (fun d => match get_field src d with
                        | Some v => set_field field v d
                        | None => d
                        end) input)
  | Lookup from let_var let_field pipeline as_field =>
      mapM (fun d =>
              let! joined :=
                run_stages ((let_var, get_field let_field d) :: e) pipeline
                           (collection db from) in
              Ok (set_field as_field (VArr (map VDoc joined)) d))
           input
  | GroupCount by_field => Ok (group_count_docs by_field input)
  end.

Fixpoint run_pipeline (db : database) (rank : doc -> Z) (e : env)
    (p : list stage) (input : list doc) : result (list doc) :=
  match p with
  | [] => Ok input
  | s :: p' =>
      let! out := run_stage db rank e s input in
      run_pipeline db rank e p' out
  end.

(** *** What the driver can encode *)

(** BSON has integers of up to 64 bits: the driver refuses to encode a
    Python [int] outside them, wherever it stands in the request, with an
    [OverflowError] (its message depends on the build of the driver). *)
Definition int64 (z : Z) : bool :=
  ((- 2 ^ 63 <=? z) && (z <=? 2 ^ 63 - 1))%Z.

Fixpoint value_fits (v : value) : bool :=
  let fix arr_fits (vs : list value) : bool :=
    match vs with
    | [] => true
    | x :: vs' => value_fits x && arr_fits vs'
    end in
  let fix doc_fits (fs : list (string * value)) : bool :=
    match fs with
    | [] => true
    | (_, x) :: fs' => value_fits x && doc_fits fs'
    end in
  match v with
  | VInt z => int64 z
  | VArr vs => arr_fits vs
  | VDoc fs => doc_fits fs
  | _ => true
  end.

Definition query_fits (q : query) : bool :=
  match q with
  | QAll => true
  | QText v | QIn _ v | QEq _ v => value_fits v
  end.

Fixpoint stage_fits (s : stage) : bool :=
  let fix stages_fit (p : list stage) : bool :=
    match p with
    | [] => true
    | s' :: p' => stage_fits s' && stages_fit p'
    end in
  let fix branches_fit (bs : list (string * list stage)) : bool :=
    match bs with
    | [] => true
    | (_, p) :: bs' => stages_fit p && branches_fit bs'
    end in
  match s with
  | Match q => query_fits q
  | Skip n | Limit n => int64 n
  | Bucket _ bounds default => forallb int64 bounds && value_fits default
  | Facet branches => branches_fit branches
  | Lookup _ _ _ pipeline _ => stages_fit pipeline
  | MatchExprEq _ _ | Sort _ _ | Count _ | AddFields _ _ | GroupCount _ => true
  end.

Definition too_big_int : exn :=
  OverflowError "MongoDB can only handle up to 8-byte ints".

(** [db[coll].aggregate(pipeline, allowDiskUse=...)], its result read into
    a list.  A pipeline the driver cannot encode raises before anything is
    sent.  Whether the store may spill to disk changes when it runs out of
    memory, which is the environment's to say, not what it computes. *)
Definition aggregate (db : database) (coll : string) (pipeline : list stage)
    (allowDiskUse : bool) : result (list doc) :=
  if forallb stage_fits pipeline then
    let req := ReqAggregate coll pipeline allowDiskUse in
    let! _ := check_fault db req in
    run_pipeline db (tie_rank db req) [] pipeline (collection db coll)
  else Raise too_big_int.

(** ** Cursors of [find] *)

(** [coll.find(query, projection)]. *)
Definition find (q : query) (p : option projection) : cursor :=
  mkCursor q p None 0 0.

Definition cursor_sort (c : cursor) (s : sort_spec) : cursor :=
  mkCursor (c_query c) (c_project c) (Some s) (c_skip c) (c_limit c).

(** [cursor.skip(n)] refuses a negative [n] on the client side. *)
Definition cursor_skip (c : cursor) (n : Z) : result cursor :=
  if (n <? 0)%Z then Raise (ValueError "skip must be >= 0")
  else Ok (mkCursor (c_query c) (c_project c) (c_sort c) n (c_limit c)).

Definition cursor_limit (c : cursor) (n : Z) : cursor :=
  mkCursor (c_query c) (c_project c) (c_sort c) (c_skip c) n.

(** The relevance score is available to a text query only. *)
Definition scorer (db : database) (q : query) : option (doc -> Z) :=
  match q with
  | QText (VStr s) => Some (text_score db s)
  | _ => None
  end.

Definition no_text_score {A : Type} : result A :=
  Raise (OperationFailure "text score metadata is not available" (Some 40218%Z)).

Definition apply_sort (db : database) (rank : doc -> Z) (q : query)
    (s : option sort_spec) (ds : list doc) : result (list doc) :=
  match s with
  | None => Ok ds
  | Some (SortField path dir) => Ok (sort_docs rank path dir ds)
  | Some (SortTextScore _) =>
      match scorer db q with
      | Some score =>
          Ok (sort_by (fun d => sort_key (Some (VInt (score d)))) DESCENDING
                      (arrange rank ds))
      | None => no_text_score
      end
  end.

(** What a projection does to each document: nothing without one, and
    with [{field: {"$meta": "textScore"}}] the score is added as [field]. *)
Definition projector (db : database) (q : query) (p : option projection)
  : result (doc -> doc) :=
  match p with
  | None => Ok (fun d => d)
  | Some (ProjTextScore field) =>
      match scorer db q with
      | Some score => Ok (fun d => set_field field (VInt (score d)) d)
      | None => no_text_score
      end
  end.

Definition apply_projection (db : database) (q : query)
    (p : option projection) (ds : list doc) : result (list doc) :=
  let! g := projector db q p in
  Ok (map g ds).

(** A limit of 0 is no limit; a negative limit is its absolute value. *)
Definition apply_limit (n : Z) (ds : list doc) : list doc :=
  if (n =? 0)%Z then ds else firstn (Z.to_nat (Z.abs n)) ds.

(** [list(cursor)] on a cursor of collection [coll]. *)
Definition list_cursor (db : database) (coll : string) (c : cursor)
  : result (list doc) :=
  let! _ := check_fault db (ReqFind coll c) in
  let! _ := check_query (c_query c) in
  let matched := List.filter (matches db (c_query c)) (collection db coll) in
  let! sorted :=
    apply_sort db (tie_rank db (ReqFind coll c)) (c_query c) (c_sort c)
               matched in
  let page := apply_limit (c_limit c) (skipn (Z.to_nat (c_skip c)) sorted) in
  apply_projection db (c_query c) (c_project c) page.

(** [db[coll].count_documents(query)]. *)
Definition count_documents (db : database) (coll : string) (q : query)
  : result Z :=
  let! _ := check_fault db (ReqCount coll q) in
  let! _ := check_query q in
  Ok (count_where (matches db q) (collection db coll)).

(** ** ObjectIds *)

Definition hex_digit (c : ascii) : option Z :=
  let n := Z.of_N (N_of_ascii c) in
  if ((48 <=? n) && (n <=? 57))%Z then Some (n - 48)%Z
  else if ((97 <=? n) && (n <=? 102))%Z then Some (n - 87)%Z
  else if ((65 <=? n) && (n <=? 70))%Z then Some (n - 55)%Z
  else None.

(** Python's ASCII whitespace: space, and tab to carriage return. *)
Definition is_space (c : ascii) : bool :=
  let n := Z.of_N (N_of_ascii c) in
  ((n =? 32) || ((9 <=? n) && (n <=? 13)))%Z.

(** [bytes.fromhex(s)]: two hexadecimal digits per byte; whitespace is
    skipped between bytes and at both ends, not between the two digits of
    a byte. *)
Fixpoint fromhex (s : string) : option (list Z) :=
  match s with
  | EmptyString => Some []
  | String c s' =>
      if is_space c then fromhex s'
      else
        match hex_digit c, s' with
        | Some top, String c' s'' =>
            match hex_digit c', fromhex s'' with
            | Some bot, Some bs => Some ((16 * top + bot)%Z :: bs)
            | _, _ => None
            end
        | _, _ => None
        end
  end.

(** The number a sequence of bytes denotes, most significant byte first. *)
Definition bytes_value (bs : list Z) : Z :=
  fold_left (fun acc b => (256 * acc + b)%Z) bs 0%Z.

(** An ObjectId of twelve bytes is their number.  One of fewer bytes, which
    [ObjectId] builds from a string with whitespace in it, is no ObjectId
    to the store; it is given a number of its own from [2 ^ 96] on. *)
Definition oid_of_bytes (bs : list Z) : Z :=
  if (length bs =? 12)%nat then bytes_value bs
  else (2 ^ 96 + 256 ^ Z.of_nat (length bs) + bytes_value bs)%Z.

(** [bson.objectid.ObjectId(id)] on a string: a string of 24 characters
    that [bytes.fromhex] accepts, or [InvalidId].  The bytes are not
    counted: 24 hexadecimal digits give twelve of them, and a string such
    as ["00 00 00 00 00 00 00 00 "] is accepted too, with eight. *)
Definition ObjectId (id : string) : result Z :=
  if (String.length id =? 24)%nat then
    match fromhex id with
    | Some bs => Ok (oid_of_bytes bs)
    | None => Raise InvalidId
    end
  else Raise InvalidId.

(** ** Python helpers *)

(** [l[0]]. *)
Definition index0 {A : Type} (l : list A) : result A :=
  match l with
  | x :: _ => Ok x
  | [] => Raise IndexError
  end.

(** [cursor.next()]. *)
Definition next {A : Type} (l : list A) : result A :=
  match l with
  | x :: _ => Ok x
  | [] => Raise StopIteration
  end.

(** ** The functions of [db.py] *)

(** The [filters] dictionary of the API layer is a [gmap string value]. *)

(** The exception the [except OperationFailure] clause raises. *)
Definition too_large : exn :=
  OperationFailure "Results too large to sort, be more restrictive in filter" None.

(** The [facet_stage] literal of [get_movies_faceted]. *)
Definition facet_stage : stage :=
  Facet [("runtime", [Bucket "runtime" [0; 60; 90; 120; 180]%Z (VStr "other")]);
         ("rating", [Bucket "metacritic" [0; 50; 70; 90; 100]%Z (VStr "other")]);
         ("movies", [AddFields "title" "title"])].

(** Movies and runtime and ratings facets, and the total number of movies
    matched by the filter. *)
Definition get_movies_faceted (db : database) (filters : gmap string value)
    (page movies_per_page : Z) : result (doc * value) :=
  let sort_key := "tomatoes.viewer.numReviews" in
  let pipeline := [] in
  let! pipeline :=
    match filters !! "cast" with
    | Some cast =>
        Ok (pipeline ++ [Match (QIn "cast" cast); Sort sort_key DESCENDING])
    | None => Raise (AssertionError "No filters to pass to faceted search!")
    end in
  let counting := pipeline in
  let count_stage := Count "count" in
  let counting := counting ++ [count_stage] in
  let skip_stage := Skip (movies_per_page * page)%Z in
  let limit_stage := Limit movies_per_page in
  let pipeline := pipeline ++ [skip_stage; limit_stage; facet_stage] in
  try_except
    (let! r := aggregate db "movies" pipeline true in
     let! movies := index0 r in
     let! c := aggregate db "movies" counting true in
     let! first := index0 c in
     Ok (movies, dict_get "count" first))
    (fun e =>
       match e with
       | OperationFailure _ _ => Some (Raise too_large)
       | _ => None
       end).

(** The [query] predicate, [sort] and [projection] for a filters
    dictionary.  [if filters:] is true of a dictionary that is not empty. *)
Definition build_query_sort_project (filters : gmap string value)
  : query * sort_spec * option projection :=
  let query := QAll in
  let sort := SortField "tomatoes.viewer.numReviews" DESCENDING in
  let project := None in
  if (size filters =? 0)%nat then (query, sort, project)
  else
    match filters !! "text" with
    | Some text => (QText text, SortTextScore "score", Some (ProjTextScore "score"))
    | None =>
        match filters !! "cast" with
        | Some cast => (QIn "cast" cast, sort, project)
        | None =>
            match filters !! "genres" with
            | Some genres => (QIn "genres" genres, sort, project)
            | None => (query, sort, project)
            end
        end
    end.

(** One page of movies and, on page 0, their total number.  The count is
    requested before the cursor is iterated. *)
Definition get_movies (db : database) (filters : gmap string value)
    (page movies_per_page : Z) : result (list doc * value) :=
  let '(query, sort, project) := build_query_sort_project filters in
  let cursor :=
    match project with
    | Some p => cursor_sort (find query (Some p)) sort
    | None => cursor_sort (find query None) sort
    end in
  let total_num_movies := VInt 0 in
  let! total_num_movies :=
    if (page =? 0)%Z then
      let! n := count_documents db "movies" query in Ok (VInt n)
    else Ok total_num_movies in
  let records_to_skip := (movies_per_page * page)%Z in
  let! skipped := cursor_skip cursor records_to_skip in
  let movies := cursor_limit skipped movies_per_page in
  let! l := list_cursor db "movies" movies in
  Ok (l, total_num_movies).

(** The pipeline [get_movie] sends for the ObjectId [oid]. *)
Definition movie_pipeline (oid : Z) : list stage :=
  [Match (QEq "_id" (VOid oid));
   Lookup "comments" "id" "_id"
          [MatchExprEq "movie_id" "id"; Sort "date" DESCENDING]
          "comments"].

(** The movie with the given identifier, its comments embedded; [None]
    is [VNull] and [{}] is [VDoc []]. *)
Definition get_movie (db : database) (id : string) : result value :=
  try_except
    (let! oid := ObjectId id in
     let pipeline := movie_pipeline oid in
     let! r := aggregate db "movies" pipeline false in
     let! movie := next r in
     Ok (VDoc movie))
    (fun e =>
       match e with
       | InvalidId | StopIteration => Some (Ok VNull)
       | _ => Some (Ok (VDoc []))
       end).

(** The 20 most frequent commenters.  The collection is read with its own
    read concern. *)
Definition most_active_commenters (db : database) : result (list doc) :=
  let group := GroupCount "email" in
  let sort := Sort "count" DESCENDING in
  let limit := Limit 20 in
  let pipeline := [group; sort; limit] in
  aggregate db "comments" pipeline false.

(** ** Notions used to state the properties *)

(** Induction on values through their nested lists. *)
Section ValueInd.
Variable P : value -> Prop.
Hypothesis HNull : P VNull.
Hypothesis HBool : forall b, P (VBool b).
Hypothesis HInt : forall z, P (VInt z).
Hypothesis HStr : forall s, P (VStr s).
Hypothesis HDate : forall ms, P (VDate ms).
Hypothesis HOid : forall o, P (VOid o).
Hypothesis HArr : forall vs, Forall P vs -> P (VArr vs).
Hypothesis HDoc : forall fs, Forall (fun kv => P (snd kv)) fs -> P (VDoc fs).

Fixpoint value_nested_ind (v : value) : P v :=
  match v with
  | VNull => HNull
  | VBool b => HBool b
  | VInt z => HInt z
  | VStr s => HStr s
  | VDate ms => HDate ms
  | VOid o => HOid o
  | VArr vs =>
      HArr vs
        ((fix go (l : list value) : Forall P l :=
            match l with
            | [] => @List.Forall_nil _ P
            | x :: l' =>
                @List.Forall_cons _ P x l' (value_nested_ind x) (go l')
            end) vs)
  | VDoc fs =>
      HDoc fs
        ((fix go (l : list (string * value))
            : Forall (fun kv => P (snd kv)) l :=
            match l with
            | [] => @List.Forall_nil _ _
            | (k, x) :: l' =>
                @List.Forall_cons _ (fun kv => P (snd kv)) (k, x) l'
                             (value_nested_ind x) (go l')
            end) fs)
  end.
End ValueInd.

(** [x] may stand before [y] in a list sorted by [key] in direction [dir]. *)
Definition ordered {A : Type} (key : A -> list Z) (dir : direction) (x y : A)
  : Prop :=
  before dir (key x) (key y) = true.

Definition zsum (l : list Z) : Z := fold_right Z.add 0%Z l.

(** The [count] field of a bucket or group document. *)
Definition doc_count (d : doc) : Z :=
  match get_field "count" d with
  | Some (VInt n) => n
  | _ => 0%Z
  end.

(** *** Faceted search *)

(** The two pipelines [get_movies_faceted] ends up sending for the value
    [cast] of the cast key (see [get_movies_faceted_requests]). *)
Definition faceted_base (cast : value) : list stage :=
  [Match (QIn "cast" cast); Sort "tomatoes.viewer.numReviews" DESCENDING].

Definition counting_pipeline (cast : value) : list stage :=
  faceted_base cast ++ [Count "count"].

Definition faceted_pipeline (cast : value) (page movies_per_page : Z)
  : list stage :=
  faceted_base cast
  ++ [Skip (movies_per_page * page)%Z; Limit movies_per_page; facet_stage].

(** The movies matching the cast filter, then in the order the base
    pipeline sorts them in the request [req], then the page cut out of the
    fan-out request by [$skip] and [$limit]. *)
Definition cast_matches (db : database) (cast : value) : list doc :=
  List.filter (matches db (QIn "cast" cast)) (movies db).

Definition cast_sorted (db : database) (req : request) (cast : value)
  : list doc :=
  sort_docs (tie_rank db req) "tomatoes.viewer.numReviews" DESCENDING
            (cast_matches db cast).

Definition faceted_request (cast : value) (page n : Z) : request :=
  ReqAggregate "movies" (faceted_pipeline cast page n) true.

Definition faceted_page (db : database) (cast : value) (page n : Z)
  : list doc :=
  firstn (Z.to_nat n)
         (skipn (Z.to_nat (n * page))
                (cast_sorted db (faceted_request cast page n) cast)).

(** The integers of the fan-out request fit in 64 bits. *)
Definition faceted_fits (cast : value) (page n : Z) : bool :=
  value_fits cast && int64 (n * page) && int64 n.

(** The single document [$facet] makes of its input. *)
Definition facet_doc (input : list doc) : doc :=
  [("runtime",
    VArr (map VDoc (bucket_docs "runtime" [0; 60; 90; 120; 180]%Z
                                (VStr "other") input)));
   ("rating",
    VArr (map VDoc (bucket_docs "metacritic" [0; 50; 70; 90; 100]%Z
                                (VStr "other") input)));
   ("movies",
    VArr (map VDoc (map (fun d => match get_field "title" d with
                                  | Some v => set_field "title" v d
                                  | None => d
                                  end) input)))].

(** The sum of the bucket counts of facet [name] in a facet document. *)
Definition bucket_total (facets : doc) (name : string) : Z :=
  match get_field name facets with
  | Some (VArr bs) =>
      zsum (map (fun b => match b with VDoc f => doc_count f | _ => 0%Z end) bs)
  | _ => 0%Z
  end.

(** *** Sample data *)

Definition sample_movie (id : Z) (title : string) (cast : list string)
    (runtime metacritic reviews : option Z) : doc :=
  [("_id", VOid id); ("title", VStr title); ("cast", VArr (map VStr cast))]
  ++ match runtime with Some r => [("runtime", VInt r)] | None => [] end
  ++ match metacritic with Some r => [("metacritic", VInt r)] | None => [] end
  ++ match reviews with
     | Some r => [("tomatoes", VDoc [("viewer", VDoc [("numReviews", VInt r)])])]
     | None => []
     end.

Definition sample_comment (id movie_id : Z) (email : string) (date : Z) : doc :=
  [("_id", VOid id); ("movie_id", VOid movie_id); ("email", VStr email);
   ("date", VDate date)].

(** 2020-01-01, 2020-06-01 and 2019-01-01 in milliseconds since the epoch. *)
Definition d2020_01_01 : Z := 1577836800000.
Definition d2020_06_01 : Z := 1590969600000.
Definition d2019_01_01 : Z := 1546300800000.

(** Four movies, three of them with Ann in the cast, and the comments on
    the first one; the text index scores nothing; no request fails. *)
Definition sample_db : database :=
  mkDatabase
    [sample_movie 1 "A" ["Ann"; "Bob"] (Some 45%Z) (Some 10%Z) (Some 5%Z);
     sample_movie 2 "B" ["Ann"] (Some 75%Z) None (Some 9%Z);
     sample_movie 3 "C" ["Ann"] (Some 200%Z) (Some 95%Z) None;
     sample_movie 4 "D" ["Cid"] None (Some 100%Z) (Some 7%Z)]
    [sample_comment 10 1 "a@x.org" d2020_01_01;
     sample_comment 11 1 "b@x.org" d2020_06_01;
     sample_comment 12 1 "a@x.org" d2019_01_01;
     sample_comment 13 2 "a@x.org" d2019_01_01]
    (fun _ _ => 0%Z)
    (fun _ => None)
    (fun _ _ => 0%Z).

Definition ann : gmap string value := {[ "cast" := VArr [VStr "Ann"] ]}.

(** *** Statements that are tested against the code *)

(** The bucket counts of both facets add up to the number of all movies
    matching the cast filter, whatever the page. *)
Definition facets_count_all_matches : Prop :=
  forall (db : database) (filters : gmap string value) (cast : value)
         (page n : Z) (facets : doc) (count : value),
    filters !! "cast" = Some cast ->
    get_movies_faceted db filters page n = Ok (facets, count) ->
    bucket_total facets "runtime" = Z.of_nat (length (cast_matches db cast))
    /\ bucket_total facets "rating" = Z.of_nat (length (cast_matches db cast)).

(** A missing cast key and an empty list of names are both refused by an
    assertion. *)
Definition empty_cast_asserts : Prop :=
  forall (db : database) (filters : gmap string value) (page n : Z),
    filters !! "cast" = None \/ filters !! "cast" = Some (VArr []) ->
    exists msg, get_movies_faceted db filters page n = Raise (AssertionError msg).

(** Failures of the store for lack of memory in a sort or a group. *)
Definition resource_limit (f : failure) : bool :=
  match f with
  | CommandFailed _ code =>
      ((code =? 292) || (code =? 16819) || (code =? 16945))%Z
  | Unreachable _ => false
  end.

(** Only a resource limit is signalled as "too large"; any other failure of
    the fan-out request reaches the caller as the driver raised it. *)
Definition only_resource_limits_resignalled : Prop :=
  forall (db : database) (filters : gmap string value) (cast : value)
         (page n : Z) (f : failure),
    filters !! "cast" = Some cast ->
    fault db (ReqAggregate "movies" (faceted_pipeline cast page n) true) = Some f ->
    get_movies_faceted db filters page n
    = Raise (if resource_limit f then too_large else exn_of_failure f).

(** The sample store, refusing every request for lack of authorization. *)
Definition unauthorized : failure :=
  CommandFailed "not authorized on sample_mflix to execute command" 13.

Definition locked_db : database :=
  mkDatabase (movies sample_db) (comments sample_db) (text_score sample_db)
             (fun _ => Some unauthorized) (tie_rank sample_db).

(** The sample store, running out of memory on every request. *)
Definition out_of_memory : failure :=
  CommandFailed "Sort exceeded memory limit" 16819.

Definition exhausted_db : database :=
  mkDatabase (movies sample_db) (comments sample_db) (text_score sample_db)
             (fun _ => Some out_of_memory) (tie_rank sample_db).

(** *** Paginated retrieval *)

(** The predicate the filters compile to. *)
Definition compiled_query (filters : gmap string value) : query :=
  fst (fst (build_query_sort_project filters)).

(** The cursor [get_movies] builds, before [skip] and [limit]: iterating it
    gives the full sorted match set. *)
Definition unpaged (filters : gmap string value) : cursor :=
  let '(query, sort, project) := build_query_sort_project filters in
  cursor_sort (find query project) sort.

(** The movies of pages [first], [first + 1], ... ([n] pages of size [k]),
    one after the other. *)
Fixpoint fetch_pages (db : database) (filters : gmap string value) (k : Z)
    (first : Z) (n : nat) : result (list doc) :=
  match n with
  | O => Ok []
  | S n' =>
      let! p := get_movies db filters first k in
      let! rest := fetch_pages db filters k (first + 1)%Z n' in
      Ok (fst p ++ rest)
  end.


Definition all_filters : gmap string value :=
  {[ "genres" := VArr [VStr "Drama"]; "cast" := VArr [VStr "Ann"];
     "text" := VStr "heist" ]}.

Definition cast_and_genres : gmap string value :=
  {[ "genres" := VArr [VStr "Drama"]; "cast" := VArr [VStr "Ann"] ]}.

(** The sort and the projection the filters compile to. *)
Definition compiled_sort (filters : gmap string value) : sort_spec :=
  snd (fst (build_query_sort_project filters)).

Definition compiled_projection (filters : gmap string value)
  : option projection :=
  snd (build_query_sort_project filters).

(** The key and the direction a cursor sorts by. *)
Definition cursor_key (db : database) (q : query) (s : sort_spec) (d : doc)
  : list Z :=
  match s with
  | SortField path _ => sort_key (doc_path path d)
  | SortTextScore _ =>
      match scorer db q with
      | Some score => sort_key (Some (VInt (score d)))
      | None => []
      end
  end.

Definition cursor_dir (s : sort_spec) : direction :=
  match s with
  | SortField _ dir => dir
  | SortTextScore _ => DESCENDING
  end.

(** *** The movie with its comments *)

(** The movies a movie identifier selects. *)
Definition movies_with_id (db : database) (oid : Z) : list doc :=
  List.filter (matches db (QEq "_id" (VOid oid))) (movies db).

(** The comments whose [movie_id] is the given [_id]. *)
Definition comments_of (db : database) (id : option value) : list doc :=
  List.filter (fun c => opt_value_eqb (get_field "movie_id" c) id)
              (comments db).

(** [c1] is not older than [c2] in the sort order of the [date] field. *)
Definition newer_first (c1 c2 : doc) : Prop :=
  lex_leb (sort_key (get_field "date" c2)) (sort_key (get_field "date" c1))
  = true.

(** The sample store, unreachable. *)
Definition offline_db : database :=
  mkDatabase (movies sample_db) (comments sample_db) (text_score sample_db)
             (fun _ => Some (Unreachable "connection refused"))
             (tie_rank sample_db).

(** *** The ranking of commenters *)

(** The number of comments grouped under the email [e]. *)
Definition authored (db : database) (e : value) : Z :=
  count_where (fun c => value_eqb (group_key "email" c) e) (comments db).

(** The document [$group] makes of the email [e] with [n] comments. *)
Definition commenter (e : value) (n : Z) : doc :=
  [("_id", e); ("count", VInt n)].

(** [d1] has at least as many comments as [d2]. *)
Definition more_active (d1 d2 : doc) : Prop :=
  (doc_count d2 <= doc_count d1)%Z.

(** A store whose comments are [n1] by one author, then [n2] by another,
    and so on. *)
Fixpoint comments_by (authors : list (string * nat)) (next_id : Z)
  : list doc :=
  match authors with
  | [] => []
  | (email, n) :: authors' =>
      map (fun i => sample_comment (next_id + Z.of_nat i) 1 email d2020_01_01)
          (seq 0 n)
      ++ comments_by authors' (next_id + Z.of_nat n)
  end.

Definition busy_db : database :=
  mkDatabase (movies sample_db)
             (comments_by [("a@x.org", 5); ("top@x.org", 50); ("b@x.org", 3)]%nat 100)
             (text_score sample_db) (fun _ => None) (tie_rank sample_db).

(** * The rest of [db.py]: writes, users and sessions *)

(** ** Python objects returned by these functions *)

(** Besides documents and [None] ([PyVal]), these functions return lists of
    documents, the result objects of the driver, dictionaries built on the
    spot, and exception objects handed back as values. *)
Inductive pyobj : Type :=
| PyVal (v : value)
| PyDocs (ds : list doc)
| PyExn (e : exn)                        (* the exception object [e] *)
| PyStrOf (e : exn)                      (* [str(e)] *)
| PyDict (fields : list (string * pyobj))
| PyInsertOneResult (inserted_id : value)
| PyUpdateResult (matched_count modified_count : Z) (upserted_id : option value)
| PyDeleteResult (deleted_count : Z).

(** [{"success": True}]. *)
Definition success : pyobj := PyDict [("success", PyVal (VBool true))].

(** ** The store with its writable collections *)

(** A filter document such as [{"_id": oid, "email": email}] holds when
    every field of it matches. *)
Definition filter_matches (f : doc) (d : doc) : bool :=
  forallb (fun kv => field_matches (get_field (fst kv) d) (snd kv)) f.

(** Further requests: [find] with the inclusion projection
    [{field: 1, ...}], [find_one], the three single-document writes, and
    the aggregation of [get_all_genres]. *)
Inductive genre_stage : Type :=
| Unwind (path : string)                 (* {"$unwind": "$path"} *)
| GroupAddToSet (field src : string).
    (* {"$group": {"_id": None, field: {"$addToSet": "$src"}}} *)

Inductive command : Type :=
| CmdFind (coll : string) (q : query) (fields : list string)
| CmdFindOne (coll : string) (f : doc)
| CmdInsertOne (coll : string) (d : doc) (majority : bool)
| CmdUpdateOne (coll : string) (f : doc) (set : doc) (upsert : bool)
| CmdDeleteOne (coll : string) (f : doc)
| CmdAggregate (coll : string) (pipeline : list genre_stage).

(** The store behind [db]: the read side used so far, the collections
    [users] and [sessions], whether [users] has a unique index on [email]
    (what [add_user] counts on when it catches [DuplicateKeyError]), the
    next ObjectId to be generated, and the failures of the environment for
    the further requests. *)
Record store : Type := mkStore {
  st_db : database;
  st_users : list doc;
  st_sessions : list doc;
  st_unique_email : bool;
  st_next_oid : Z;
  st_fault : command -> option failure
}.

Definition get_coll (st : store) (name : string) : list doc :=
  if String.eqb name "users" then st_users st
  else if String.eqb name "sessions" then st_sessions st
  else collection (st_db st) name.

Definition set_coll (st : store) (name : string) (ds : list doc) : store :=
  if String.eqb name "users" then
    mkStore (st_db st) ds (st_sessions st) (st_unique_email st)
            (st_next_oid st) (st_fault st)
  else if String.eqb name "sessions" then
    mkStore (st_db st) (st_users st) ds (st_unique_email st)
            (st_next_oid st) (st_fault st)
  else if String.eqb name "movies" then
    mkStore (mkDatabase ds (comments (st_db st)) (text_score (st_db st))
                        (fault (st_db st)) (tie_rank (st_db st)))
            (st_users st) (st_sessions st) (st_unique_email st)
            (st_next_oid st) (st_fault st)
  else if String.eqb name "comments" then
    mkStore (mkDatabase (movies (st_db st)) ds (text_score (st_db st))
                        (fault (st_db st)) (tie_rank (st_db st)))
            (st_users st) (st_sessions st) (st_unique_email st)
            (st_next_oid st) (st_fault st)
  else st.

(** The store after one ObjectId has been generated. *)
Definition bump (st : store) : store :=
  mkStore (st_db st) (st_users st) (st_sessions st) (st_unique_email st)
          (st_next_oid st + 1)%Z (st_fault st).

(** ** Computations that change the store and may raise *)

Definition io (A : Type) : Type := store -> result A * store.

Definition io_ret {A : Type} (a : A) : io A := fun st => (Ok a, st).

Definition io_raise {A : Type} (e : exn) : io A := fun st => (Raise e, st).

Definition io_lift {A : Type} (r : result A) : io A := fun st => (r, st).

Definition io_bind {A B : Type} (m : io A) (k : A -> io B) : io B :=
  fun st =>
    match m st with
    | (Ok a, st') => k a st'
    | (Raise e, st') => (Raise e, st')
    end.

Notation "'do!' x ':=' m 'in' k" := (io_bind m (fun x => k))
  (at level 10, x name, m at level 100, k at level 200).

(** [try: m except ...]: what was written before the exception stays. *)
Definition io_try {A : Type} (m : io A) (h : exn -> option (io A)) : io A :=
  fun st =>
    match m st with
    | (Ok a, st') => (Ok a, st')
    | (Raise e, st') =>
        match h e with
        | Some k => k st'
        | None => (Raise e, st')
        end
    end.

Definition check_cmd (c : command) : io unit :=
  fun st =>
    match st_fault st c with
    | Some f => (Raise (exn_of_failure f), st)
    | None => (Ok tt, st)
    end.

(** ** The further requests *)

(** The driver raises a command failure with one of these codes as
    [DuplicateKeyError], a subclass of [OperationFailure]. *)
Definition is_duplicate_key (e : exn) : bool :=
  match e with
  | OperationFailure _ (Some code) =>
      ((code =? 11000) || (code =? 11001) || (code =? 12582))%Z
  | _ => false
  end.

Definition duplicate_key : exn :=
  OperationFailure "E11000 duplicate key error" (Some 11000%Z).

Definition immutable_id : exn :=
  OperationFailure "the (immutable) field _id was found to have been altered"
                   (Some 66%Z).

(** Two documents have the same key in an index on [field]; a missing
    field is indexed as null. *)
Definition same_key (field : string) (d1 d2 : doc) : bool :=
  value_eqb (group_key field d1) (group_key field d2).

(** The first document satisfying [p], with those before and after it. *)
Fixpoint split_first (p : doc -> bool) (ds : list doc)
  : option (list doc * doc * list doc) :=
  match ds with
  | [] => None
  | d :: ds' =>
      if p d then Some ([], d, ds')
      else match split_first p ds' with
           | Some (pre, x, post) => Some (d :: pre, x, post)
           | None => None
           end
  end.

(** [{"$set": set}] on a document. *)
Definition apply_set (set : doc) (d : doc) : doc :=
  fold_left (fun acc kv => set_field (fst kv) (snd kv) acc) set d.

(** The inclusion projection [{field: 1, ...}]: [_id] and the listed
    fields, in the order of the document. *)
Definition project_fields (fields : list string) (d : doc) : doc :=
  List.filter (fun kv => String.eqb (fst kv) "_id"
                         || existsb (String.eqb (fst kv)) fields) d.

(** [list(db[coll].find(q, {field: 1, ...}))]. *)
Definition find_fields (coll : string) (q : query) (fields : list string)
  : io (list doc) :=
  do! _ := check_cmd (CmdFind coll q fields) in
  do! _ := io_lift (check_query q) in
  fun st =>
    (Ok (map (project_fields fields)
             (List.filter (matches (st_db st) q) (get_coll st coll))), st).

(** [db[coll].find_one(f)]: the first matching document, or [None]. *)
Definition find_one (coll : string) (f : doc) : io value :=
  do! _ := check_cmd (CmdFindOne coll f) in
  fun st =>
    (Ok (match List.find (filter_matches f) (get_coll st coll) with
         | Some d => VDoc d
         | None => VNull
         end), st).

(** Would [d] break a unique index of [coll], given the other documents
    [others] of it?  Every collection has one on [_id]. *)
Definition breaks_unique (st : store) (coll : string) (d : doc)
    (others : list doc) : bool :=
  existsb (same_key "_id" d) others
  || (String.eqb coll "users" && st_unique_email st
      && existsb (same_key "email" d) others).

(** [db[coll].insert_one(d)]: a document without [_id] gets a new ObjectId
    before it is sent; the document goes last. *)
Definition insert_one (coll : string) (d : doc) (majority : bool) : io pyobj :=
  fun st =>
    let '(d', st1) :=
      match get_field "_id" d with
      | Some _ => (d, st)
      | None => (("_id", VOid (st_next_oid st)) :: d, bump st)
      end in
    match st_fault st (CmdInsertOne coll d majority) with
    | Some f => (Raise (exn_of_failure f), st1)
    | None =>
        if breaks_unique st1 coll d' (get_coll st1 coll) then
          (Raise duplicate_key, st1)
        else
          (Ok (PyInsertOneResult (group_key "_id" d')),
           set_coll st1 coll (get_coll st1 coll ++ [d']))
    end.

(** [db[coll].update_one(f, {"$set": set}, upsert=upsert)]: the first
    matching document is changed in place; without a match an upsert
    inserts the fields of the filter with the update applied. *)
Definition update_one (coll : string) (f set : doc) (upsert : bool)
  : io pyobj :=
  do! _ := check_cmd (CmdUpdateOne coll f set upsert) in
  fun st =>
    match split_first (filter_matches f) (get_coll st coll) with
    | Some (pre, d, post) =>
        let d' := apply_set set d in
        if negb (opt_value_eqb (get_field "_id" d') (get_field "_id" d)) then
          (Raise immutable_id, st)
        else if negb (same_key "email" d' d)
                && String.eqb coll "users" && st_unique_email st
                && existsb (same_key "email" d') (pre ++ post) then
          (Raise duplicate_key, st)
        else
          (Ok (PyUpdateResult 1 (if value_eqb (VDoc d') (VDoc d) then 0 else 1)
                              None),
           set_coll st coll (pre ++ d' :: post))
    | None =>
        if upsert then
          let '(base, st1) :=
            match get_field "_id" f with
            | Some _ => (f, st)
            | None => (("_id", VOid (st_next_oid st)) :: f, bump st)
            end in
          let d' := apply_set set base in
          if breaks_unique st1 coll d' (get_coll st1 coll) then
            (Raise duplicate_key, st1)
          else
            (Ok (PyUpdateResult 0 0 (Some (group_key "_id" d'))),
             set_coll st1 coll (get_coll st1 coll ++ [d']))
        else (Ok (PyUpdateResult 0 0 None), st)
    end.

(** [db[coll].delete_one(f)]: the first matching document goes. *)
Definition delete_one (coll : string) (f : doc) : io pyobj :=
  do! _ := check_cmd (CmdDeleteOne coll f) in
  fun st =>
    match split_first (filter_matches f) (get_coll st coll) with
    | Some (pre, _, post) =>
        (Ok (PyDeleteResult 1), set_coll st coll (pre ++ post))
    | None => (Ok (PyDeleteResult 0), st)
    end.

(** [$unwind]: one document per element of an array, the field replaced by
    the element; a missing field, null and the empty array give none; any
    other value gives the document itself. *)
Definition unwind (path : string) (d : doc) : list doc :=
  match get_field path d with
  | None | Some VNull => []
  | Some (VArr xs) => map (fun x => set_field path x d) xs
  | Some _ => [d]
  end.

(** [$group] with [_id: None] and [$addToSet]: nothing on no input, else
    one document holding the distinct values of [src]. *)
Definition group_add_to_set (field src : string) (ds : list doc) : list doc :=
  match ds with
  | [] => []
  | _ :: _ =>
      [[("_id", VNull);
        (field, VArr (distinct [] (flat_map
                                     (fun d => match get_field src d with
                                               | Some v => [v]
                                               | None => []
                                               end) ds)))]]
  end.

Definition run_genre_stage (s : genre_stage) (ds : list doc) : list doc :=
  match s with
  | Unwind path => flat_map (unwind path) ds
  | GroupAddToSet field src => group_add_to_set field src ds
  end.

Definition aggregate_genres (coll : string) (pipeline : list genre_stage)
  : io (list doc) :=
  do! _ := check_cmd (CmdAggregate coll pipeline) in
  fun st =>
    (Ok (fold_left (fun ds s => run_genre_stage s ds) pipeline
                   (get_coll st coll)), st).

(** ** The functions *)

(** Movies by country: the title and [_id] of each; an exception is
    returned, not raised. *)
Definition get_movies_by_country (countries : value) : io pyobj :=
  io_try
    (let query := QIn "countries" countries in
     let projection := ["title"] in
     do! l := find_fields "movies" query projection in
     io_ret (PyDocs l))
    (fun e => Some (io_ret (PyExn e))).

(** All genres in the database. *)
Definition get_all_genres : io value :=
  do! r := aggregate_genres "movies"
             [Unwind "genres"; GroupAddToSet "genres" "genres"] in
  do! first := io_lift (index0 r) in
  io_ret (dict_get "genres" first).

(** The [user] object of the API layer, as far as it is read here. *)
Record User : Type := mkUser {
  u_name : value;
  u_email : value
}.

Definition add_comment (movie_id : string) (user : User) (comment date : value)
  : io pyobj :=
  do! oid := io_lift (ObjectId movie_id) in
  let comment_doc :=
    [("name", u_name user); ("email", u_email user); ("movie_id", VOid oid);
     ("text", comment); ("date", date)] in
  insert_one "comments" comment_doc false.

Definition update_comment (comment_id : string) (user_email text date : value)
  : io pyobj :=
  do! oid := io_lift (ObjectId comment_id) in
  do! response :=
    update_one "comments" [("_id", VOid oid); ("email", user_email)]
               [("text", text); ("date", date)] false in
  io_ret response.

Definition delete_comment (comment_id : string) (user_email : value)
  : io pyobj :=
  do! oid := io_lift (ObjectId comment_id) in
  do! response :=
    delete_one "comments" [("_id", VOid oid); ("email", user_email)] in
  io_ret response.

Definition get_user (email : value) : io value :=
  find_one "users" [("email", email)].

Definition add_user (name email hashedpw : value) : io pyobj :=
  io_try
    (do! _ := insert_one "users"
                [("name", name); ("email", email); ("password", hashedpw)]
                true in
     io_ret success)
    (fun e =>
       if is_duplicate_key e then
         Some (io_ret (PyDict
           [("error",
             PyVal (VStr "A user with the given email already exists."))]))
       else None).

Definition login_user (email jwt : value) : io pyobj :=
  io_try
    (do! _ := update_one "sessions" [("user_id", email)] [("jwt", jwt)] true in
     io_ret success)
    (fun e => Some (io_ret (PyDict [("error", PyExn e)]))).

Definition logout_user (email : value) : io pyobj :=
  io_try
    (do! _ := delete_one "sessions" [("user_id", email)] in
     io_ret success)
    (fun e => Some (io_ret (PyDict [("error", PyExn e)]))).

Definition get_user_session (email : value) : io pyobj :=
  io_try
    (do! r := find_one "sessions" [("user_id", email)] in
     io_ret (PyVal r))
    (fun e => Some (io_ret (PyDict [("error", PyExn e)]))).

Definition delete_user (email : value) : io pyobj :=
  io_try
    (do! _ := delete_one "sessions" [("user_id", email)] in
     do! _ := delete_one "users" [("email", email)] in
     do! u := get_user email in
     match u with
     | VNull => io_ret success
     | _ => io_raise (ValueError "Deletion unsuccessful")
     end)
    (fun e => Some (io_ret (PyDict [("error", PyExn e)]))).

Definition update_prefs (email prefs : value) : io pyobj :=
  let prefs := match prefs with VNull => VDoc [] | _ => prefs end in
  io_try
    (do! response :=
       update_one "users" [("email", email)] [("preferences", prefs)] false in
     match response with
     | PyUpdateResult 0 _ _ =>
         io_ret (PyDict [("error", PyVal (VStr "no user found"))])
     | _ => io_ret response
     end)
    (fun e => Some (io_ret (PyDict [("error", PyStrOf e)]))).

(** Flags the user as an admin; returns [None]. *)
Definition make_admin (email : value) : io pyobj :=
  do! _ := update_one "users" [("email", email)] [("isAdmin", VBool true)]
                      false in
  io_ret (PyVal VNull).

(** ** Notions and sample data for the further functions *)

(** [g] is one of the genres of the movie [m]. *)
Definition has_genre (m : doc) (g : value) : Prop :=
  match get_field "genres" m with
  | None | Some VNull => False
  | Some (VArr xs) => List.In g xs
  | Some v => v = g
  end.

(** No document of [coll] has the ObjectId generated next as its [_id]. *)
Definition fresh_id (st : store) (coll : string) : bool :=
  forallb (fun d => negb (field_matches (get_field "_id" d)
                                        (VOid (st_next_oid st))))
          (get_coll st coll).

(** The documents of [ds] a filter selects. *)
Definition selected (f : doc) (ds : list doc) : list doc :=
  List.filter (filter_matches f) ds.

Definition world_movie (id : Z) (title : string) (countries : list string)
    (genres : option (list string)) : doc :=
  [("_id", VOid id); ("title", VStr title);
   ("countries", VArr (map VStr countries))]
  ++ match genres with
     | Some gs => [("genres", VArr (map VStr gs))]
     | None => []
     end.

Definition sample_user (id : Z) (name email password : string) : doc :=
  [("_id", VOid id); ("name", VStr name); ("email", VStr email);
   ("password", VStr password)].

Definition sample_session (id : Z) (email jwt : string) : doc :=
  [("_id", VOid id); ("user_id", VStr email); ("jwt", VStr jwt)].

(** Three movies, the comments of [sample_db], two users, one session; a
    unique index on the email of users; no request fails. *)
Definition sample_store : store :=
  mkStore
    (mkDatabase
       [world_movie 1 "A" ["USA"; "France"] (Some ["Drama"; "Comedy"]);
        world_movie 2 "B" ["France"] (Some ["Drama"]);
        world_movie 3 "C" ["Japan"] None]
       (comments sample_db) (fun _ _ => 0%Z) (fun _ => None)
       (fun _ _ => 0%Z))
    [sample_user 20 "Ann" "a@x.org" "h1"; sample_user 21 "Bob" "b@x.org" "h2"]
    [sample_session 30 "a@x.org" "t0"]
    true 1000 (fun _ => None).

(** The same store with every further request failing. *)
Definition offline_store : store :=
  mkStore (st_db sample_store) (st_users sample_store)
          (st_sessions sample_store) true 1000
          (fun _ => Some (Unreachable "connection refused")).

(** The same store without movies. *)
Definition empty_store : store :=
  mkStore (mkDatabase [] [] (fun _ _ => 0%Z) (fun _ => None) (fun _ _ => 0%Z))
          [] [] true 1000 (fun _ => None).

(** The document [add_comment] builds, before it gets its [_id]. *)
Definition comment_doc_of (user : User) (oid : Z) (comment date : value)
  : doc :=
  [("name", u_name user); ("email", u_email user); ("movie_id", VOid oid);
   ("text", comment); ("date", date)].

Definition ann_user : User := mkUser (VStr "Ann") (VStr "a@x.org").

(** The document [add_user] builds, before it gets its [_id]. *)
Definition user_doc_of (name email hashedpw : value) : doc :=
  [("name", name); ("email", email); ("password", hashedpw)].

(** [{"error": "A user with the given email already exists."}]. *)
Definition email_exists : pyobj :=
  PyDict [("error", PyVal (VStr "A user with the given email already exists."))].

(** No two users have the same email. *)
Definition emails_unique (st : store) : Prop :=
  List.NoDup (map (group_key "email") (st_users st)).

(** The sample store without its unique index: two users share an email. *)
Definition twins_store : store :=
  mkStore (st_db sample_store)
          [sample_user 20 "Ann" "a@x.org" "h1"; sample_user 21 "Bob" "b@x.org" "h2";
           sample_user 22 "Ann again" "a@x.org" "h3"]
          (st_sessions sample_store) false 1000 (fun _ => None).

(** [ds] without the first document satisfying [p]. *)
Definition remove_first (p : doc -> bool) (ds : list doc) : list doc :=
  match split_first p ds with
  | Some (pre, _, post) => pre ++ post
  | None => ds
  end.

(** The session an upsert creates for [email]. *)
Definition session_doc_of (oid : Z) (email jwt : value) : doc :=
  [("_id", VOid oid); ("user_id", email); ("jwt", jwt)].

(** [{"error": e}] for the exception object [e]. *)
Definition error_of (e : exn) : pyobj := PyDict [("error", PyExn e)].

(** The sample store with requests on [users] failing, the others not. *)
Definition users_down_store : store :=
  mkStore (st_db sample_store) (st_users sample_store)
          (st_sessions sample_store) true 1000
          (fun c => match c with
                    | CmdDeleteOne "users" _ | CmdInsertOne "users" _ _
                    | CmdUpdateOne "users" _ _ _ =>
                        Some (Unreachable "connection refused")
                    | _ => None
                    end).

(** [{"error": "no user found"}]. *)
Definition no_user_found : pyobj :=
  PyDict [("error", PyVal (VStr "no user found"))].

(** The preferences [update_prefs] stores: [{}] for [None]. *)
Definition prefs_or_empty (prefs : value) : value :=
  match prefs with
  | VNull => VDoc []
  | _ => prefs
  end.



(** *** Pages and the order of equal sort keys *)

(** The movies the compiled predicate selects. *)
Definition matched (db : database) (filters : gmap string value) : list doc :=
  List.filter (matches db (compiled_query filters)) (movies db).

(** The cursor [get_movies] iterates for page [page] of size [n]. *)
Definition page_cursor (filters : gmap string value) (page n : Z) : cursor :=
  mkCursor (compiled_query filters) (compiled_projection filters)
           (Some (compiled_sort filters)) (n * page) n.

(** The matching movies in the order the store sorts them while it serves
    the cursor [c]. *)
Definition sorted_for (db : database) (filters : gmap string value)
    (c : cursor) : list doc :=
  sort_by (cursor_key db (compiled_query filters) (compiled_sort filters))
          (cursor_dir (compiled_sort filters))
          (arrange (tie_rank db (ReqFind "movies" c)) (matched db filters)).

(** The store ranks the documents in the same way in every request. *)
Definition steady (db : database) : Prop :=
  forall (r r' : request) (d : doc), tie_rank db r d = tie_rank db r' d.

(** No two of the matching movies have the same sort key. *)
Definition tie_free (db : database) (filters : gmap string value) : Prop :=
  forall d1 d2 : doc,
    List.In d1 (matched db filters) -> List.In d2 (matched db filters) ->
    cursor_key db (compiled_query filters) (compiled_sort filters) d1
    = cursor_key db (compiled_query filters) (compiled_sort filters) d2 ->
    d1 = d2.

(** Whatever the store does with equal sort keys, the pages put one after
    the other hold every matching movie once. *)
Definition pages_reproduce_matches : Prop :=
  forall (db : database) (filters : gmap string value) (k : Z) (n : nat),
    healthy db ->
    check_query (compiled_query filters) = Ok tt ->
    (0 < k)%Z ->
    query_fits (compiled_query filters) = true ->
    int64 (k * Z.of_nat n) = true ->
    (length (matched db filters) <= n * Z.to_nat k)%nat ->
    exists g l,
      projector db (compiled_query filters) (compiled_projection filters) = Ok g
      /\ fetch_pages db filters k 0 n = Ok l
      /\ Permutation l (map g (matched db filters)).

(** Three movies nobody has reviewed, in a store that comes across them
    in the order of their identifiers when a request skips nothing, and in
    the opposite order when it skips. *)
Definition unrated (id : Z) (title : string) : doc :=
  sample_movie id title ["Ann"] None None None.

Definition id_rank (d : doc) : Z :=
  match get_field "_id" d with
  | Some (VOid oid) => oid
  | _ => 0%Z
  end.

Definition fickle_db : database :=
  mkDatabase [unrated 1 "A"; unrated 2 "B"; unrated 3 "C"] []
             (fun _ _ => 0%Z) (fun _ => None)
             (fun r d =>
                match r with
                | ReqFind _ c =>
                    if (c_skip c =? 0)%Z then id_rank d else (- id_rank d)%Z
                | _ => 0%Z
                end).

(** The rank of the documents in the request [get_movie] sends. *)
Definition movie_rank (db : database) (oid : Z) : doc -> Z :=
  tie_rank db (ReqAggregate "movies" (movie_pipeline oid) false).

(** The review count a movie is sorted by. *)
Definition reviews_key (d : doc) : list Z :=
  sort_key (doc_path "tomatoes.viewer.numReviews" d).

(** * Properties of the model *)

(** ** Equality of values *)

Lemma value_eqb_eq (a b : value) : value_eqb a b = true <-> a = b.
Proof.
  revert b. induction a as [| x | x | x | x | x | xs IH | fs IH]
    using value_nested_ind; intros b.
  - destruct b; simpl; split; congruence.
  - destruct b; simpl; try (split; congruence).
    rewrite Bool.eqb_true_iff. split; congruence.
  - destruct b; simpl; try (split; congruence).
    rewrite Z.eqb_eq. split; congruence.
  - destruct b; simpl; try (split; congruence).
    rewrite String.eqb_eq. split; congruence.
  - destruct b; simpl; try (split; congruence).
    rewrite Z.eqb_eq. split; congruence.
  - destruct b; simpl; try (split; congruence).
    rewrite Z.eqb_eq. split; congruence.
  - destruct b as [| | | | | | ys |]; simpl; try (split; congruence).
    revert ys. induction IH as [| x xs Hx _ IHxs]; intros [| y ys];
      try (split; congruence).
    rewrite andb_true_iff, Hx, IHxs. split.
    + intros [-> H]. congruence.
    + intros H. injection H as -> ->. auto.
  - destruct b as [| | | | | | | gs]; simpl; try (split; congruence).
    revert gs. induction IH as [| [k x] fs Hx _ IHfs]; intros [| [k' y] gs];
      try (split; congruence).
    simpl in Hx.
    rewrite !andb_true_iff, String.eqb_eq, Hx, IHfs. split.
    + intros [[-> ->] H]. congruence.
    + intros H. injection H as -> -> ->. auto.
Qed.

Lemma value_eqb_refl (a : value) : value_eqb a a = true.
Proof. now apply value_eqb_eq. Qed.

Lemma value_eqb_neq (a b : value) : value_eqb a b = false <-> a <> b.
Proof.
  rewrite <- value_eqb_eq. destruct (value_eqb a b); split; congruence.
Qed.

(** ** The sort order is a total preorder *)

Lemma lex_leb_refl (a : list Z) : lex_leb a a = true.
Proof.
  induction a as [| x a IH]; simpl; auto.
  rewrite Z.ltb_irrefl. exact IH.
Qed.

Lemma lex_leb_total (a b : list Z) : lex_leb a b = true \/ lex_leb b a = true.
Proof.
  revert b. induction a as [| x a IH]; intros [| y b]; simpl; auto.
  destruct (Z.ltb_spec x y), (Z.ltb_spec y x); auto; lia.
Qed.

Lemma lex_leb_trans (a b c : list Z) :
  lex_leb a b = true -> lex_leb b c = true -> lex_leb a c = true.
Proof.
  revert b c. induction a as [| x a IH]; intros [| y b] [| z c]; simpl;
    auto; try discriminate.
  destruct (Z.ltb_spec x y), (Z.ltb_spec y x), (Z.ltb_spec y z),
    (Z.ltb_spec z y), (Z.ltb_spec x z), (Z.ltb_spec z x);
    auto; try discriminate; try lia.
  apply IH.
Qed.

Lemma before_total dir (a b : list Z) :
  before dir a b = true \/ before dir b a = true.
Proof. destruct dir; simpl; apply lex_leb_total. Qed.

Lemma before_trans dir (a b c : list Z) :
  before dir a b = true -> before dir b c = true -> before dir a c = true.
Proof.
  destruct dir; simpl; intros H1 H2.
  - exact (lex_leb_trans _ _ _ H1 H2).
  - exact (lex_leb_trans _ _ _ H2 H1).
Qed.

(** ** The stable sort sorts *)

Section StableSortFacts.
Context {A : Type}.
Variable key : A -> list Z.
Variable dir : direction.

Lemma insert_sorted_perm (x : A) (l : list A) :
  Permutation (insert_sorted key dir x l) (x :: l).
Proof.
  induction l as [| y l IH]; simpl; auto.
  destruct (before dir (key y) (key x)); auto.
  rewrite IH. apply perm_swap.
Qed.

Lemma insert_sorted_sorted (x : A) (l : list A) :
  StronglySorted (ordered key dir) l ->
  StronglySorted (ordered key dir) (insert_sorted key dir x l).
Proof.
  induction 1 as [| y l Hs IH Hy]; simpl.
  - repeat constructor.
  - destruct (before dir (key y) (key x)) eqn:E.
    + constructor; auto.
      rewrite (insert_sorted_perm x l). constructor; auto.
    + assert (Hxy : ordered key dir x y).
      { destruct (before_total dir (key x) (key y)); [auto | congruence]. }
      constructor.
      * constructor; auto.
      * constructor; auto.
        eapply List.Forall_impl; [| exact Hy].
        intros z Hz. exact (before_trans _ _ _ _ Hxy Hz).
Qed.

Lemma fold_insert_perm (l acc : list A) :
  Permutation (fold_left (fun acc x => insert_sorted key dir x acc) l acc)
              (acc ++ l).
Proof.
  revert acc. induction l as [| x l IH]; intros acc; simpl.
  - now rewrite app_nil_r.
  - rewrite IH, insert_sorted_perm. apply Permutation_middle.
Qed.

Lemma fold_insert_sorted (l acc : list A) :
  StronglySorted (ordered key dir) acc ->
  StronglySorted (ordered key dir)
    (fold_left (fun acc x => insert_sorted key dir x acc) l acc).
Proof.
  revert acc. induction l as [| x l IH]; intros acc H; simpl; auto.
  apply IH, insert_sorted_sorted, H.
Qed.

Lemma sort_by_perm (l : list A) : Permutation (sort_by key dir l) l.
Proof. exact (fold_insert_perm l []). Qed.

Lemma sort_by_sorted (l : list A) : StronglySorted (ordered key dir) (sort_by key dir l).
Proof. apply fold_insert_sorted. constructor. Qed.

Lemma sort_by_length (l : list A) : length (sort_by key dir l) = length l.
Proof. apply Permutation_length, sort_by_perm. Qed.
End StableSortFacts.

(** The sort looks at the keys only. *)
Lemma sort_by_ext {A : Type} (key key' : A -> list Z) (dir : direction)
    (l : list A) :
  (forall x, key x = key' x) -> sort_by key dir l = sort_by key' dir l.
Proof.
  intros Hext. unfold sort_by. generalize (@nil A) as acc.
  induction l as [| x l IH]; intros acc; [reflexivity |].
  cbn [fold_left]. rewrite IH. f_equal.
  induction acc as [| y acc IHacc]; [reflexivity |].
  cbn [insert_sorted]. rewrite !Hext, IHacc. reflexivity.
Qed.

Lemma lex_leb_antisym (a b : list Z) :
  lex_leb a b = true -> lex_leb b a = true -> a = b.
Proof.
  revert b. induction a as [| x a IH]; intros [| y b]; simpl;
    try discriminate; auto.
  destruct (Z.ltb_spec x y), (Z.ltb_spec y x); try discriminate; try lia.
  intros H1 H2. f_equal; [lia | auto].
Qed.

Lemma before_antisym dir (a b : list Z) :
  before dir a b = true -> before dir b a = true -> a = b.
Proof.
  destruct dir; simpl; intros H1 H2; auto using lex_leb_antisym.
Qed.

(** Two sorted lists with the same elements are the same list when no two
    elements have the same key. *)
Lemma sorted_unique {A : Type} (key : A -> list Z) (dir : direction)
    (l1 l2 : list A) :
  (forall x y, List.In x l1 -> List.In y l1 -> key x = key y -> x = y) ->
  Permutation l1 l2 ->
  StronglySorted (ordered key dir) l1 ->
  StronglySorted (ordered key dir) l2 ->
  l1 = l2.
Proof.
  intros Hinj Hperm H1. revert l2 Hperm.
  induction H1 as [| x l1 Hs1 IH Hx]; intros l2 Hperm H2.
  - apply Permutation_nil in Hperm. now subst.
  - destruct l2 as [| y l2].
    { apply Permutation_sym, Permutation_nil in Hperm. discriminate. }
    inversion H2 as [| ? ? Hs2 Hy]; subst.
    rewrite List.Forall_forall in Hx, Hy.
    assert (Hxy : x = y).
    { assert (Hyin : List.In y (x :: l1)).
      { apply (Permutation_in _ (Permutation_sym Hperm)). now left. }
      assert (Hxin : List.In x (y :: l2)).
      { apply (Permutation_in _ Hperm). now left. }
      destruct Hyin as [E | Hyin]; [exact E |].
      destruct Hxin as [E | Hxin]; [now symmetry |].
      apply Hinj; [now left | now right |].
      apply (before_antisym dir); [apply Hx, Hyin | apply Hy, Hxin]. }
    subst y. f_equal. apply IH.
    + intros a b Ha Hb. apply Hinj; now right.
    + exact (Permutation_cons_inv Hperm).
    + exact Hs2.
Qed.

Lemma sorted_map_keys {A : Type} (key : A -> list Z) (dir : direction)
    (l : list A) :
  StronglySorted (ordered key dir) l ->
  StronglySorted (ordered (fun k : list Z => k) dir) (map key l).
Proof.
  induction 1 as [| x l Hs IH Hx]; cbn [map]; constructor; auto.
  rewrite List.Forall_forall in *. intros k Hk.
  apply in_map_iff in Hk. destruct Hk as (y & <- & Hy). now apply Hx.
Qed.

(** Two sorted lists with the same elements have the same keys, position
    by position. *)
Lemma sorted_keys_unique {A : Type} (key : A -> list Z) (dir : direction)
    (l1 l2 : list A) :
  Permutation l1 l2 ->
  StronglySorted (ordered key dir) l1 ->
  StronglySorted (ordered key dir) l2 ->
  map key l1 = map key l2.
Proof.
  intros Hperm H1 H2.
  apply (sorted_unique (fun k : list Z => k) dir).
  - auto.
  - now apply Permutation_map.
  - now apply sorted_map_keys.
  - now apply sorted_map_keys.
Qed.

(** Whatever the ranks, a sort returns the documents it was given, in the
    order of their keys. *)
Lemma arrange_perm (rank : doc -> Z) (ds : list doc) :
  Permutation (arrange rank ds) ds.
Proof. apply sort_by_perm. Qed.

Lemma sort_docs_perm (rank : doc -> Z) (path : string) (dir : direction)
    (ds : list doc) :
  Permutation (sort_docs rank path dir ds) ds.
Proof. unfold sort_docs. now rewrite sort_by_perm, arrange_perm. Qed.

Lemma sort_docs_length (rank : doc -> Z) (path : string) (dir : direction)
    (ds : list doc) :
  length (sort_docs rank path dir ds) = length ds.
Proof. apply Permutation_length, sort_docs_perm. Qed.

Lemma sort_docs_sorted (rank : doc -> Z) (path : string) (dir : direction)
    (ds : list doc) :
  StronglySorted (ordered (fun d => sort_key (doc_path path d)) dir)
                 (sort_docs rank path dir ds).
Proof. apply sort_by_sorted. Qed.

(** ** Buckets partition their input *)

Lemma zsum_app (l1 l2 : list Z) : zsum (l1 ++ l2) = (zsum l1 + zsum l2)%Z.
Proof. induction l1 as [| x l1 IH]; simpl; [reflexivity | rewrite IH; lia]. Qed.

Lemma count_where_cons (f : doc -> bool) (d : doc) (ds : list doc) :
  count_where f (d :: ds) = ((if f d then 1 else 0) + count_where f ds)%Z.
Proof. unfold count_where. simpl. destruct (f d); simpl length; lia. Qed.

Lemma count_where_nonneg (f : doc -> bool) (ds : list doc) :
  (0 <= count_where f ds)%Z.
Proof. unfold count_where. lia. Qed.

(** Exactly one of distinct labels equals a label of the list. *)
Lemma no_label (labels : list value) (v : value) :
  ~ List.In v labels ->
  zsum (map (fun l => if value_eqb v l then 1 else 0)%Z labels) = 0%Z.
Proof.
  induction labels as [| l labels IH]; simpl; auto.
  intros Hnotin. destruct (value_eqb v l) eqn:E.
  - apply value_eqb_eq in E. subst l. exfalso. apply Hnotin. now left.
  - rewrite IH; auto.
Qed.

Lemma one_label (labels : list value) (v : value) :
  List.NoDup labels -> List.In v labels ->
  zsum (map (fun l => if value_eqb v l then 1 else 0)%Z labels) = 1%Z.
Proof.
  induction 1 as [| l labels Hnotin Hnd IH]; simpl; [tauto |].
  intros [-> | Hin].
  - rewrite value_eqb_refl, no_label; auto.
  - destruct (value_eqb v l) eqn:E.
    + apply value_eqb_eq in E. subst l. contradiction.
    + rewrite IH; auto.
Qed.

Lemma zsum_map_add {A : Type} (f g : A -> Z) (l : list A) :
  zsum (map (fun x => f x + g x)%Z l) = (zsum (map f l) + zsum (map g l))%Z.
Proof. induction l as [| x l IH]; simpl; [reflexivity | rewrite IH; lia]. Qed.

Lemma zsum_map_zero {A : Type} (l : list A) :
  zsum (map (fun _ => 0%Z) l) = 0%Z.
Proof. induction l as [| x l IH]; simpl; auto. Qed.

(** Documents labelled among distinct labels: the per-label counts add up
    to the number of documents. *)
Lemma labels_partition (labels : list value) (lab : doc -> value)
    (ds : list doc) :
  List.NoDup labels -> (forall d, List.In (lab d) labels) ->
  zsum (map (fun l => count_where (fun d => value_eqb (lab d) l) ds) labels)
  = Z.of_nat (length ds).
Proof.
  intros Hnd Hin. induction ds as [| d ds IH].
  - apply zsum_map_zero.
  - rewrite (map_ext _ (fun l => (if value_eqb (lab d) l then 1 else 0)
                 + count_where (fun d => value_eqb (lab d) l) ds)%Z)
      by (intros l; apply count_where_cons).
    rewrite zsum_map_add, IH, one_label by auto.
    simpl length. lia.
Qed.

Lemma nonempty_buckets_total (f : value -> Z) (labels : list value) :
  zsum (map doc_count
          (flat_map (fun l => if (f l =? 0)%Z then []
                              else [[("_id", l); ("count", VInt (f l))]])
                    labels))
  = zsum (map f labels).
Proof.
  induction labels as [| l labels IH]; [reflexivity |].
  cbn [flat_map map]. rewrite map_app, zsum_app, IH.
  destruct (Z.eqb_spec (f l) 0) as [E | _].
  - rewrite E. reflexivity.
  - unfold doc_count, zsum. simpl. lia.
Qed.

Lemma bucket_docs_total (groupBy : string) (bounds : list Z) (default : value)
    (ds : list doc) :
  List.NoDup (map VInt (removelast bounds) ++ [default]) ->
  (forall d, List.In (bucket_label groupBy bounds default d)
                     (map VInt (removelast bounds) ++ [default])) ->
  zsum (map doc_count (bucket_docs groupBy bounds default ds))
  = Z.of_nat (length ds).
Proof.
  intros Hnd Hin. rewrite <- (labels_partition _ _ ds Hnd Hin).
  unfold bucket_docs.
  apply (nonempty_buckets_total
           (fun l => count_where
                       (fun d => value_eqb (bucket_label groupBy bounds default d) l) ds)).
Qed.

(** ** The two requests of the faceted search *)

Lemma set_field_same (k : string) (v : value) (d : doc) :
  get_field k d = Some v -> set_field k v d = d.
Proof.
  induction d as [| [k' v'] d IH]; simpl; [discriminate |].
  destruct (String.eqb_spec k k') as [-> | _].
  - now intros [= ->].
  - intros H. now rewrite IH.
Qed.

(** The [movies] branch restates the title: it changes nothing. *)
Lemma add_title_id (ds : list doc) :
  map (fun d => match get_field "title" d with
                | Some v => set_field "title" v d
                | None => d
                end) ds = ds.
Proof.
  induction ds as [| d ds IH]; simpl; [reflexivity |].
  rewrite IH. destruct (get_field "title" d) eqn:E; [| reflexivity].
  now rewrite set_field_same.
Qed.

Lemma faceted_pipeline_fits (cast : value) (page n : Z) :
  forallb stage_fits (faceted_pipeline cast page n) = faceted_fits cast page n.
Proof.
  unfold faceted_fits.
  cbn [faceted_pipeline faceted_base app forallb stage_fits query_fits].
  change (stage_fits facet_stage) with true.
  destruct (value_fits cast), (int64 (n * page)), (int64 n); reflexivity.
Qed.

Lemma counting_pipeline_fits (cast : value) :
  forallb stage_fits (counting_pipeline cast) = value_fits cast.
Proof.
  cbn [counting_pipeline faceted_base app forallb stage_fits query_fits].
  destruct (value_fits cast); reflexivity.
Qed.

Lemma aggregate_faceted (db : database) (cast : value) (page n : Z) :
  aggregate db "movies" (faceted_pipeline cast page n) true =
  if faceted_fits cast page n then
    let! _ := check_fault db (faceted_request cast page n) in
    let! _ := check_query (QIn "cast" cast) in
    if (n * page <? 0)%Z then Raise skip_negative
    else if (n <=? 0)%Z then Raise limit_not_positive
    else Ok [facet_doc (faceted_page db cast page n)]
  else Raise too_big_int.
Proof.
  unfold aggregate. rewrite faceted_pipeline_fits.
  destruct (faceted_fits cast page n); [| reflexivity].
  unfold faceted_page, cast_sorted, faceted_request.
  cbv zeta.
  destruct (check_fault db _); [| reflexivity].
  cbn [bind faceted_pipeline faceted_base app run_pipeline run_stage].
  destruct (check_query (QIn "cast" cast)); [| reflexivity].
  cbn [bind]. destruct (n * page <? 0)%Z; [reflexivity |].
  cbn [bind]. destruct (n <=? 0)%Z; reflexivity.
Qed.

Lemma aggregate_counting (db : database) (cast : value) :
  aggregate db "movies" (counting_pipeline cast) true =
  if value_fits cast then
    let! _ := check_fault db (ReqAggregate "movies" (counting_pipeline cast) true) in
    let! _ := check_query (QIn "cast" cast) in
    Ok (match cast_matches db cast with
        | [] => []
        | _ :: _ => [[("count", VInt (Z.of_nat (length (cast_matches db cast))))]]
        end)
  else Raise too_big_int.
Proof.
  unfold aggregate. rewrite counting_pipeline_fits.
  destruct (value_fits cast); [| reflexivity].
  cbv zeta.
  destruct (check_fault db _); [| reflexivity].
  cbn [bind counting_pipeline faceted_base app run_pipeline run_stage].
  destruct (check_query (QIn "cast" cast)); [| reflexivity].
  cbn [bind].
  change (List.filter (matches db (QIn "cast" cast)) (collection db "movies"))
    with (cast_matches db cast).
  set (sorted := sort_docs _ _ _ _).
  assert (Hlen : length sorted = length (cast_matches db cast))
    by apply sort_docs_length.
  rewrite <- Hlen.
  destruct sorted, (cast_matches db cast); try discriminate; reflexivity.
Qed.

Lemma get_movies_faceted_missing_key (db : database)
    (filters : gmap string value) (page n : Z) :
  filters !! "cast" = None ->
  get_movies_faceted db filters page n
  = Raise (AssertionError "No filters to pass to faceted search!").
Proof. intros H. unfold get_movies_faceted. now rewrite H. Qed.

Lemma get_movies_faceted_requests (db : database)
    (filters : gmap string value) (cast : value) (page n : Z) :
  filters !! "cast" = Some cast ->
  get_movies_faceted db filters page n =
  try_except
    (let! r := aggregate db "movies" (faceted_pipeline cast page n) true in
     let! movies := index0 r in
     let! c := aggregate db "movies" (counting_pipeline cast) true in
     let! first := index0 c in
     Ok (movies, dict_get "count" first))
    (fun e =>
       match e with
       | OperationFailure _ _ => Some (Raise too_large)
       | _ => None
       end).
Proof. intros H. unfold get_movies_faceted. now rewrite H. Qed.

Lemma bucket_of_in (bounds : list Z) (z lo : Z) :
  bucket_of bounds z = Some lo -> List.In lo (removelast bounds).
Proof.
  induction bounds as [| a bounds IH]; [discriminate |].
  destruct bounds as [| b rest]; [discriminate |].
  change (removelast (a :: b :: rest)) with (a :: removelast (b :: rest)).
  cbn [bucket_of]. destruct ((a <=? z) && (z <? b))%Z.
  - intros [= ->]. now left.
  - intros H. right. exact (IH H).
Qed.

Lemma bucket_label_in (groupBy : string) (bounds : list Z) (default : value)
    (d : doc) :
  List.In (bucket_label groupBy bounds default d)
          (map VInt (removelast bounds) ++ [default]).
Proof.
  assert (Hd : List.In default (map VInt (removelast bounds) ++ [default])).
  { apply in_or_app. right. now left. }
  unfold bucket_label. destruct (get_field groupBy d) as [[] |]; auto.
  destruct (bucket_of bounds z) as [lo |] eqn:E; auto.
  apply in_or_app. left. apply in_map. exact (bucket_of_in _ _ _ E).
Qed.

Lemma facet_doc_totals (input : list doc) :
  get_field "movies" (facet_doc input) = Some (VArr (map VDoc input))
  /\ bucket_total (facet_doc input) "runtime" = Z.of_nat (length input)
  /\ bucket_total (facet_doc input) "rating" = Z.of_nat (length input).
Proof.
  assert (Hmap : forall ds : list doc,
             map (fun b => match b with VDoc f => doc_count f | _ => 0%Z end)
                 (map VDoc ds) = map doc_count ds).
  { intros ds. rewrite map_map. reflexivity. }
  split; [| split].
  - cbn. now rewrite add_title_id.
  - unfold bucket_total, facet_doc. cbn [get_field String.eqb Ascii.eqb Bool.eqb].
    rewrite Hmap. apply bucket_docs_total; [| apply bucket_label_in].
    cbn. repeat constructor; cbn; intuition discriminate.
  - unfold bucket_total, facet_doc. cbn [get_field String.eqb Ascii.eqb Bool.eqb].
    rewrite Hmap. apply bucket_docs_total; [| apply bucket_label_in].
    cbn. repeat constructor; cbn; intuition discriminate.
Qed.

Lemma faceted_page_length (db : database) (cast : value) (page n : Z) :
  (0 <= n * page)%Z -> (0 < n)%Z ->
  Z.of_nat (length (faceted_page db cast page n))
  = Z.min n (Z.max 0 (Z.of_nat (length (cast_matches db cast)) - n * page)).
Proof.
  intros Hs Hn. unfold faceted_page, cast_sorted.
  rewrite length_firstn, length_skipn, sort_docs_length. lia.
Qed.

(** A fan-out request that succeeds returns exactly one document, and was
    given a valid skip and limit. *)
Lemma aggregate_faceted_ok (db : database) (cast : value) (page n : Z)
    (r : list doc) :
  aggregate db "movies" (faceted_pipeline cast page n) true = Ok r ->
  r = [facet_doc (faceted_page db cast page n)]
  /\ (0 <= n * page)%Z /\ (0 < n)%Z.
Proof.
  rewrite aggregate_faceted.
  destruct (faceted_fits cast page n); [| discriminate].
  destruct (check_fault db _); [| discriminate].
  destruct (check_query (QIn "cast" cast)); [| discriminate].
  cbn [bind].
  destruct (Z.ltb_spec (n * page) 0); [discriminate |].
  destruct (Z.leb_spec n 0); [discriminate |].
  intros [= <-]. repeat split; lia.
Qed.

Lemma aggregate_counting_ok (db : database) (cast : value) (r : list doc) :
  aggregate db "movies" (counting_pipeline cast) true = Ok r ->
  r = match cast_matches db cast with
      | [] => []
      | _ :: _ => [[("count", VInt (Z.of_nat (length (cast_matches db cast))))]]
      end.
Proof.
  rewrite aggregate_counting.
  destruct (value_fits cast); [| discriminate].
  destruct (check_fault db _); [| discriminate].
  destruct (check_query (QIn "cast" cast)); [| discriminate].
  cbn [bind]. intros [= <-]. reflexivity.
Qed.

(** ** Faceted search *)

(** C1 (as the code has it): when both requests of a faceted search succeed
    and the cast filter matches something, the call returns the facet
    document and the number of all matching movies; the bucket counts of the
    runtime facet, and those of the rating facet, "other" included, add up
    to the number of movies on the requested page, which is
    [min pageSize (max 0 (total - pageSize * page))]. *)
Theorem faceted_buckets_sum_to_page
    (db : database) (filters : gmap string value) (cast : value)
    (page n : Z) (r1 r2 : list doc) :
  filters !! "cast" = Some cast ->
  aggregate db "movies" (faceted_pipeline cast page n) true = Ok r1 ->
  aggregate db "movies" (counting_pipeline cast) true = Ok r2 ->
  cast_matches db cast <> [] ->
  exists facets,
    get_movies_faceted db filters page n
    = Ok (facets, VInt (Z.of_nat (length (cast_matches db cast))))
    /\ get_field "movies" facets
       = Some (VArr (map VDoc (faceted_page db cast page n)))
    /\ bucket_total facets "runtime"
       = Z.of_nat (length (faceted_page db cast page n))
    /\ bucket_total facets "rating"
       = Z.of_nat (length (faceted_page db cast page n))
    /\ Z.of_nat (length (faceted_page db cast page n))
       = Z.min n (Z.max 0 (Z.of_nat (length (cast_matches db cast)) - n * page)).
Proof.
  intros Hcast H1 H2 Hne.
  destruct (aggregate_faceted_ok _ _ _ _ _ H1) as (-> & Hskip & Hlimit).
  pose proof (aggregate_counting_ok _ _ _ H2) as ->.
  exists (facet_doc (faceted_page db cast page n)).
  destruct (facet_doc_totals (faceted_page db cast page n)) as (Hm & Hr & Hc).
  repeat split; auto using faceted_page_length.
  rewrite (get_movies_faceted_requests _ _ _ _ _ Hcast), H1. cbn [bind index0 try_except].
  rewrite H2. destruct (cast_matches db cast); [contradiction | reflexivity].
Qed.

Lemma faceted_buckets_sum_to_page_witness :
  exists facets,
    get_movies_faceted sample_db ann 0 2 = Ok (facets, VInt 3)
    /\ bucket_total facets "runtime" = 2%Z
    /\ bucket_total facets "rating" = 2%Z.
Proof.
  destruct (faceted_buckets_sum_to_page sample_db ann (VArr [VStr "Ann"]) 0 2
              [facet_doc (faceted_page sample_db (VArr [VStr "Ann"]) 0 2)]
              [[("count", VInt 3)]])
    as (facets & Hget & _ & Hr & Hc & _);
    [reflexivity | reflexivity | reflexivity | discriminate |].
  exists facets. split; [exact Hget | split; [exact Hr | exact Hc]].
Defined.

(** C1 (as stated) fails: three movies match, the first page of size two
    holds two of them, and the buckets of each facet add up to two. *)
Lemma facets_count_all_matches_fails :
  get_movies_faceted sample_db ann 0 2
  = Ok (facet_doc (faceted_page sample_db (VArr [VStr "Ann"]) 0 2), VInt 3)
  /\ bucket_total (facet_doc (faceted_page sample_db (VArr [VStr "Ann"]) 0 2))
                  "runtime" = 2%Z
  /\ ~ facets_count_all_matches.
Proof.
  split; [reflexivity |]. split; [reflexivity |].
  intros H.
  destruct (H sample_db ann (VArr [VStr "Ann"]) 0%Z 2%Z _ _ eq_refl eq_refl)
    as [Hr _].
  vm_compute in Hr. discriminate.
Qed.

(** C10: when the cast key is present, both requests succeed and no movie
    matches, the count request returns no document and the call fails
    with [IndexError]. *)
Theorem faceted_no_match_index_error
    (db : database) (filters : gmap string value) (cast : value)
    (page n : Z) (r1 r2 : list doc) :
  filters !! "cast" = Some cast ->
  aggregate db "movies" (faceted_pipeline cast page n) true = Ok r1 ->
  aggregate db "movies" (counting_pipeline cast) true = Ok r2 ->
  cast_matches db cast = [] ->
  r2 = [] /\ get_movies_faceted db filters page n = Raise IndexError.
Proof.
  intros Hcast H1 H2 Hnone.
  destruct (aggregate_faceted_ok _ _ _ _ _ H1) as (-> & _).
  pose proof (aggregate_counting_ok _ _ _ H2) as Hr2.
  rewrite Hnone in Hr2. subst r2. split; [reflexivity |].
  rewrite (get_movies_faceted_requests _ _ _ _ _ Hcast), H1. cbn [bind index0 try_except].
  rewrite H2. reflexivity.
Qed.

Lemma faceted_no_match_index_error_witness :
  get_movies_faceted sample_db {[ "cast" := VArr [VStr "Zoe"] ]} 0 20
  = Raise IndexError.
Proof.
  refine (proj2 (faceted_no_match_index_error sample_db
                   {[ "cast" := VArr [VStr "Zoe"] ]} (VArr [VStr "Zoe"]) 0 20
                   [facet_doc []] [] _ _ _ _)); reflexivity.
Defined.

(** C3 (as the code has it): the assertion guards the presence of the cast
    key only.  Without the key the call raises the assertion error, whatever
    the store, the page and the page size; with the key, whatever its value,
    the call raises no assertion error. *)
Theorem faceted_asserts_cast_key
    (db : database) (filters : gmap string value) (page n : Z) :
  (filters !! "cast" = None ->
   get_movies_faceted db filters page n
   = Raise (AssertionError "No filters to pass to faceted search!"))
  /\ (forall cast msg,
        filters !! "cast" = Some cast ->
        get_movies_faceted db filters page n <> Raise (AssertionError msg)).
Proof.
  split.
  - apply get_movies_faceted_missing_key.
  - intros cast msg H. rewrite (get_movies_faceted_requests _ _ _ _ _ H).
    rewrite aggregate_faceted, aggregate_counting.
    unfold check_fault, faceted_request.
    destruct (faceted_fits cast page n); [| cbn; discriminate].
    destruct (fault db (ReqAggregate "movies" (faceted_pipeline cast page n) true))
      as [[] |]; [cbn; discriminate .. |].
    destruct (value_fits cast) eqn:Hfits;
      destruct (fault db (ReqAggregate "movies" (counting_pipeline cast) true))
        as [[] |];
      (destruct cast; cbn; try discriminate;
       destruct (n * page <? 0)%Z; cbn; try discriminate;
       destruct (n <=? 0)%Z; cbn; try discriminate).
    destruct (cast_matches db (VArr vs)); cbn; discriminate.
Qed.

Lemma faceted_asserts_cast_key_witness :
  get_movies_faceted sample_db ∅ 0 20
  = Raise (AssertionError "No filters to pass to faceted search!")
  /\ get_movies_faceted sample_db ann 0 20
     <> Raise (AssertionError "No filters to pass to faceted search!").
Proof.
  split.
  - apply (proj1 (faceted_asserts_cast_key sample_db ∅ 0 20)). reflexivity.
  - apply (proj2 (faceted_asserts_cast_key sample_db ann 0 20)
                 (VArr [VStr "Ann"])).
    reflexivity.
Defined.

(** C3 (as stated) fails: an empty list of names under the cast key passes
    the guard, and the call ends in an [IndexError]. *)
Lemma empty_cast_asserts_fails :
  get_movies_faceted sample_db {[ "cast" := VArr [] ]} 0 20 = Raise IndexError
  /\ ~ empty_cast_asserts.
Proof.
  split; [reflexivity |].
  intros H.
  destruct (H sample_db {[ "cast" := VArr [] ]} 0%Z 20%Z) as [msg Hmsg].
  - right. reflexivity.
  - vm_compute in Hmsg. discriminate.
Qed.

(** C7 (as the code has it): whenever one of the two requests fails, an
    [OperationFailure] of whatever cause is replaced by the fixed "results
    too large" error, which no failure raised by the driver equals, and any
    other exception reaches the caller unchanged. *)
Theorem faceted_resignals_operation_failure
    (db : database) (filters : gmap string value) (cast : value)
    (page n : Z) (e : exn) :
  filters !! "cast" = Some cast ->
  aggregate db "movies" (faceted_pipeline cast page n) true = Raise e
  \/ (exists r, aggregate db "movies" (faceted_pipeline cast page n) true = Ok r
                /\ aggregate db "movies" (counting_pipeline cast) true = Raise e) ->
  get_movies_faceted db filters page n
  = Raise (match e with
           | OperationFailure _ _ => too_large
           | _ => e
           end)
  /\ forall f, exn_of_failure f <> too_large.
Proof.
  intros Hcast Hfail. split.
  - rewrite (get_movies_faceted_requests _ _ _ _ _ Hcast).
    destruct Hfail as [H1 | (r & H1 & H2)]; rewrite H1.
    + cbn. destruct e; reflexivity.
    + destruct (aggregate_faceted_ok _ _ _ _ _ H1) as (-> & _).
      cbn [bind index0]. rewrite H2. cbn. destruct e; reflexivity.
  - intros []; discriminate.
Qed.

Lemma faceted_resignals_operation_failure_witness :
  get_movies_faceted exhausted_db ann 0 20 = Raise too_large.
Proof.
  refine (proj1 (faceted_resignals_operation_failure exhausted_db ann
                   (VArr [VStr "Ann"]) 0 20
                   (OperationFailure "Sort exceeded memory limit" (Some 16819%Z))
                   _ _)).
  - reflexivity.
  - left. reflexivity.
Defined.

(** C7 (as stated) fails: a store that refuses the request for lack of
    authorization is reported as "results too large", not as it failed. *)
Lemma only_resource_limits_resignalled_fails :
  get_movies_faceted locked_db ann 0 20 = Raise too_large
  /\ resource_limit unauthorized = false
  /\ ~ only_resource_limits_resignalled.
Proof.
  split; [reflexivity |]. split; [reflexivity |].
  intros H.
  specialize (H locked_db ann (VArr [VStr "Ann"]) 0%Z 20%Z unauthorized
                eq_refl eq_refl).
  vm_compute in H. discriminate.
Qed.

(** ** The filter compiler *)

Lemma size_lookup_some (filters : gmap string value) (k : string) (v : value) :
  filters !! k = Some v -> (size filters =? 0)%nat = false.
Proof.
  intros H. apply Nat.eqb_neq. intros Hsize.
  apply map_size_empty_iff in Hsize. subst filters.
  rewrite lookup_empty in H. discriminate.
Qed.

Lemma build_text (filters : gmap string value) (text : value) :
  filters !! "text" = Some text ->
  build_query_sort_project filters
  = (QText text, SortTextScore "score", Some (ProjTextScore "score")).
Proof.
  intros H. unfold build_query_sort_project.
  now rewrite (size_lookup_some _ _ _ H), H.
Qed.

Lemma build_cast (filters : gmap string value) (cast : value) :
  filters !! "text" = None -> filters !! "cast" = Some cast ->
  build_query_sort_project filters
  = (QIn "cast" cast, SortField "tomatoes.viewer.numReviews" DESCENDING, None).
Proof.
  intros Ht H. unfold build_query_sort_project.
  now rewrite (size_lookup_some _ _ _ H), Ht, H.
Qed.

Lemma build_genres (filters : gmap string value) (genres : value) :
  filters !! "text" = None -> filters !! "cast" = None ->
  filters !! "genres" = Some genres ->
  build_query_sort_project filters
  = (QIn "genres" genres, SortField "tomatoes.viewer.numReviews" DESCENDING,
     None).
Proof.
  intros Ht Hc H. unfold build_query_sort_project.
  now rewrite (size_lookup_some _ _ _ H), Ht, Hc, H.
Qed.

Lemma build_none (filters : gmap string value) :
  filters !! "text" = None -> filters !! "cast" = None ->
  filters !! "genres" = None ->
  build_query_sort_project filters
  = (QAll, SortField "tomatoes.viewer.numReviews" DESCENDING, None).
Proof.
  intros Ht Hc Hg. unfold build_query_sort_project.
  rewrite Ht, Hc, Hg. now destruct (size filters =? 0)%nat.
Qed.

(** C6: the first of the keys [text], [cast], [genres] present in the
    filters decides the whole compiled triple: it is the triple of that one
    key, and equals what the compiler returns for the dictionary holding
    that key alone. *)
Theorem filter_precedence (filters : gmap string value) :
  (forall text,
      filters !! "text" = Some text ->
      build_query_sort_project filters
      = (QText text, SortTextScore "score", Some (ProjTextScore "score"))
      /\ build_query_sort_project filters
         = build_query_sort_project {[ "text" := text ]})
  /\ (forall cast,
        filters !! "text" = None -> filters !! "cast" = Some cast ->
        build_query_sort_project filters
        = (QIn "cast" cast,
           SortField "tomatoes.viewer.numReviews" DESCENDING, None)
        /\ build_query_sort_project filters
           = build_query_sort_project {[ "cast" := cast ]})
  /\ (forall genres,
        filters !! "text" = None -> filters !! "cast" = None ->
        filters !! "genres" = Some genres ->
        build_query_sort_project filters
        = (QIn "genres" genres,
           SortField "tomatoes.viewer.numReviews" DESCENDING, None)
        /\ build_query_sort_project filters
           = build_query_sort_project {[ "genres" := genres ]}).
Proof.
  split; [| split].
  - intros text H. split; [now apply build_text |].
    rewrite (build_text _ _ H). symmetry. apply build_text.
    apply lookup_singleton_eq.
  - intros cast Ht H. split; [now apply build_cast |].
    rewrite (build_cast _ _ Ht H). symmetry. apply build_cast.
    + now apply lookup_singleton_ne.
    + apply lookup_singleton_eq.
  - intros genres Ht Hc H. split; [now apply build_genres |].
    rewrite (build_genres _ _ Ht Hc H). symmetry. apply build_genres.
    + now apply lookup_singleton_ne.
    + now apply lookup_singleton_ne.
    + apply lookup_singleton_eq.
Qed.

Lemma filter_precedence_witness :
  build_query_sort_project all_filters
  = (QText (VStr "heist"), SortTextScore "score", Some (ProjTextScore "score"))
  /\ build_query_sort_project cast_and_genres
     = (QIn "cast" (VArr [VStr "Ann"]),
        SortField "tomatoes.viewer.numReviews" DESCENDING, None).
Proof.
  split.
  - apply (proj1 (filter_precedence all_filters) (VStr "heist")). reflexivity.
  - apply (proj1 (proj2 (filter_precedence cast_and_genres))
                 (VArr [VStr "Ann"])); reflexivity.
Defined.

(** ** Paginated retrieval *)

Lemma get_movies_eq (db : database) (filters : gmap string value)
    (page n : Z) :
  get_movies db filters page n =
  let! total :=
    if (page =? 0)%Z then
      let! c := count_documents db "movies" (compiled_query filters) in
      Ok (VInt c)
    else Ok (VInt 0) in
  let! skipped := cursor_skip (unpaged filters) (n * page)%Z in
  let! l := list_cursor db "movies" (cursor_limit skipped n) in
  Ok (l, total).
Proof.
  unfold get_movies, unpaged, compiled_query.
  destruct (build_query_sort_project filters) as [[q srt] [pr |]]; reflexivity.
Qed.

Lemma firstn_plus {A : Type} (a b : nat) (l : list A) :
  firstn (a + b) l = firstn a l ++ firstn b (skipn a l).
Proof.
  revert l. induction a as [| a IH]; intros [| x l]; simpl; auto.
  - now rewrite firstn_nil.
  - now rewrite IH.
Qed.


Lemma unpaged_eq (filters : gmap string value) :
  unpaged filters
  = mkCursor (compiled_query filters) (compiled_projection filters)
             (Some (compiled_sort filters)) 0 0.
Proof.
  unfold unpaged, compiled_query, compiled_projection, compiled_sort.
  now destruct (build_query_sort_project filters) as [[q srt] pr].
Qed.

(** The compiler returns one of three shapes. *)
Lemma build_shapes (filters : gmap string value) :
  (exists text,
      build_query_sort_project filters
      = (QText text, SortTextScore "score", Some (ProjTextScore "score")))
  \/ exists q,
      build_query_sort_project filters
      = (q, SortField "tomatoes.viewer.numReviews" DESCENDING, None).
Proof.
  destruct (filters !! "text") as [text |] eqn:Ht.
  { left. exists text. now apply build_text. }
  right.
  destruct (filters !! "cast") as [cast |] eqn:Hc.
  { exists (QIn "cast" cast). apply build_cast; assumption. }
  destruct (filters !! "genres") as [genres |] eqn:Hg.
  { exists (QIn "genres" genres). apply build_genres; assumption. }
  exists QAll. apply build_none; assumption.
Qed.

(** With a store that does not fail and a query it accepts, a cursor gives
    the matching movies, sorted as the store does for this request, cut by
    skip and limit, then projected. *)
Lemma list_cursor_sorted (db : database) (filters : gmap string value)
    (sk lim : Z) :
  healthy db ->
  check_query (compiled_query filters) = Ok tt ->
  exists g,
    projector db (compiled_query filters) (compiled_projection filters) = Ok g
    /\ forall c,
         c = mkCursor (compiled_query filters) (compiled_projection filters)
                      (Some (compiled_sort filters)) sk lim ->
         list_cursor db "movies" c
         = Ok (map g (apply_limit lim (skipn (Z.to_nat sk)
                                             (sorted_for db filters c)))).
Proof.
  intros Hh Hq.
  assert (Hg : exists g,
             projector db (compiled_query filters) (compiled_projection filters)
             = Ok g
             /\ forall rank ds,
                  (let! sorted :=
                     apply_sort db rank (compiled_query filters)
                                (Some (compiled_sort filters)) ds in
                   apply_projection db (compiled_query filters)
                     (compiled_projection filters)
                     (apply_limit lim (skipn (Z.to_nat sk) sorted)))
                  = Ok (map g (apply_limit lim (skipn (Z.to_nat sk)
                         (sort_by (cursor_key db (compiled_query filters)
                                              (compiled_sort filters))
                                  (cursor_dir (compiled_sort filters))
                                  (arrange rank ds)))))).
  { revert Hq. unfold compiled_query, compiled_projection, compiled_sort.
    destruct (build_shapes filters) as [[text ->] | [q ->]]; cbn [fst snd].
    - destruct text; try discriminate. intros _.
      eexists. split; [reflexivity |]. intros rank ds. reflexivity.
    - intros _. exists (fun d => d). split; [reflexivity |].
      intros rank ds. reflexivity. }
  destruct Hg as (g & Hg & Hrun). exists g. split; [exact Hg |].
  intros c ->. unfold list_cursor, check_fault. rewrite Hh.
  cbn [bind c_query c_project c_sort c_skip c_limit]. rewrite Hq. cbn [bind].
  apply Hrun.
Qed.

Lemma unpaged_full (db : database) (filters : gmap string value) :
  healthy db ->
  check_query (compiled_query filters) = Ok tt ->
  exists g,
    projector db (compiled_query filters) (compiled_projection filters) = Ok g
    /\ list_cursor db "movies" (unpaged filters)
       = Ok (map g (sorted_for db filters (unpaged filters))).
Proof.
  intros Hh Hq.
  destruct (list_cursor_sorted db filters 0 0 Hh Hq) as (g & Hg & Hrun).
  exists g. split; [exact Hg |].
  exact (Hrun (unpaged filters) (unpaged_eq filters)).
Qed.

(** A page of [get_movies] is cut out of the matching movies as the store
    sorts them for the request of this page. *)
Lemma get_movies_page (db : database) (filters : gmap string value)
    (page n : Z) :
  healthy db ->
  check_query (compiled_query filters) = Ok tt ->
  (0 <= page)%Z -> (0 < n)%Z ->
  exists g,
    projector db (compiled_query filters) (compiled_projection filters) = Ok g
    /\ get_movies db filters page n
       = Ok (map g (firstn (Z.to_nat n)
                      (skipn (Z.to_nat (n * page))
                             (sorted_for db filters
                                         (page_cursor filters page n)))),
             VInt (if (page =? 0)%Z
                   then count_where (matches db (compiled_query filters))
                                    (movies db)
                   else 0)).
Proof.
  intros Hh Hq Hpage Hn.
  destruct (list_cursor_sorted db filters (n * page) n Hh Hq) as (g & Hg & Hrun).
  exists g. split; [exact Hg |].
  rewrite get_movies_eq.
  assert (Htotal :
    (if (page =? 0)%Z
     then let! c := count_documents db "movies" (compiled_query filters) in
          Ok (VInt c)
     else Ok (VInt 0))
    = Ok (VInt (if (page =? 0)%Z
                then count_where (matches db (compiled_query filters)) (movies db)
                else 0))).
  { destruct (page =? 0)%Z; [| reflexivity].
    unfold count_documents, check_fault. rewrite Hh, Hq. reflexivity. }
  rewrite Htotal. cbn [bind]. unfold cursor_skip.
  destruct (Z.ltb_spec (n * page) 0); [nia |].
  cbn [bind]. rewrite unpaged_eq. unfold cursor_limit.
  cbn [c_query c_project c_sort c_skip c_limit].
  rewrite (Hrun _ eq_refl). cbn [bind].
  unfold apply_limit. destruct (Z.eqb_spec n 0); [lia |].
  rewrite Z.abs_eq by lia. reflexivity.
Qed.

(** The order of the matching movies does not depend on the request when
    the store ranks them in one way, or when no two of them have the same
    sort key. *)
Lemma sorted_for_perm (db : database) (filters : gmap string value)
    (c : cursor) :
  Permutation (sorted_for db filters c) (matched db filters).
Proof. unfold sorted_for. now rewrite sort_by_perm, arrange_perm. Qed.

Lemma sorted_for_sorted (db : database) (filters : gmap string value)
    (c : cursor) :
  StronglySorted
    (ordered (cursor_key db (compiled_query filters) (compiled_sort filters))
             (cursor_dir (compiled_sort filters)))
    (sorted_for db filters c).
Proof. apply sort_by_sorted. Qed.

Lemma sort_arranged_agree (key : doc -> list Z) (dir : direction)
    (rank rank' : doc -> Z) (ds : list doc) :
  (forall d, rank d = rank' d)
  \/ (forall x y, List.In x ds -> List.In y ds -> key x = key y -> x = y) ->
  sort_by key dir (arrange rank ds) = sort_by key dir (arrange rank' ds).
Proof.
  intros [Hrank | Hfree].
  - unfold arrange. f_equal. apply sort_by_ext.
    intros d. f_equal. apply Hrank.
  - assert (Hperm : forall r, Permutation (sort_by key dir (arrange r ds)) ds).
    { intros r. now rewrite sort_by_perm, arrange_perm. }
    apply (sorted_unique key dir).
    + intros x y Hx Hy. apply Hfree.
      * exact (Permutation_in _ (Hperm rank) Hx).
      * exact (Permutation_in _ (Hperm rank) Hy).
    + now rewrite !Hperm.
    + apply sort_by_sorted.
    + apply sort_by_sorted.
Qed.

Lemma sorted_for_agree (db : database) (filters : gmap string value)
    (c c' : cursor) :
  steady db \/ tie_free db filters ->
  sorted_for db filters c = sorted_for db filters c'.
Proof.
  intros Hties. unfold sorted_for. apply sort_arranged_agree.
  destruct Hties as [Hsteady | Hfree]; [left | right]; auto.
Qed.




Lemma fetch_pages_slice (db : database) (filters : gmap string value)
    (g : doc -> doc) (k first : Z) (n : nat) :
  healthy db ->
  check_query (compiled_query filters) = Ok tt ->
  projector db (compiled_query filters) (compiled_projection filters) = Ok g ->
  steady db \/ tie_free db filters ->
  (0 < k)%Z -> (0 <= first)%Z ->
  fetch_pages db filters k first n
  = Ok (firstn (n * Z.to_nat k)
               (skipn (Z.to_nat (k * first))
                      (map g (sorted_for db filters (unpaged filters))))).
Proof.
  intros Hh Hq Hg Hties Hk. revert first.
  induction n as [| n IH]; intros first Hfirst; [reflexivity |].
  cbn [fetch_pages].
  destruct (get_movies_page db filters first k Hh Hq Hfirst ltac:(lia))
    as (g' & Hg' & ->).
  assert (g' = g) as -> by congruence.
  rewrite (sorted_for_agree db filters _ (unpaged filters) Hties).
  cbn [bind fst]. rewrite IH by lia. cbn [bind]. f_equal.
  replace (Z.to_nat (k * (first + 1)))
    with (Z.to_nat k + Z.to_nat (k * first))%nat by nia.
  rewrite <- skipn_skipn.
  change (S n * Z.to_nat k)%nat with (Z.to_nat k + n * Z.to_nat k)%nat.
  now rewrite firstn_plus, <- firstn_map, <- skipn_map.
Qed.

(** C8 (as the code has it): with a store that does not fail, a query it
    accepts, a positive page size [k] and requests whose integers fit in
    64 bits, when the store puts movies with equal sort keys in the same
    order in every request, or no two of the matching movies have the same
    sort key, the unpaged cursor gives the movies matching the compiled
    predicate, each once, in sorted order (then projected), and the movies
    of pages 0, 1, ..., [n - 1] put one after the other are the first
    [n * k] of them: all of them, in that order, once [n * k] reaches
    their number. *)
Theorem pages_concat_full
    (db : database) (filters : gmap string value) (k : Z) (n : nat) :
  healthy db ->
  check_query (compiled_query filters) = Ok tt ->
  (0 < k)%Z ->
  query_fits (compiled_query filters) = true ->
  int64 (k * Z.of_nat n) = true ->
  steady db \/ tie_free db filters ->
  exists g sorted,
    projector db (compiled_query filters) (compiled_projection filters) = Ok g
    /\ Permutation sorted
         (List.filter (matches db (compiled_query filters)) (movies db))
    /\ StronglySorted
         (ordered (cursor_key db (compiled_query filters) (compiled_sort filters))
                  (cursor_dir (compiled_sort filters)))
         sorted
    /\ list_cursor db "movies" (unpaged filters) = Ok (map g sorted)
    /\ fetch_pages db filters k 0 n
       = Ok (firstn (n * Z.to_nat k) (map g sorted))
    /\ ((length sorted <= n * Z.to_nat k)%nat ->
        fetch_pages db filters k 0 n = Ok (map g sorted)).
Proof.
  intros Hh Hq Hk _ _ Hties.
  destruct (unpaged_full db filters Hh Hq) as (g & Hg & Hfull).
  exists g, (sorted_for db filters (unpaged filters)). split; [exact Hg |].
  split; [apply sorted_for_perm |].
  split; [apply sorted_for_sorted |].
  split; [exact Hfull |].
  assert (Hpages := fetch_pages_slice db filters g k 0 n Hh Hq Hg Hties Hk
                                      ltac:(lia)).
  rewrite Z.mul_0_r in Hpages. cbn [Z.to_nat skipn] in Hpages.
  split; [exact Hpages |].
  intros Hlen. rewrite Hpages. f_equal. apply firstn_all2.
  now rewrite length_map.
Qed.

Lemma pages_concat_full_witness :
  fetch_pages sample_db ann 2 0 2
  = Ok [sample_movie 2 "B" ["Ann"] (Some 75%Z) None (Some 9%Z);
        sample_movie 1 "A" ["Ann"; "Bob"] (Some 45%Z) (Some 10%Z) (Some 5%Z);
        sample_movie 3 "C" ["Ann"] (Some 200%Z) (Some 95%Z) None]
  /\ fetch_pages sample_db ann 2 0 2
     = list_cursor sample_db "movies" (unpaged ann).
Proof.
  split; [reflexivity |].
  destruct (pages_concat_full sample_db ann 2 2 (fun _ => eq_refl) eq_refl
                              ltac:(lia) eq_refl eq_refl
                              (or_introl (fun _ _ _ => eq_refl)))
    as (g & sorted & _ & Hperm & _ & Hfull & _ & Hall).
  rewrite Hfull. apply Hall.
  rewrite (Permutation_length Hperm). vm_compute. lia.
Defined.

(** C8 (as stated) fails: three movies have the same sort key, the store
    returns them as A, B, C to the request for page 0 and as C, B, A to the
    request for page 1, and the two pages of size two hold A twice and C
    not at all. *)
Lemma pages_reproduce_matches_fails :
  get_movies fickle_db ∅ 0 2 = Ok ([unrated 1 "A"; unrated 2 "B"], VInt 3)
  /\ get_movies fickle_db ∅ 1 2 = Ok ([unrated 1 "A"], VInt 0)
  /\ fetch_pages fickle_db ∅ 2 0 2
     = Ok [unrated 1 "A"; unrated 2 "B"; unrated 1 "A"]
  /\ ~ pages_reproduce_matches.
Proof.
  split; [reflexivity |]. split; [reflexivity |]. split; [reflexivity |].
  intros H.
  destruct (H fickle_db ∅ 2%Z 2%nat) as (g & l & Hg & Hl & Hperm).
  { intros r. reflexivity. }
  { reflexivity. }
  { lia. }
  { reflexivity. }
  { reflexivity. }
  { vm_compute. lia. }
  injection Hg as <-. injection Hl as <-.
  assert (Hin : List.In (unrated 3 "C")
                        [unrated 1 "A"; unrated 2 "B"; unrated 1 "A"]).
  { apply (Permutation_in _ (Permutation_sym Hperm)).
    vm_compute. right. right. now left. }
  destruct Hin as [E | [E | [E | []]]]; discriminate.
Qed.

(** ** The movie with its comments *)

Lemma ObjectId_cases (id : string) :
  (exists oid, ObjectId id = Ok oid) \/ ObjectId id = Raise InvalidId.
Proof.
  unfold ObjectId. destruct (String.length id =? 24)%nat; [| now right].
  destruct (fromhex id); [left; eauto | now right].
Qed.

Lemma mapM_ok {A B : Type} (f : A -> B) (l : list A) :
  mapM (fun x => Ok (f x)) l = Ok (map f l).
Proof.
  induction l as [| x l IH]; [reflexivity |].
  cbn [mapM bind map]. rewrite IH. reflexivity.
Qed.

(** What [$lookup] makes of a movie. *)
Lemma aggregate_movie (db : database) (oid : Z) :
  aggregate db "movies" (movie_pipeline oid) false =
  let! _ := check_fault db (ReqAggregate "movies" (movie_pipeline oid) false) in
  Ok (map (fun d =>
             set_field "comments"
               (VArr (map VDoc (sort_docs (movie_rank db oid) "date" DESCENDING
                                  (comments_of db (get_field "_id" d)))))
               d)
          (movies_with_id db oid)).
Proof.
  unfold aggregate, movie_rank.
  change (forallb stage_fits (movie_pipeline oid)) with true.
  cbv beta iota zeta.
  destruct (check_fault db _); [| reflexivity].
  cbn [bind movie_pipeline run_pipeline run_stage check_query].
  rewrite <- mapM_ok. now destruct (mapM _ _).
Qed.

Lemma date_path (c : doc) : doc_path "date" c = get_field "date" c.
Proof. unfold doc_path. cbn. now destruct (get_field "date" c). Qed.

Lemma sorted_by_date (rank : doc -> Z) (cs : list doc) :
  StronglySorted newer_first (sort_docs rank "date" DESCENDING cs).
Proof.
  pose proof (sort_docs_sorted rank "date" DESCENDING cs) as H.
  induction H as [| c l Hs IH Hc]; constructor; auto.
  eapply List.Forall_impl; [| exact Hc].
  intros c' Hc'. unfold newer_first. rewrite <- !date_path. exact Hc'.
Qed.

Lemma opt_value_eqb_eq (a b : option value) :
  opt_value_eqb a b = true <-> a = b.
Proof.
  destruct a, b; simpl; try (split; congruence).
  rewrite value_eqb_eq. split; congruence.
Qed.

(** C4: [get_movie] never raises.  It returns [None] for an identifier
    that [ObjectId] refuses, whatever the store does, and for an identifier
    it accepts and no movie has when the request succeeds: the same value
    for both causes.  When the request fails in the store or on the way to
    it, it returns the empty dictionary, which is not [None].  (A string of
    24 characters with whitespace between its pairs of digits is accepted
    by [ObjectId]: the request is sent for it as for any other.) *)
Theorem get_movie_absent_or_empty (db : database) (id : string) :
  (exists v, get_movie db id = Ok v)
  /\ (ObjectId id = Raise InvalidId -> get_movie db id = Ok VNull)
  /\ (forall oid,
        ObjectId id = Ok oid ->
        fault db (ReqAggregate "movies" (movie_pipeline oid) false) = None ->
        movies_with_id db oid = [] ->
        get_movie db id = Ok VNull)
  /\ (forall oid f,
        ObjectId id = Ok oid ->
        fault db (ReqAggregate "movies" (movie_pipeline oid) false) = Some f ->
        get_movie db id = Ok (VDoc []))
  /\ VDoc [] <> VNull.
Proof.
  assert (Hinv : ObjectId id = Raise InvalidId -> get_movie db id = Ok VNull).
  { intros H. unfold get_movie. rewrite H. reflexivity. }
  assert (Hok : forall oid, ObjectId id = Ok oid ->
            get_movie db id =
            match fault db (ReqAggregate "movies" (movie_pipeline oid) false) with
            | Some _ => Ok (VDoc [])
            | None =>
                match movies_with_id db oid with
                | [] => Ok VNull
                | d :: _ =>
                    Ok (VDoc (set_field "comments"
                                (VArr (map VDoc
                                   (sort_docs (movie_rank db oid) "date" DESCENDING
                                      (comments_of db (get_field "_id" d)))))
                                d))
                end
            end).
  { intros oid H. unfold get_movie. rewrite H. cbn [bind].
    rewrite aggregate_movie. unfold check_fault.
    destruct (fault db _) as [[] |]; [reflexivity | reflexivity |].
    cbn [bind]. now destruct (movies_with_id db oid). }
  split; [| split; [exact Hinv | split; [| split]]].
  - destruct (ObjectId_cases id) as [[oid H] | H].
    + rewrite (Hok oid H).
      destruct (fault db _); [eauto |].
      destruct (movies_with_id db oid); eauto.
    + rewrite (Hinv H). eauto.
  - intros oid H Hf Hnone. now rewrite (Hok oid H), Hf, Hnone.
  - intros oid f H Hf. now rewrite (Hok oid H), Hf.
  - discriminate.
Qed.

Lemma get_movie_absent_or_empty_witness :
  get_movie sample_db "not-a-valid-id" = Ok VNull
  /\ get_movie offline_db "not-a-valid-id" = Ok VNull
  /\ get_movie sample_db "00000000000000000000000f" = Ok VNull
  /\ get_movie offline_db "00000000000000000000000f" = Ok (VDoc [])
  /\ get_movie offline_db "0 0000000000000000000000" = Ok VNull
  /\ ObjectId "00 00 00 00 00 00 00 00 " = Ok (2 ^ 96 + 256 ^ 8)%Z
  /\ get_movie offline_db "00 00 00 00 00 00 00 00 " = Ok (VDoc []).
Proof.
  split; [| split; [| split; [| split; [| split; [| split; [reflexivity |]]]]]].
  - apply (proj1 (proj2 (get_movie_absent_or_empty sample_db "not-a-valid-id"))).
    reflexivity.
  - apply (proj1 (proj2 (get_movie_absent_or_empty offline_db "not-a-valid-id"))).
    reflexivity.
  - apply (proj1 (proj2 (proj2
             (get_movie_absent_or_empty sample_db "00000000000000000000000f")))
             15%Z); reflexivity.
  - apply (proj1 (proj2 (proj2 (proj2
             (get_movie_absent_or_empty offline_db "00000000000000000000000f"))))
             15%Z (Unreachable "connection refused")); reflexivity.
  - apply (proj1 (proj2 (get_movie_absent_or_empty offline_db
                           "0 0000000000000000000000"))).
    reflexivity.
  - apply (proj1 (proj2 (proj2 (proj2
             (get_movie_absent_or_empty offline_db "00 00 00 00 00 00 00 00 "))))
             (2 ^ 96 + 256 ^ 8)%Z (Unreachable "connection refused"));
      reflexivity.
Defined.

(** C5: for an ObjectId that selects a movie, with a request that does not
    fail, [get_movie] returns that movie with the field [comments] set to
    a list holding exactly the comments whose [movie_id] is the [_id] of
    the movie, each once, the newer before the older. *)
Theorem get_movie_embeds_comments
    (db : database) (id : string) (oid : Z) (movie : doc) (rest : list doc) :
  ObjectId id = Ok oid ->
  fault db (ReqAggregate "movies" (movie_pipeline oid) false) = None ->
  movies_with_id db oid = movie :: rest ->
  exists cs,
    get_movie db id = Ok (VDoc (set_field "comments" (VArr (map VDoc cs)) movie))
    /\ Permutation cs (comments_of db (get_field "_id" movie))
    /\ (forall c, List.In c cs <->
                  List.In c (comments db)
                  /\ get_field "movie_id" c = get_field "_id" movie)
    /\ StronglySorted newer_first cs.
Proof.
  intros Hid Hf Hm.
  exists (sort_docs (movie_rank db oid) "date" DESCENDING (comments_of db (get_field "_id" movie))).
  assert (Hperm : Permutation
            (sort_docs (movie_rank db oid) "date" DESCENDING (comments_of db (get_field "_id" movie)))
            (comments_of db (get_field "_id" movie))) by apply sort_docs_perm.
  split; [| split; [exact Hperm | split; [| apply sorted_by_date]]].
  - unfold get_movie. rewrite Hid. cbn [bind].
    rewrite aggregate_movie. unfold check_fault. rewrite Hf, Hm. reflexivity.
  - intros c. split.
    + intros Hc. apply (Permutation_in _ Hperm) in Hc.
      apply filter_In in Hc. now rewrite opt_value_eqb_eq in Hc.
    + intros [Hc Heq]. apply (Permutation_in _ (Permutation_sym Hperm)).
      apply filter_In. now rewrite opt_value_eqb_eq.
Qed.

Lemma get_movie_embeds_comments_witness :
  get_movie sample_db "000000000000000000000001"
  = Ok (VDoc (sample_movie 1 "A" ["Ann"; "Bob"] (Some 45%Z) (Some 10%Z) (Some 5%Z)
              ++ [("comments",
                   VArr [VDoc (sample_comment 11 1 "b@x.org" d2020_06_01);
                         VDoc (sample_comment 10 1 "a@x.org" d2020_01_01);
                         VDoc (sample_comment 12 1 "a@x.org" d2019_01_01)])]))
  /\ exists cs,
       get_movie sample_db "000000000000000000000001"
       = Ok (VDoc (set_field "comments" (VArr (map VDoc cs))
                     (sample_movie 1 "A" ["Ann"; "Bob"] (Some 45%Z) (Some 10%Z)
                                   (Some 5%Z))))
       /\ StronglySorted newer_first cs.
Proof.
  split; [reflexivity |].
  destruct (get_movie_embeds_comments sample_db "000000000000000000000001" 1
              (sample_movie 1 "A" ["Ann"; "Bob"] (Some 45%Z) (Some 10%Z) (Some 5%Z))
              [] eq_refl eq_refl eq_refl)
    as (cs & Hget & _ & _ & Hsorted).
  exists cs. split; assumption.
Defined.

(** ** The ranking of commenters *)

Lemma existsb_value_eqb (v : value) (l : list value) :
  existsb (value_eqb v) l = true <-> List.In v l.
Proof.
  rewrite existsb_exists. split.
  - intros (x & Hx & E). apply value_eqb_eq in E. now subst x.
  - intros H. exists v. split; [exact H | apply value_eqb_refl].
Qed.

Lemma distinct_in (seen vs : list value) (v : value) :
  List.In v (distinct seen vs) <-> List.In v vs /\ ~ List.In v seen.
Proof.
  revert seen. induction vs as [| x vs IH]; intros seen; simpl; [tauto |].
  destruct (existsb (value_eqb x) seen) eqn:E.
  - apply existsb_value_eqb in E. rewrite IH. split.
    + tauto.
    + intros [[-> | H] Hn]; [contradiction | tauto].
  - assert (Hx : ~ List.In x seen).
    { intros H. apply existsb_value_eqb in H. congruence. }
    simpl. rewrite IH. simpl. split.
    + intros [-> | [H Hn]]; [tauto |]. split; [tauto |]. tauto.
    + intros [[-> | H] Hn]; [tauto |].
      destruct (value_eqb x v) eqn:Exv.
      * apply value_eqb_eq in Exv. now left.
      * apply value_eqb_neq in Exv. right. split; [exact H |].
        intros [-> | H']; [congruence | contradiction].
Qed.

Lemma distinct_nodup (seen vs : list value) : List.NoDup (distinct seen vs).
Proof.
  revert seen. induction vs as [| x vs IH]; intros seen; simpl.
  - constructor.
  - destruct (existsb (value_eqb x) seen); [apply IH |].
    constructor; [| apply IH].
    rewrite distinct_in. simpl. tauto.
Qed.

Lemma count_where_positive (f : doc -> bool) (ds : list doc) :
  (0 < count_where f ds)%Z -> exists d, List.In d ds /\ f d = true.
Proof.
  unfold count_where. destruct (List.filter f ds) as [| d l] eqn:E.
  - simpl. lia.
  - intros _. exists d. apply filter_In. rewrite E. now left.
Qed.

Lemma StronglySorted_impl_in {A : Type} (R R' : A -> A -> Prop) (l : list A) :
  (forall x y, List.In x l -> List.In y l -> R x y -> R' x y) ->
  StronglySorted R l -> StronglySorted R' l.
Proof.
  intros Himp H. induction H as [| x l Hs IH Hx]; constructor.
  - apply IH. intros a b Ha Hb. apply Himp; now right.
  - rewrite List.Forall_forall in *. intros y Hy.
    apply Himp; [now left | now right | now apply Hx].
Qed.

Lemma count_order (e1 e2 : value) (n1 n2 : Z) :
  ordered (fun d => sort_key (doc_path "count" d)) DESCENDING
          (commenter e1 n1) (commenter e2 n2) ->
  more_active (commenter e1 n1) (commenter e2 n2).
Proof.
  unfold ordered, more_active, doc_count, doc_path. cbn.
  destruct (Z.ltb_spec n2 n1), (Z.ltb_spec n1 n2); try lia; discriminate.
Qed.

Lemma aggregate_commenters (db : database) :
  most_active_commenters db =
  let! _ := check_fault db (ReqAggregate "comments"
              [GroupCount "email"; Sort "count" DESCENDING; Limit 20] false) in
  Ok (firstn 20 (sort_docs
                   (tie_rank db (ReqAggregate "comments"
                      [GroupCount "email"; Sort "count" DESCENDING; Limit 20]
                      false))
                   "count" DESCENDING
                   (map (fun e => commenter e (authored db e))
                        (distinct [] (map (group_key "email") (comments db)))))).
Proof.
  unfold most_active_commenters, aggregate.
  destruct (check_fault db _); reflexivity.
Qed.

(** C9: when the request does not fail, [most_active_commenters] returns
    the first 20 documents of a ranking that holds one document per email
    of the comments, each with the number of comments of that email, in
    descending order of that number.  In particular an email with 50
    comments, when every other email has at most 5, comes first, with
    count 50. *)
Theorem most_active_commenters_ranking (db : database) :
  fault db (ReqAggregate "comments"
              [GroupCount "email"; Sort "count" DESCENDING; Limit 20] false) = None ->
  exists ranking,
    most_active_commenters db = Ok (firstn 20 ranking)
    /\ (forall d,
          List.In d ranking <->
          exists c, List.In c (comments db)
                    /\ d = commenter (group_key "email" c)
                                     (authored db (group_key "email" c)))
    /\ List.NoDup (map (dict_get "_id") ranking)
    /\ StronglySorted more_active ranking
    /\ (forall e,
          authored db e = 50%Z ->
          (forall e', e' <> e -> (authored db e' <= 5)%Z) ->
          exists rest, most_active_commenters db = Ok (commenter e 50 :: rest)).
Proof.
  intros Hf.
  set (keys := distinct [] (map (group_key "email") (comments db))).
  set (groups := map (fun e => commenter e (authored db e)) keys).
  set (ranking := sort_docs
                    (tie_rank db (ReqAggregate "comments"
                       [GroupCount "email"; Sort "count" DESCENDING; Limit 20]
                       false))
                    "count" DESCENDING groups).
  assert (Hget : most_active_commenters db = Ok (firstn 20 ranking)).
  { rewrite aggregate_commenters. unfold check_fault. now rewrite Hf. }
  assert (Hperm : Permutation ranking groups) by apply sort_docs_perm.
  assert (Hin : forall d,
             List.In d ranking <->
             exists c, List.In c (comments db)
                       /\ d = commenter (group_key "email" c)
                                        (authored db (group_key "email" c))).
  { intros d. split.
    - intros Hd. apply (Permutation_in _ Hperm) in Hd.
      apply in_map_iff in Hd. destruct Hd as (e & <- & He).
      apply distinct_in in He. destruct He as [He _].
      apply in_map_iff in He. destruct He as (c & <- & Hc). eauto.
    - intros (c & Hc & ->). apply (Permutation_in _ (Permutation_sym Hperm)).
      apply in_map_iff. exists (group_key "email" c). split; [reflexivity |].
      apply distinct_in. split; [| tauto]. now apply in_map. }
  assert (Hsorted : StronglySorted more_active ranking).
  { apply (StronglySorted_impl_in
             (ordered (fun d => sort_key (doc_path "count" d)) DESCENDING)).
    - intros x y Hx Hy. apply Hin in Hx. apply Hin in Hy.
      destruct Hx as (cx & _ & ->). destruct Hy as (cy & _ & ->).
      apply count_order.
    - apply sort_docs_sorted. }
  exists ranking. split; [exact Hget |]. split; [exact Hin |].
  split; [| split; [exact Hsorted |]].
  - apply (Permutation_NoDup (Permutation_sym (Permutation_map _ Hperm))).
    unfold groups. rewrite map_map. cbn. rewrite map_id.
    apply distinct_nodup.
  - intros e He Hothers. rewrite Hget.
    assert (Hein : List.In (commenter e 50) ranking).
    { destruct (count_where_positive
                  (fun c => value_eqb (group_key "email" c) e) (comments db))
        as (c & Hc & Ec).
      - fold (authored db e). lia.
      - apply value_eqb_eq in Ec. apply Hin. exists c.
        split; [exact Hc |]. now rewrite Ec, He. }
    destruct ranking as [| h t]; [contradiction |].
    exists (firstn 19 t). cbn [firstn]. do 2 f_equal.
    assert (Hh : List.In h (h :: t)) by now left.
    apply Hin in Hh. destruct Hh as (c & _ & Hh).
    destruct (value_eqb (group_key "email" c) e) eqn:E.
    + apply value_eqb_eq in E. now rewrite Hh, E, He.
    + apply value_eqb_neq in E. specialize (Hothers _ E).
      destruct Hein as [Heq | Ht].
      * rewrite Hh in Heq. injection Heq as Heq _. contradiction.
      * inversion Hsorted as [| ? ? _ Hall]; subst.
        rewrite List.Forall_forall in Hall. specialize (Hall _ Ht).
        unfold more_active in Hall. cbn in Hall.
        unfold doc_count in Hall. cbn in Hall. lia.
Qed.

Lemma most_active_commenters_ranking_witness :
  most_active_commenters busy_db
  = Ok [commenter (VStr "top@x.org") 50; commenter (VStr "a@x.org") 5;
        commenter (VStr "b@x.org") 3]
  /\ exists rest,
       most_active_commenters busy_db
       = Ok (commenter (VStr "top@x.org") 50 :: rest).
Proof.
  split; [vm_compute; reflexivity |].
  destruct (most_active_commenters_ranking busy_db eq_refl)
    as (ranking & _ & _ & _ & _ & Htop).
  apply (Htop (VStr "top@x.org")).
  - vm_compute. reflexivity.
  - intros e' He'. unfold authored, busy_db. cbn [comments].
    destruct (value_eqb e' (VStr "a@x.org")) eqn:Ea.
    { apply value_eqb_eq in Ea. subst e'. vm_compute. discriminate. }
    destruct (value_eqb e' (VStr "b@x.org")) eqn:Eb.
    { apply value_eqb_eq in Eb. subst e'. vm_compute. discriminate. }
    apply value_eqb_neq in Ea, Eb.
    assert (Hzero : forall cs : list doc,
               List.Forall (fun c => group_key "email" c <> e') cs ->
               count_where (fun c => value_eqb (group_key "email" c) e') cs = 0%Z).
    { induction 1 as [| c cs Hc _ IH]; [reflexivity |].
      rewrite count_where_cons, IH.
      apply value_eqb_neq in Hc. now rewrite Hc. }
    rewrite Hzero; [lia |].
    apply List.Forall_forall. intros c Hc. vm_compute in Hc.
    repeat (destruct Hc as [<- | Hc]; [cbn; congruence |]).
    contradiction.
Defined.

(** * The further functions *)

(** ** Documents and filters *)

Lemma get_field_set_field_eq (k : string) (v : value) (d : doc) :
  get_field k (set_field k v d) = Some v.
Proof.
  induction d as [| [k' v'] d IH]; simpl.
  - now rewrite String.eqb_refl.
  - destruct (String.eqb_spec k k') as [-> | Hne]; simpl.
    + now rewrite String.eqb_refl.
    + destruct (String.eqb_spec k k'); [contradiction | exact IH].
Qed.

Lemma get_field_set_field_ne (k k' : string) (v : value) (d : doc) :
  k <> k' -> get_field k' (set_field k v d) = get_field k' d.
Proof.
  intros Hne. induction d as [| [k0 v0] d IH]; simpl.
  - destruct (String.eqb_spec k' k); [congruence | reflexivity].
  - destruct (String.eqb_spec k k0) as [-> | Hk]; simpl.
    + destruct (String.eqb_spec k' k0); [congruence | reflexivity].
    + destruct (String.eqb_spec k' k0); [reflexivity | exact IH].
Qed.

Lemma opt_value_eqb_refl (a : option value) : opt_value_eqb a a = true.
Proof. now apply opt_value_eqb_eq. Qed.

Lemma field_matches_refl (v : value) : field_matches (Some v) v = true.
Proof.
  unfold field_matches. destruct v; rewrite value_eqb_refl; reflexivity.
Qed.

(** A document with the index key [v] matches the filter on [v]. *)
Lemma key_matches (field : string) (d : doc) :
  field_matches (get_field field d) (group_key field d) = true.
Proof.
  unfold group_key. destruct (get_field field d) as [v |].
  - apply field_matches_refl.
  - reflexivity.
Qed.

Lemma project_fields_get (fields : list string) (d : doc) (k : string) :
  get_field k (project_fields fields d)
  = if String.eqb k "_id" || existsb (String.eqb k) fields
    then get_field k d else None.
Proof.
  unfold project_fields. induction d as [| [k' v] d IH]; simpl.
  - now destruct (_ || _).
  - destruct (String.eqb_spec k k') as [<- | Hne].
    + destruct (String.eqb k "_id" || existsb (String.eqb k) fields) eqn:E;
        simpl; [now rewrite String.eqb_refl | exact IH].
    + destruct (String.eqb k' "_id" || existsb (String.eqb k') fields);
        simpl; [| exact IH].
      destruct (String.eqb_spec k k'); [contradiction | exact IH].
Qed.

(** ** Movies by country *)

(** X1: when the request does not fail and [countries] is a list,
    [get_movies_by_country] returns, for the movies one of whose countries
    is in the list and in their order, one document each that has the
    [_id] and the [title] of the movie and no other field. *)
Theorem get_movies_by_country_projects (st : store) (cs : list value) :
  st_fault st (CmdFind "movies" (QIn "countries" (VArr cs)) ["title"]) = None ->
  exists l,
    get_movies_by_country (VArr cs) st = (Ok (PyDocs l), st)
    /\ Forall2 (fun m d =>
                  get_field "_id" d = get_field "_id" m
                  /\ get_field "title" d = get_field "title" m
                  /\ forall k, k <> "_id" -> k <> "title" ->
                               get_field k d = None)
               (List.filter (matches (st_db st) (QIn "countries" (VArr cs)))
                            (movies (st_db st)))
               l.
Proof.
  intros Hf. eexists. split.
  - unfold get_movies_by_country, io_try, find_fields, io_bind, check_cmd,
      io_lift, io_ret.
    rewrite Hf. reflexivity.
  - change (get_coll st "movies") with (movies (st_db st)).
    induction (List.filter _ (movies (st_db st))) as [| m ms IH];
      constructor; [| exact IH].
    split; [now rewrite project_fields_get |].
    split; [now rewrite project_fields_get |].
    intros k Hid Htitle. rewrite project_fields_get. cbn [existsb].
    destruct (String.eqb_spec k "_id"); [contradiction |].
    destruct (String.eqb_spec k "title"); [contradiction | reflexivity].
Qed.

Lemma get_movies_by_country_projects_witness :
  get_movies_by_country (VArr [VStr "France"]) sample_store
  = (Ok (PyDocs [[("_id", VOid 1); ("title", VStr "A")];
                 [("_id", VOid 2); ("title", VStr "B")]]), sample_store)
  /\ exists l,
       get_movies_by_country (VArr [VStr "France"]) sample_store
       = (Ok (PyDocs l), sample_store).
Proof.
  split; [reflexivity |].
  destruct (get_movies_by_country_projects sample_store [VStr "France"] eq_refl)
    as (l & Hl & _).
  exists l. exact Hl.
Defined.

(** X2: [get_movies_by_country] never raises: when the request fails in
    the store, or is refused because [countries] is not a list, the
    exception itself is the value returned, and the store is as before. *)
Theorem get_movies_by_country_returns_exception
    (st : store) (countries : value) :
  (forall f,
      st_fault st (CmdFind "movies" (QIn "countries" countries) ["title"])
      = Some f ->
      get_movies_by_country countries st = (Ok (PyExn (exn_of_failure f)), st))
  /\ (st_fault st (CmdFind "movies" (QIn "countries" countries) ["title"])
      = None ->
      (forall cs, countries <> VArr cs) ->
      get_movies_by_country countries st
      = (Ok (PyExn (OperationFailure "$in needs an array" (Some 2%Z))), st))
  /\ exists r, get_movies_by_country countries st = (Ok r, st).
Proof.
  unfold get_movies_by_country, io_try, find_fields, io_bind, check_cmd,
    io_lift, io_ret.
  destruct (st_fault st _) as [f |].
  - split; [| split].
    + now intros f' [= <-].
    + discriminate.
    + eauto.
  - split; [discriminate | split].
    + intros _ Hn. destruct countries; try reflexivity.
      now destruct (Hn vs).
    + destruct countries; cbn; eauto.
Qed.

Lemma get_movies_by_country_returns_exception_witness :
  get_movies_by_country (VArr [VStr "France"]) offline_store
  = (Ok (PyExn (ConnectionFailure "connection refused")), offline_store)
  /\ get_movies_by_country (VStr "France") sample_store
     = (Ok (PyExn (OperationFailure "$in needs an array" (Some 2%Z))),
        sample_store).
Proof.
  split.
  - apply (proj1 (get_movies_by_country_returns_exception offline_store
                    (VArr [VStr "France"]))
                 (Unreachable "connection refused")).
    reflexivity.
  - apply (proj1 (proj2 (get_movies_by_country_returns_exception sample_store
                           (VStr "France")))).
    + reflexivity.
    + discriminate.
Defined.

(** ** All genres *)

Lemma unwound_genres (m : doc) (g : value) :
  List.In g (flat_map (fun d => match get_field "genres" d with
                                | Some v => [v]
                                | None => []
                                end) (unwind "genres" m))
  <-> has_genre m g.
Proof.
  unfold unwind, has_genre.
  destruct (get_field "genres" m) as [v |] eqn:E; [| simpl; tauto].
  destruct v as [| b | z | s | ms | o | xs | fs];
    try (cbn [flat_map]; rewrite E; simpl; tauto).
  - simpl; tauto.
  - clear E. induction xs as [| x xs IH]; [simpl; tauto |].
    cbn [map flat_map]. rewrite get_field_set_field_eq.
    cbn [app List.In]. now rewrite IH.
Qed.

Lemma unwind_nil (m : doc) :
  unwind "genres" m = [] <-> forall g, ~ has_genre m g.
Proof.
  unfold unwind, has_genre.
  destruct (get_field "genres" m) as [v |]; [| tauto].
  destruct v as [| b | z | s | ms | o | xs | fs];
    try tauto; try (split; [discriminate | intros H; now destruct (H _ eq_refl)]).
  destruct xs as [| x xs]; simpl.
  - tauto.
  - split; [discriminate |]. intros H. destruct (H x). now left.
Qed.

Lemma get_all_genres_eq (st : store) :
  st_fault st (CmdAggregate "movies"
                 [Unwind "genres"; GroupAddToSet "genres" "genres"]) = None ->
  get_all_genres st =
  (match flat_map (unwind "genres") (movies (st_db st)) with
   | [] => Raise IndexError
   | d :: ds =>
       Ok (VArr (distinct [] (flat_map
                                (fun d => match get_field "genres" d with
                                          | Some v => [v]
                                          | None => []
                                          end) (d :: ds))))
   end, st).
Proof.
  intros Hf.
  unfold get_all_genres, aggregate_genres, io_bind, check_cmd, io_lift, io_ret.
  rewrite Hf. cbn [fold_left run_genre_stage].
  change (get_coll st "movies") with (movies (st_db st)).
  now destruct (flat_map (unwind "genres") (movies (st_db st))).
Qed.

(** X3: when the request does not fail and some movie has a genre,
    [get_all_genres] returns a list without repetition whose members are
    exactly the genres of the movies: the elements of their [genres]
    arrays. *)
Theorem get_all_genres_distinct (st : store) (m0 : doc) (g0 : value) :
  st_fault st (CmdAggregate "movies"
                 [Unwind "genres"; GroupAddToSet "genres" "genres"]) = None ->
  List.In m0 (movies (st_db st)) -> has_genre m0 g0 ->
  exists gs,
    get_all_genres st = (Ok (VArr gs), st)
    /\ List.NoDup gs
    /\ forall g, List.In g gs <->
                 exists m, List.In m (movies (st_db st)) /\ has_genre m g.
Proof.
  intros Hf Hm0 Hg0. rewrite (get_all_genres_eq st Hf).
  destruct (flat_map (unwind "genres") (movies (st_db st))) as [| d ds] eqn:E.
  - exfalso.
    assert (Hnil : unwind "genres" m0 = []).
    { destruct (unwind "genres" m0) as [| x l] eqn:Ex; [reflexivity |].
      assert (Hx : List.In x (flat_map (unwind "genres") (movies (st_db st)))).
      { apply in_flat_map. exists m0. rewrite Ex. split; [exact Hm0 | now left]. }
      rewrite E in Hx. contradiction. }
    exact (proj1 (unwind_nil m0) Hnil g0 Hg0).
  - eexists. split; [reflexivity |]. split; [apply distinct_nodup |].
    intros g. rewrite distinct_in, <- E. split.
    + intros [Hg _]. apply in_flat_map in Hg. destruct Hg as (d' & Hd' & Hg).
      apply in_flat_map in Hd'. destruct Hd' as (m & Hm & Hd').
      exists m. split; [exact Hm |]. apply unwound_genres.
      apply in_flat_map. eauto.
    + intros (m & Hm & Hg). split; [| tauto].
      apply unwound_genres in Hg. apply in_flat_map in Hg.
      destruct Hg as (d' & Hd' & Hg).
      apply in_flat_map. exists d'. split; [| exact Hg].
      apply in_flat_map. eauto.
Qed.

Lemma get_all_genres_distinct_witness :
  get_all_genres sample_store
  = (Ok (VArr [VStr "Drama"; VStr "Comedy"]), sample_store)
  /\ exists gs,
       get_all_genres sample_store = (Ok (VArr gs), sample_store)
       /\ List.NoDup gs.
Proof.
  split; [reflexivity |].
  destruct (get_all_genres_distinct sample_store
              (world_movie 1 "A" ["USA"; "France"] (Some ["Drama"; "Comedy"]))
              (VStr "Drama") eq_refl)
    as (gs & Hgs & Hnd & _).
  - left. reflexivity.
  - unfold has_genre. cbn. now left.
  - exists gs. split; assumption.
Defined.

(** X4: when the request does not fail and no movie has a genre (no
    movie at all, or only movies whose [genres] is missing, null or the
    empty list), [get_all_genres] raises [IndexError]. *)
Theorem get_all_genres_no_genre (st : store) :
  st_fault st (CmdAggregate "movies"
                 [Unwind "genres"; GroupAddToSet "genres" "genres"]) = None ->
  (forall m g, List.In m (movies (st_db st)) -> ~ has_genre m g) ->
  get_all_genres st = (Raise IndexError, st).
Proof.
  intros Hf Hnone. rewrite (get_all_genres_eq st Hf).
  assert (E : flat_map (unwind "genres") (movies (st_db st)) = []).
  { induction (movies (st_db st)) as [| m ms IH]; [reflexivity |].
    cbn [flat_map].
    rewrite (proj2 (unwind_nil m)) by (intros g; apply Hnone; now left).
    apply IH. intros m' g Hm'. apply Hnone. now right. }
  now rewrite E.
Qed.

Lemma get_all_genres_no_genre_witness :
  get_all_genres empty_store = (Raise IndexError, empty_store).
Proof.
  apply get_all_genres_no_genre; [reflexivity |].
  intros m g Hm. destruct Hm.
Defined.

(** ** The first matching document *)

Lemma split_first_spec (p : doc -> bool) (ds pre post : list doc) (x : doc) :
  split_first p ds = Some (pre, x, post) ->
  ds = pre ++ x :: post /\ p x = true /\ List.Forall (fun d => p d = false) pre.
Proof.
  revert pre. induction ds as [| d ds IH]; intros pre; simpl; [discriminate |].
  destruct (p d) eqn:E.
  - intros [= <- <- <-]. auto.
  - destruct (split_first p ds) as [[[pre' x'] post'] |]; [| discriminate].
    intros [= <- <- <-]. destruct (IH pre' eq_refl) as (-> & Hx & Hpre).
    auto.
Qed.

Lemma split_first_none (p : doc -> bool) (ds : list doc) :
  split_first p ds = None <-> List.Forall (fun d => p d = false) ds.
Proof.
  induction ds as [| d ds IH]; simpl.
  - split; auto.
  - destruct (p d) eqn:E.
    + split; [discriminate |]. intros H. inversion H; congruence.
    + destruct (split_first p ds) as [[[pre x] post] |].
      * split; [discriminate |]. intros H. inversion H; subst.
        now apply IH in H3.
      * split; [| reflexivity]. intros _. constructor; [exact E |].
        now apply IH.
Qed.

Lemma split_first_app (p : doc -> bool) (pre l : list doc) :
  List.Forall (fun d => p d = false) pre ->
  split_first p (pre ++ l)
  = match split_first p l with
    | Some (a, x, b) => Some (pre ++ a, x, b)
    | None => None
    end.
Proof.
  induction 1 as [| d pre Hd _ IH]; simpl.
  - now destruct (split_first p l) as [[[a x] b] |].
  - rewrite Hd, IH. now destruct (split_first p l) as [[[a x] b] |].
Qed.

Lemma find_app_none (p : doc -> bool) (pre l : list doc) :
  List.Forall (fun d => p d = false) pre ->
  List.find p (pre ++ l) = List.find p l.
Proof.
  induction 1 as [| d pre Hd _ IH]; simpl; [reflexivity |].
  now rewrite Hd.
Qed.

Lemma filter_none (p : doc -> bool) (ds : list doc) :
  List.Forall (fun d => p d = false) ds -> List.filter p ds = [].
Proof.
  induction 1 as [| d ds Hd _ IH]; simpl; [reflexivity |].
  now rewrite Hd.
Qed.

(** ** Comments: add, update, delete *)

Lemma fresh_no_same_id (st : store) (coll : string) (d : doc) :
  fresh_id st coll = true ->
  existsb (same_key "_id" (("_id", VOid (st_next_oid st)) :: d))
          (get_coll st coll) = false.
Proof.
  unfold fresh_id. induction (get_coll st coll) as [| c cs IH]; simpl;
    [reflexivity |].
  rewrite andb_true_iff, negb_true_iff. intros [Hc Hcs].
  rewrite (IH Hcs), orb_false_r.
  unfold same_key. change (group_key "_id" (("_id", VOid (st_next_oid st)) :: d))
    with (VOid (st_next_oid st)).
  destruct (value_eqb (VOid (st_next_oid st)) (group_key "_id" c)) eqn:E;
    [| reflexivity].
  apply value_eqb_eq in E. rewrite E, key_matches in Hc. discriminate.
Qed.

(** What [add_comment] does when nothing stands in its way. *)
Lemma add_comment_eq (st : store) (movie_id : string) (oid : Z) (user : User)
    (comment date : value) :
  ObjectId movie_id = Ok oid ->
  st_fault st (CmdInsertOne "comments" (comment_doc_of user oid comment date)
                            false) = None ->
  fresh_id st "comments" = true ->
  add_comment movie_id user comment date st
  = (Ok (PyInsertOneResult (VOid (st_next_oid st))),
     set_coll (bump st) "comments"
       (comments (st_db st)
        ++ [("_id", VOid (st_next_oid st))
            :: comment_doc_of user oid comment date])).
Proof.
  intros Hid Hf Hfresh.
  unfold add_comment, io_bind, io_lift. rewrite Hid.
  fold (comment_doc_of user oid comment date).
  unfold insert_one.
  change (get_field "_id" (comment_doc_of user oid comment date))
    with (@None value).
  cbn iota. rewrite Hf. unfold breaks_unique.
  change (get_coll (bump st) "comments") with (get_coll st "comments").
  rewrite (fresh_no_same_id st "comments" _ Hfresh). reflexivity.
Qed.

Lemma get_movie_found (db : database) (id : string) (oid : Z) (movie : doc)
    (rest : list doc) :
  ObjectId id = Ok oid ->
  fault db (ReqAggregate "movies" (movie_pipeline oid) false) = None ->
  movies_with_id db oid = movie :: rest ->
  get_movie db id
  = Ok (VDoc (set_field "comments"
                (VArr (map VDoc (sort_docs (movie_rank db oid) "date" DESCENDING
                                   (comments_of db (get_field "_id" movie)))))
                movie)).
Proof.
  intros Hid Hf Hm. unfold get_movie. rewrite Hid. cbn [bind].
  rewrite aggregate_movie. unfold check_fault. rewrite Hf, Hm. reflexivity.
Qed.

Lemma get_movie_missing (db : database) (id : string) (oid : Z) :
  ObjectId id = Ok oid ->
  fault db (ReqAggregate "movies" (movie_pipeline oid) false) = None ->
  movies_with_id db oid = [] ->
  get_movie db id = Ok VNull.
Proof.
  intros Hid Hf Hm. unfold get_movie. rewrite Hid. cbn [bind].
  rewrite aggregate_movie. unfold check_fault. rewrite Hf, Hm. reflexivity.
Qed.

(** X5: a comment added to a movie shows when the movie is fetched again:
    after a successful [add_comment] on the identifier of a movie,
    [get_movie] embeds the comments it embedded before and the new one,
    with the name and email of the user, the text and the date, still the
    newer before the older. *)
Theorem add_comment_then_get_movie
    (st : store) (movie_id : string) (oid : Z) (user : User)
    (comment date : value) (movie : doc) (rest : list doc) :
  ObjectId movie_id = Ok oid ->
  st_fault st (CmdInsertOne "comments" (comment_doc_of user oid comment date)
                            false) = None ->
  fresh_id st "comments" = true ->
  fault (st_db st) (ReqAggregate "movies" (movie_pipeline oid) false) = None ->
  movies_with_id (st_db st) oid = movie :: rest ->
  get_field "_id" movie = Some (VOid oid) ->
  exists cs cs',
    get_movie (st_db st) movie_id
    = Ok (VDoc (set_field "comments" (VArr (map VDoc cs)) movie))
    /\ fst (add_comment movie_id user comment date st)
       = Ok (PyInsertOneResult (VOid (st_next_oid st)))
    /\ get_movie (st_db (snd (add_comment movie_id user comment date st)))
                 movie_id
       = Ok (VDoc (set_field "comments" (VArr (map VDoc cs')) movie))
    /\ Permutation cs'
         ((("_id", VOid (st_next_oid st))
           :: comment_doc_of user oid comment date) :: cs)
    /\ StronglySorted newer_first cs'.
Proof.
  intros Hid Hf Hfresh Hagg Hm Hmid.
  rewrite (add_comment_eq st movie_id oid user comment date Hid Hf Hfresh).
  cbn [fst snd].
  set (new := ("_id", VOid (st_next_oid st))
              :: comment_doc_of user oid comment date).
  set (db' := st_db (set_coll (bump st) "comments" (comments (st_db st) ++ [new]))).
  exists (sort_docs (movie_rank (st_db st) oid) "date" DESCENDING
                    (comments_of (st_db st) (Some (VOid oid)))).
  exists (sort_docs (movie_rank db' oid) "date" DESCENDING
                    (comments_of db' (Some (VOid oid)))).
  split; [| split; [reflexivity | split; [| split]]].
  - rewrite <- Hmid. exact (get_movie_found _ _ _ _ _ Hid Hagg Hm).
  - rewrite <- Hmid. apply (get_movie_found db' _ oid movie rest Hid Hagg Hm).
  - assert (Hnew : comments_of db' (Some (VOid oid))
                   = comments_of (st_db st) (Some (VOid oid)) ++ [new]).
    { unfold comments_of, db'. cbn [set_coll String.eqb Ascii.eqb Bool.eqb
        st_db comments]. rewrite List.filter_app. f_equal.
      cbn. now rewrite Z.eqb_refl. }
    rewrite sort_docs_perm, Hnew.
    rewrite <- Permutation_cons_append. apply perm_skip.
    symmetry. apply sort_docs_perm.
  - apply sorted_by_date.
Qed.

Lemma add_comment_then_get_movie_witness :
  exists cs cs',
    get_movie (st_db sample_store) "000000000000000000000002"
    = Ok (VDoc (set_field "comments" (VArr (map VDoc cs))
                  (world_movie 2 "B" ["France"] (Some ["Drama"]))))
    /\ get_movie
         (st_db (snd (add_comment "000000000000000000000002" ann_user
                        (VStr "fine") (VDate d2020_06_01) sample_store)))
         "000000000000000000000002"
       = Ok (VDoc (set_field "comments" (VArr (map VDoc cs'))
                     (world_movie 2 "B" ["France"] (Some ["Drama"]))))
    /\ Permutation cs'
         ((("_id", VOid 1000)
           :: comment_doc_of ann_user 2 (VStr "fine") (VDate d2020_06_01))
          :: cs).
Proof.
  destruct (add_comment_then_get_movie sample_store "000000000000000000000002"
              2 ann_user (VStr "fine") (VDate d2020_06_01)
              (world_movie 2 "B" ["France"] (Some ["Drama"])) []
              eq_refl eq_refl eq_refl eq_refl eq_refl eq_refl)
    as (cs & cs' & Hbefore & _ & Hafter & Hperm & _).
  exists cs, cs'. split; [exact Hbefore | split; [exact Hafter | exact Hperm]].
Defined.

(** X6: [add_comment] does not look for the movie: on an identifier no
    movie has, it stores the comment all the same, as the last one, while
    [get_movie] on that identifier goes on returning [None]. *)
Theorem add_comment_unknown_movie
    (st : store) (movie_id : string) (oid : Z) (user : User)
    (comment date : value) :
  ObjectId movie_id = Ok oid ->
  st_fault st (CmdInsertOne "comments" (comment_doc_of user oid comment date)
                            false) = None ->
  fresh_id st "comments" = true ->
  fault (st_db st) (ReqAggregate "movies" (movie_pipeline oid) false) = None ->
  movies_with_id (st_db st) oid = [] ->
  fst (add_comment movie_id user comment date st)
  = Ok (PyInsertOneResult (VOid (st_next_oid st)))
  /\ comments (st_db (snd (add_comment movie_id user comment date st)))
     = comments (st_db st)
       ++ [("_id", VOid (st_next_oid st))
           :: comment_doc_of user oid comment date]
  /\ get_movie (st_db (snd (add_comment movie_id user comment date st)))
               movie_id
     = Ok VNull.
Proof.
  intros Hid Hf Hfresh Hagg Hm.
  rewrite (add_comment_eq st movie_id oid user comment date Hid Hf Hfresh).
  cbn [fst snd]. split; [reflexivity |]. split; [reflexivity |].
  apply (get_movie_missing _ _ oid Hid); [exact Hagg | exact Hm].
Qed.

Lemma add_comment_unknown_movie_witness :
  fst (add_comment "00000000000000000000000f" ann_user (VStr "lost")
                   (VDate d2020_06_01) sample_store)
  = Ok (PyInsertOneResult (VOid 1000))
  /\ get_movie
       (st_db (snd (add_comment "00000000000000000000000f" ann_user
                      (VStr "lost") (VDate d2020_06_01) sample_store)))
       "00000000000000000000000f"
     = Ok VNull.
Proof.
  destruct (add_comment_unknown_movie sample_store "00000000000000000000000f"
              15 ann_user (VStr "lost") (VDate d2020_06_01)
              eq_refl eq_refl eq_refl eq_refl eq_refl)
    as (Hr & _ & Hg).
  split; [exact Hr | exact Hg].
Defined.

Lemma not_owner_no_match (oid : Z) (email : value) (ds : list doc) :
  (forall c, List.In c ds ->
             field_matches (get_field "_id" c) (VOid oid) = true ->
             field_matches (get_field "email" c) email = false) ->
  List.Forall
    (fun d => filter_matches [("_id", VOid oid); ("email", email)] d = false)
    ds.
Proof.
  intros H. apply List.Forall_forall. intros c Hc.
  unfold filter_matches. cbn [forallb fst snd].
  destruct (field_matches (get_field "_id" c) (VOid oid)) eqn:E;
    [| reflexivity].
  now rewrite (H c Hc E).
Qed.

(** X7: only the author touches a comment: when every comment with the
    given identifier has another email, [update_comment] and
    [delete_comment] report no match and leave the store as it is. *)
Theorem comment_of_another_user_untouched
    (st : store) (comment_id : string) (oid : Z)
    (user_email text date : value) :
  ObjectId comment_id = Ok oid ->
  (forall c, List.In c (comments (st_db st)) ->
             field_matches (get_field "_id" c) (VOid oid) = true ->
             field_matches (get_field "email" c) user_email = false) ->
  (st_fault st (CmdUpdateOne "comments"
                  [("_id", VOid oid); ("email", user_email)]
                  [("text", text); ("date", date)] false) = None ->
   update_comment comment_id user_email text date st
   = (Ok (PyUpdateResult 0 0 None), st))
  /\ (st_fault st (CmdDeleteOne "comments"
                     [("_id", VOid oid); ("email", user_email)]) = None ->
      delete_comment comment_id user_email st = (Ok (PyDeleteResult 0), st)).
Proof.
  intros Hid Hother.
  assert (Hnone : split_first
                    (filter_matches [("_id", VOid oid); ("email", user_email)])
                    (comments (st_db st)) = None).
  { apply split_first_none. now apply not_owner_no_match. }
  split; intros Hf.
  - unfold update_comment, update_one, check_cmd, io_bind, io_lift, io_ret.
    rewrite Hid. cbv beta iota. rewrite Hf. cbv beta iota.
    change (get_coll st "comments") with (comments (st_db st)).
    now rewrite Hnone.
  - unfold delete_comment, delete_one, check_cmd, io_bind, io_lift, io_ret.
    rewrite Hid. cbv beta iota. rewrite Hf. cbv beta iota.
    change (get_coll st "comments") with (comments (st_db st)).
    now rewrite Hnone.
Qed.

Lemma comment_of_another_user_untouched_witness :
  update_comment "00000000000000000000000b" (VStr "a@x.org") (VStr "mine")
                 (VDate d2020_06_01) sample_store
  = (Ok (PyUpdateResult 0 0 None), sample_store)
  /\ delete_comment "00000000000000000000000b" (VStr "a@x.org") sample_store
     = (Ok (PyDeleteResult 0), sample_store).
Proof.
  assert (Hother : forall c,
             List.In c (comments (st_db sample_store)) ->
             field_matches (get_field "_id" c) (VOid 11) = true ->
             field_matches (get_field "email" c) (VStr "a@x.org") = false).
  { intros c Hc. cbn in Hc.
    destruct Hc as [<- | [<- | [<- | [<- | []]]]]; cbn; congruence. }
  destruct (comment_of_another_user_untouched sample_store
              "00000000000000000000000b" 11 (VStr "a@x.org") (VStr "mine")
              (VDate d2020_06_01) eq_refl Hother) as [Hu Hd].
  split; [apply Hu | apply Hd]; reflexivity.
Defined.

(** X8: [update_comment] by its author changes that comment alone, in
    place: its text and date are the new ones, every other field of it
    ([_id], [movie_id], [email], [name]) is as before, and so is every
    other comment; one document is reported matched. *)
Theorem update_comment_by_author
    (st : store) (comment_id : string) (oid : Z)
    (user_email text date : value) (pre post : list doc) (c : doc) :
  ObjectId comment_id = Ok oid ->
  st_fault st (CmdUpdateOne "comments"
                 [("_id", VOid oid); ("email", user_email)]
                 [("text", text); ("date", date)] false) = None ->
  comments (st_db st) = pre ++ c :: post ->
  List.Forall
    (fun d => filter_matches [("_id", VOid oid); ("email", user_email)] d = false)
    pre ->
  filter_matches [("_id", VOid oid); ("email", user_email)] c = true ->
  exists c' modified,
    update_comment comment_id user_email text date st
    = (Ok (PyUpdateResult 1 modified None),
       set_coll st "comments" (pre ++ c' :: post))
    /\ get_field "text" c' = Some text
    /\ get_field "date" c' = Some date
    /\ (forall k, k <> "text" -> k <> "date" -> get_field k c' = get_field k c)
    /\ (modified = 0 \/ modified = 1)%Z.
Proof.
  intros Hid Hf Hsplit Hpre Hc.
  exists (set_field "date" date (set_field "text" text c)).
  exists (if value_eqb (VDoc (set_field "date" date (set_field "text" text c)))
                       (VDoc c) then 0 else 1)%Z.
  assert (Hkeep : forall k, k <> "text" -> k <> "date" ->
            get_field k (set_field "date" date (set_field "text" text c))
            = get_field k c).
  { intros k Ht Hd. rewrite !get_field_set_field_ne; auto. }
  split; [| split; [| split; [| split]]].
  - unfold update_comment, update_one, check_cmd, io_bind, io_lift, io_ret.
    rewrite Hid. cbv beta iota. rewrite Hf. cbv beta iota.
    change (get_coll st "comments") with (comments (st_db st)).
    rewrite Hsplit, (split_first_app _ pre (c :: post) Hpre).
    cbn [split_first]. rewrite Hc, app_nil_r.
    cbn [apply_set fold_left fst snd].
    rewrite (Hkeep "_id") by discriminate.
    rewrite opt_value_eqb_refl. cbn [negb].
    change (String.eqb "comments" "users") with false.
    rewrite andb_false_r. cbn [andb]. reflexivity.
  - rewrite get_field_set_field_ne by discriminate.
    apply get_field_set_field_eq.
  - apply get_field_set_field_eq.
  - exact Hkeep.
  - destruct (value_eqb _ _); auto.
Qed.

Lemma update_comment_by_author_witness :
  fst (update_comment "00000000000000000000000b" (VStr "b@x.org")
                      (VStr "edited") (VDate d2020_01_01) sample_store)
  = Ok (PyUpdateResult 1 1 None)
  /\ exists c' modified,
       update_comment "00000000000000000000000b" (VStr "b@x.org")
                      (VStr "edited") (VDate d2020_01_01) sample_store
       = (Ok (PyUpdateResult 1 modified None),
          set_coll sample_store "comments"
            ([sample_comment 10 1 "a@x.org" d2020_01_01] ++ c'
             :: [sample_comment 12 1 "a@x.org" d2019_01_01;
                 sample_comment 13 2 "a@x.org" d2019_01_01]))
       /\ get_field "text" c' = Some (VStr "edited")
       /\ get_field "email" c' = Some (VStr "b@x.org").
Proof.
  split; [reflexivity |].
  destruct (update_comment_by_author sample_store "00000000000000000000000b"
              11 (VStr "b@x.org") (VStr "edited") (VDate d2020_01_01)
              [sample_comment 10 1 "a@x.org" d2020_01_01]
              [sample_comment 12 1 "a@x.org" d2019_01_01;
               sample_comment 13 2 "a@x.org" d2019_01_01]
              (sample_comment 11 1 "b@x.org" d2020_06_01)
              eq_refl eq_refl eq_refl)
    as (c' & m & Hu & Ht & _ & Hk & _).
  - repeat constructor.
  - reflexivity.
  - exists c', m. split; [exact Hu |]. split; [exact Ht |].
    now rewrite Hk by discriminate.
Defined.

(** X9: [delete_comment] by its author removes that comment and no
    other: the comments before and after it stay, in their order; and
    when the identifiers of the comments are distinct, no comment with
    that identifier is left. *)
Theorem delete_comment_by_author
    (st : store) (comment_id : string) (oid : Z) (user_email : value)
    (pre post : list doc) (c : doc) :
  ObjectId comment_id = Ok oid ->
  st_fault st (CmdDeleteOne "comments"
                 [("_id", VOid oid); ("email", user_email)]) = None ->
  comments (st_db st) = pre ++ c :: post ->
  List.Forall
    (fun d => filter_matches [("_id", VOid oid); ("email", user_email)] d = false)
    pre ->
  filter_matches [("_id", VOid oid); ("email", user_email)] c = true ->
  delete_comment comment_id user_email st
  = (Ok (PyDeleteResult 1), set_coll st "comments" (pre ++ post))
  /\ (get_field "_id" c = Some (VOid oid) ->
      List.NoDup (map (group_key "_id") (comments (st_db st))) ->
      forall d, List.In d (pre ++ post) -> get_field "_id" d <> Some (VOid oid)).
Proof.
  intros Hid Hf Hsplit Hpre Hc. split.
  - unfold delete_comment, delete_one, check_cmd, io_bind, io_lift, io_ret.
    rewrite Hid. cbv beta iota. rewrite Hf. cbv beta iota.
    change (get_coll st "comments") with (comments (st_db st)).
    rewrite Hsplit, (split_first_app _ pre (c :: post) Hpre).
    cbn [split_first]. now rewrite Hc, app_nil_r.
  - intros Hcid Hnd d Hd Hdid.
    rewrite Hsplit, map_app in Hnd. cbn [map] in Hnd.
    apply NoDup_remove_2 in Hnd. apply Hnd.
    rewrite <- map_app.
    replace (group_key "_id" c) with (group_key "_id" d)
      by (unfold group_key; now rewrite Hcid, Hdid).
    now apply in_map.
Qed.

Lemma delete_comment_by_author_witness :
  delete_comment "00000000000000000000000b" (VStr "b@x.org") sample_store
  = (Ok (PyDeleteResult 1),
     set_coll sample_store "comments"
       [sample_comment 10 1 "a@x.org" d2020_01_01;
        sample_comment 12 1 "a@x.org" d2019_01_01;
        sample_comment 13 2 "a@x.org" d2019_01_01]).
Proof.
  refine (proj1 (delete_comment_by_author sample_store
                   "00000000000000000000000b" 11 (VStr "b@x.org")
                   [sample_comment 10 1 "a@x.org" d2020_01_01]
                   [sample_comment 12 1 "a@x.org" d2019_01_01;
                    sample_comment 13 2 "a@x.org" d2019_01_01]
                   (sample_comment 11 1 "b@x.org" d2020_06_01)
                   eq_refl eq_refl eq_refl _ eq_refl)).
  repeat constructor.
Defined.

Lemma fresh_no_match (st : store) (coll : string) (f : doc) :
  fresh_id st coll = true ->
  List.Forall
    (fun d => filter_matches (("_id", VOid (st_next_oid st)) :: f) d = false)
    (get_coll st coll).
Proof.
  unfold fresh_id. rewrite forallb_forall, List.Forall_forall.
  intros H d Hd. specialize (H d Hd). apply negb_true_iff in H.
  unfold filter_matches. cbn [forallb fst snd]. now rewrite H.
Qed.

(** X10: adding a comment and deleting it again, under the identifier
    [add_comment] returned and the email of its author, gives back the
    collections as they were. *)
Theorem add_then_delete_comment
    (st : store) (movie_id comment_id : string) (oid : Z) (user : User)
    (comment date : value) :
  ObjectId movie_id = Ok oid ->
  ObjectId comment_id = Ok (st_next_oid st) ->
  st_fault st (CmdInsertOne "comments" (comment_doc_of user oid comment date)
                            false) = None ->
  st_fault st (CmdDeleteOne "comments"
                 [("_id", VOid (st_next_oid st)); ("email", u_email user)])
  = None ->
  fresh_id st "comments" = true ->
  let st1 := snd (add_comment movie_id user comment date st) in
  let st2 := snd (delete_comment comment_id (u_email user) st1) in
  fst (add_comment movie_id user comment date st)
  = Ok (PyInsertOneResult (VOid (st_next_oid st)))
  /\ fst (delete_comment comment_id (u_email user) st1) = Ok (PyDeleteResult 1)
  /\ comments (st_db st2) = comments (st_db st)
  /\ movies (st_db st2) = movies (st_db st)
  /\ st_users st2 = st_users st
  /\ st_sessions st2 = st_sessions st.
Proof.
  intros Hid Hcid Hfi Hfd Hfresh.
  rewrite (add_comment_eq st movie_id oid user comment date Hid Hfi Hfresh).
  cbn [fst snd]. cbv zeta.
  set (new := ("_id", VOid (st_next_oid st))
              :: comment_doc_of user oid comment date).
  assert (Hdel :
    delete_comment comment_id (u_email user)
      (set_coll (bump st) "comments" (comments (st_db st) ++ [new]))
    = (Ok (PyDeleteResult 1),
       set_coll (set_coll (bump st) "comments" (comments (st_db st) ++ [new]))
                "comments" (comments (st_db st)))).
  { unfold delete_comment, delete_one, check_cmd, io_bind, io_lift, io_ret.
    rewrite Hcid. cbv beta iota.
    change (st_fault (set_coll (bump st) "comments" _)) with (st_fault st).
    rewrite Hfd. cbv beta iota.
    change (get_coll (set_coll (bump st) "comments"
                               (comments (st_db st) ++ [new])) "comments")
      with (comments (st_db st) ++ [new]).
    rewrite (split_first_app _ (comments (st_db st)) [new]
               (fresh_no_match st "comments" _ Hfresh)).
    cbn [split_first]. unfold filter_matches at 1. cbn [forallb fst snd].
    change (get_field "_id" new) with (Some (VOid (st_next_oid st))).
    change (get_field "email" new) with (Some (u_email user)).
    rewrite !field_matches_refl. cbn [andb]. cbv beta iota.
    now rewrite !app_nil_r. }
  rewrite Hdel. cbn [fst snd].
  repeat split; reflexivity.
Qed.

Lemma add_then_delete_comment_witness :
  comments (st_db (snd (delete_comment "0000000000000000000003e8"
                          (VStr "a@x.org")
                          (snd (add_comment "000000000000000000000002" ann_user
                                  (VStr "fine") (VDate d2020_06_01)
                                  sample_store)))))
  = comments (st_db sample_store).
Proof.
  exact (proj1 (proj2 (proj2
           (add_then_delete_comment sample_store "000000000000000000000002"
              "0000000000000000000003e8" 2 ann_user (VStr "fine")
              (VDate d2020_06_01) eq_refl eq_refl eq_refl eq_refl eq_refl)))).
Defined.

(** ** The single-document requests *)

Lemma find_one_eq (coll : string) (f : doc) (st : store) :
  st_fault st (CmdFindOne coll f) = None ->
  find_one coll f st
  = (Ok (match List.find (filter_matches f) (get_coll st coll) with
         | Some d => VDoc d
         | None => VNull
         end), st).
Proof.
  intros Hf. unfold find_one, check_cmd, io_bind. now rewrite Hf.
Qed.

Lemma update_one_match (coll : string) (f set : doc) (upsert : bool)
    (st : store) (pre post : list doc) (d : doc) :
  st_fault st (CmdUpdateOne coll f set upsert) = None ->
  get_coll st coll = pre ++ d :: post ->
  List.Forall (fun x => filter_matches f x = false) pre ->
  filter_matches f d = true ->
  get_field "_id" (apply_set set d) = get_field "_id" d ->
  same_key "email" (apply_set set d) d = true ->
  update_one coll f set upsert st
  = (Ok (PyUpdateResult 1 (if value_eqb (VDoc (apply_set set d)) (VDoc d)
                           then 0 else 1) None),
     set_coll st coll (pre ++ apply_set set d :: post)).
Proof.
  intros Hf Hsplit Hpre Hd Hid Hemail.
  unfold update_one, check_cmd, io_bind. rewrite Hf. cbv beta iota.
  rewrite Hsplit, (split_first_app _ pre (d :: post) Hpre).
  cbn [split_first]. rewrite Hd, app_nil_r, Hid, opt_value_eqb_refl, Hemail.
  reflexivity.
Qed.

Lemma update_one_no_match (coll : string) (f set : doc) (st : store) :
  st_fault st (CmdUpdateOne coll f set false) = None ->
  List.Forall (fun x => filter_matches f x = false) (get_coll st coll) ->
  update_one coll f set false st = (Ok (PyUpdateResult 0 0 None), st).
Proof.
  intros Hf Hnone.
  unfold update_one, check_cmd, io_bind. rewrite Hf. cbv beta iota.
  now rewrite (proj2 (split_first_none _ _) Hnone).
Qed.

Lemma delete_one_match (coll : string) (f : doc) (st : store)
    (pre post : list doc) (d : doc) :
  st_fault st (CmdDeleteOne coll f) = None ->
  get_coll st coll = pre ++ d :: post ->
  List.Forall (fun x => filter_matches f x = false) pre ->
  filter_matches f d = true ->
  delete_one coll f st = (Ok (PyDeleteResult 1), set_coll st coll (pre ++ post)).
Proof.
  intros Hf Hsplit Hpre Hd.
  unfold delete_one, check_cmd, io_bind. rewrite Hf. cbv beta iota.
  rewrite Hsplit, (split_first_app _ pre (d :: post) Hpre).
  cbn [split_first]. now rewrite Hd, app_nil_r.
Qed.

Lemma delete_one_no_match (coll : string) (f : doc) (st : store) :
  st_fault st (CmdDeleteOne coll f) = None ->
  List.Forall (fun x => filter_matches f x = false) (get_coll st coll) ->
  delete_one coll f st = (Ok (PyDeleteResult 0), st).
Proof.
  intros Hf Hnone.
  unfold delete_one, check_cmd, io_bind. rewrite Hf. cbv beta iota.
  now rewrite (proj2 (split_first_none _ _) Hnone).
Qed.

(** Either every document fails [p], or there is a first one that
    satisfies it. *)
Lemma first_match (p : doc -> bool) (ds : list doc) :
  List.Forall (fun d => p d = false) ds
  \/ exists pre d post,
       ds = pre ++ d :: post /\ p d = true
       /\ List.Forall (fun x => p x = false) pre.
Proof.
  destruct (split_first p ds) as [[[pre d] post] |] eqn:E.
  - right. exists pre, d, post. now apply split_first_spec.
  - left. now apply split_first_none.
Qed.

(** ** Users *)

Lemma unregistered_no_same_email (email : value) (d : doc) (us : list doc) :
  group_key "email" d = email ->
  List.Forall (fun u => filter_matches [("email", email)] u = false) us ->
  existsb (same_key "email" d) us = false.
Proof.
  intros Hd. induction 1 as [| u us Hu _ IH]; simpl; [reflexivity |].
  rewrite IH, orb_false_r. unfold same_key. rewrite Hd.
  destruct (value_eqb email (group_key "email" u)) eqn:E; [| reflexivity].
  apply value_eqb_eq in E. revert Hu. unfold filter_matches.
  cbn [forallb fst snd]. now rewrite E, key_matches.
Qed.

(** X11: a user can be looked up once added: for an email no user has,
    [add_user] returns success and [get_user] on that email then returns
    the document with the name, email and password given. *)
Theorem add_user_then_get_user (st : store) (name email hashedpw : value) :
  st_fault st (CmdInsertOne "users" (user_doc_of name email hashedpw) true)
  = None ->
  st_fault st (CmdFindOne "users" [("email", email)]) = None ->
  fresh_id st "users" = true ->
  List.Forall (fun u => filter_matches [("email", email)] u = false)
              (st_users st) ->
  fst (add_user name email hashedpw st) = Ok success
  /\ get_user email (snd (add_user name email hashedpw st))
     = (Ok (VDoc (("_id", VOid (st_next_oid st))
                  :: user_doc_of name email hashedpw)),
        snd (add_user name email hashedpw st)).
Proof.
  intros Hfi Hff Hfresh Hnew.
  assert (Hadd : add_user name email hashedpw st
                 = (Ok success,
                    set_coll (bump st) "users"
                      (st_users st
                       ++ [("_id", VOid (st_next_oid st))
                           :: user_doc_of name email hashedpw]))).
  { unfold add_user, io_try, io_bind, io_ret, insert_one.
    fold (user_doc_of name email hashedpw).
    change (get_field "_id" (user_doc_of name email hashedpw))
      with (@None value).
    cbv beta iota. rewrite Hfi. unfold breaks_unique.
    change (get_coll (bump st) "users") with (get_coll st "users").
    rewrite (fresh_no_same_id st "users" _ Hfresh).
    change (get_coll st "users") with (st_users st).
    rewrite (unregistered_no_same_email email
               (("_id", VOid (st_next_oid st)) :: user_doc_of name email hashedpw)
               _ eq_refl Hnew).
    rewrite !andb_false_r. reflexivity. }
  rewrite Hadd. cbn [fst snd]. split; [reflexivity |].
  unfold get_user. rewrite find_one_eq by exact Hff.
  change (get_coll (set_coll (bump st) "users" ?l) "users") with l.
  cbn [get_coll set_coll String.eqb Ascii.eqb Bool.eqb st_users].
  rewrite (find_app_none _ _ _ Hnew). cbn [List.find].
  unfold filter_matches. cbn [forallb fst snd].
  change (get_field "email" (("_id", VOid (st_next_oid st))
                             :: user_doc_of name email hashedpw))
    with (Some email).
  now rewrite field_matches_refl.
Qed.

Lemma add_user_then_get_user_witness :
  fst (add_user (VStr "Cid") (VStr "c@x.org") (VStr "h3") sample_store)
  = Ok success
  /\ fst (get_user (VStr "c@x.org")
            (snd (add_user (VStr "Cid") (VStr "c@x.org") (VStr "h3")
                           sample_store)))
     = Ok (VDoc [("_id", VOid 1000); ("name", VStr "Cid");
                 ("email", VStr "c@x.org"); ("password", VStr "h3")]).
Proof.
  destruct (add_user_then_get_user sample_store (VStr "Cid") (VStr "c@x.org")
              (VStr "h3") eq_refl eq_refl eq_refl) as [Ha Hg].
  - repeat constructor.
  - split; [exact Ha |]. now rewrite Hg.
Defined.

(** X12: with the unique index on the email of users, [add_user] on an
    email a user already has returns the "already exists" error and adds
    no user. *)
Theorem add_user_existing_email
    (st : store) (name email hashedpw : value) (u : doc) :
  st_unique_email st = true ->
  st_fault st (CmdInsertOne "users" (user_doc_of name email hashedpw) true)
  = None ->
  List.In u (st_users st) -> group_key "email" u = email ->
  fst (add_user name email hashedpw st) = Ok email_exists
  /\ st_users (snd (add_user name email hashedpw st)) = st_users st.
Proof.
  intros Hu Hfi Hin Hkey.
  assert (Hadd : add_user name email hashedpw st = (Ok email_exists, bump st)).
  { unfold add_user, io_try, io_bind, io_ret, insert_one.
    fold (user_doc_of name email hashedpw).
    change (get_field "_id" (user_doc_of name email hashedpw))
      with (@None value).
    cbv beta iota. rewrite Hfi. unfold breaks_unique.
    change (get_coll (bump st) "users") with (st_users st).
    change (st_unique_email (bump st)) with (st_unique_email st).
    rewrite Hu.
    assert (Hex : existsb (same_key "email"
                    (("_id", VOid (st_next_oid st))
                     :: user_doc_of name email hashedpw)) (st_users st) = true).
    { apply existsb_exists. exists u. split; [exact Hin |].
      unfold same_key. rewrite Hkey. apply value_eqb_refl. }
    rewrite Hex. cbn [String.eqb Ascii.eqb Bool.eqb andb].
    rewrite orb_true_r. reflexivity. }
  now rewrite Hadd.
Qed.

Lemma add_user_existing_email_witness :
  fst (add_user (VStr "Ann B") (VStr "a@x.org") (VStr "h9") sample_store)
  = Ok email_exists
  /\ st_users (snd (add_user (VStr "Ann B") (VStr "a@x.org") (VStr "h9")
                             sample_store))
     = st_users sample_store.
Proof.
  apply (add_user_existing_email sample_store (VStr "Ann B") (VStr "a@x.org")
           (VStr "h9") (sample_user 20 "Ann" "a@x.org" "h1"));
    [reflexivity | reflexivity | now left | reflexivity].
Defined.

(** ** What a sequence of requests does to an invariant of the store *)

Lemma io_bind_inv {A B : Type} (P : store -> Prop) (m : io A)
    (k : A -> io B) (st : store) :
  P (snd (m st)) ->
  (forall a st', P st' -> P (snd (k a st'))) ->
  P (snd (io_bind m k st)).
Proof.
  intros Hm Hk. unfold io_bind. destruct (m st) as [[a | e] st']; auto.
Qed.

Lemma io_try_inv {A : Type} (P : store -> Prop) (m : io A)
    (h : exn -> option (io A)) (st : store) :
  P (snd (m st)) ->
  (forall e k st', h e = Some k -> P st' -> P (snd (k st'))) ->
  P (snd (io_try m h st)).
Proof.
  intros Hm Hh. unfold io_try. destruct (m st) as [[a | e] st']; auto.
  destruct (h e) as [k |] eqn:E; eauto.
Qed.

Lemma insert_user_unique (st : store) (d : doc) (majority : bool) :
  st_unique_email st = true -> emails_unique st ->
  emails_unique (snd (insert_one "users" d majority st)).
Proof.
  intros Hu Hnd. unfold insert_one.
  assert (Hgo : forall d' st1,
             st_users st1 = st_users st -> st_unique_email st1 = true ->
             emails_unique
               (snd (match st_fault st (CmdInsertOne "users" d majority) with
                     | Some f => (Raise (exn_of_failure f), st1)
                     | None =>
                         if breaks_unique st1 "users" d' (get_coll st1 "users")
                         then (Raise duplicate_key, st1)
                         else (Ok (PyInsertOneResult (group_key "_id" d')),
                               set_coll st1 "users"
                                 (get_coll st1 "users" ++ [d']))
                     end))).
  { intros d' st1 Hus Hu1. unfold emails_unique in *.
    destruct (st_fault st _); [cbn [snd]; now rewrite Hus |].
    destruct (breaks_unique st1 "users" d' (get_coll st1 "users")) eqn:E;
      [cbn [snd]; now rewrite Hus |].
    cbn [snd]. change (st_users (set_coll st1 "users" ?l)) with l.
    change (get_coll st1 "users") with (st_users st1) in *.
    unfold breaks_unique in E. rewrite Hu1 in E.
    cbn [String.eqb Ascii.eqb Bool.eqb andb] in E.
    apply orb_false_iff in E. destruct E as [_ E].
    rewrite Hus in *. rewrite map_app. apply List.NoDup_app; [exact Hnd | |].
    - repeat constructor. intros [].
    - intros k Hk [<- | []].
      apply in_map_iff in Hk. destruct Hk as (u & Hk & Hin).
      assert (Hex : existsb (same_key "email" d') (st_users st) = true).
      { apply existsb_exists. exists u. split; [exact Hin |].
        unfold same_key. rewrite Hk. apply value_eqb_refl. }
      congruence. }
  destruct (get_field "_id" d); now apply Hgo.
Qed.

Lemma update_user_keeps_emails (st : store) (f : doc) (k : string) (v : value) :
  k <> "email" ->
  map (group_key "email")
      (st_users (snd (update_one "users" f [(k, v)] false st)))
  = map (group_key "email") (st_users st).
Proof.
  intros Hk. unfold update_one, check_cmd, io_bind.
  destruct (st_fault st _); [reflexivity |]. cbv beta iota.
  change (get_coll st "users") with (st_users st).
  destruct (split_first _ (st_users st)) as [[[pre d] post] |] eqn:E;
    [| reflexivity].
  apply split_first_spec in E. destruct E as (Hsplit & _ & _).
  destruct (negb _); [reflexivity |].
  destruct (_ && _); [reflexivity |].
  cbn [snd]. change (st_users (set_coll st "users" ?l)) with l.
  rewrite Hsplit, !map_app. cbn [map apply_set fold_left fst snd].
  assert (Hkey : group_key "email" (set_field k v d) = group_key "email" d).
  { unfold group_key. now rewrite (get_field_set_field_ne k "email"). }
  now rewrite Hkey.
Qed.

Lemma delete_user_doc_unique (st : store) (f : doc) :
  emails_unique st -> emails_unique (snd (delete_one "users" f st)).
Proof.
  intros Hnd. unfold delete_one, check_cmd, io_bind.
  destruct (st_fault st _); [exact Hnd |]. cbv beta iota.
  change (get_coll st "users") with (st_users st).
  destruct (split_first _ (st_users st)) as [[[pre d] post] |] eqn:E;
    [| exact Hnd].
  apply split_first_spec in E. destruct E as (Hsplit & _ & _).
  cbn [snd]. unfold emails_unique in *.
  change (st_users (set_coll st "users" ?l)) with l.
  rewrite Hsplit, map_app in Hnd. cbn [map] in Hnd.
  rewrite map_app. exact (List.NoDup_remove_1 _ _ _ Hnd).
Qed.

Lemma delete_session_keeps_users (st : store) (f : doc) :
  st_users (snd (delete_one "sessions" f st)) = st_users st.
Proof.
  unfold delete_one, check_cmd, io_bind.
  destruct (st_fault st _); [reflexivity |]. cbv beta iota.
  now destruct (split_first _ _) as [[[pre d] post] |].
Qed.

Lemma find_one_keeps_store (coll : string) (f : doc) (st : store) :
  snd (find_one coll f st) = st.
Proof.
  unfold find_one, check_cmd, io_bind. now destruct (st_fault st _).
Qed.

(** X13: with the unique index on the email of users, no function of the
    module makes two users share an email: starting from users with
    distinct emails, the users after [add_user], [update_prefs],
    [make_admin] or [delete_user] have distinct emails, whatever the
    arguments and whether or not the call succeeds. *)
Theorem users_emails_stay_unique (st : store) :
  st_unique_email st = true -> emails_unique st ->
  (forall name email hashedpw,
      emails_unique (snd (add_user name email hashedpw st)))
  /\ (forall email prefs, emails_unique (snd (update_prefs email prefs st)))
  /\ (forall email, emails_unique (snd (make_admin email st)))
  /\ (forall email, emails_unique (snd (delete_user email st))).
Proof.
  intros Hu Hnd.
  assert (Hupd : forall f k v, k <> "email" ->
            emails_unique (snd (update_one "users" f [(k, v)] false st))).
  { intros f k v Hk. unfold emails_unique.
    now rewrite update_user_keeps_emails. }
  split; [| split; [| split]].
  - intros name email hashedpw. unfold add_user. apply io_try_inv.
    + apply io_bind_inv; [now apply insert_user_unique | auto].
    + intros e k st' Hh Hst'. destruct (is_duplicate_key e); [| discriminate].
      injection Hh as <-. exact Hst'.
  - intros email prefs. unfold update_prefs. apply io_try_inv.
    + apply io_bind_inv; [apply Hupd; discriminate |].
      intros a st' Hst'. destruct a; try exact Hst'.
      destruct matched_count; exact Hst'.
    + intros e k st' [= <-] Hst'. exact Hst'.
  - intros email. unfold make_admin.
    apply io_bind_inv; [apply Hupd; discriminate | auto].
  - intros email. unfold delete_user. apply io_try_inv.
    + apply io_bind_inv.
      * unfold emails_unique. now rewrite delete_session_keeps_users.
      * intros _ st1 Hst1. apply io_bind_inv;
          [now apply delete_user_doc_unique |].
        intros _ st2 Hst2. apply io_bind_inv.
        -- unfold get_user. now rewrite find_one_keeps_store.
        -- intros u st3 Hst3. destruct u; exact Hst3.
    + intros e k st' [= <-] Hst'. exact Hst'.
Qed.

Lemma users_emails_stay_unique_witness :
  emails_unique (snd (add_user (VStr "Cid") (VStr "c@x.org") (VStr "h3")
                               sample_store))
  /\ emails_unique (snd (add_user (VStr "Ann B") (VStr "a@x.org") (VStr "h9")
                                  sample_store))
  /\ emails_unique (snd (delete_user (VStr "a@x.org") sample_store)).
Proof.
  assert (Hnd : emails_unique sample_store).
  { unfold emails_unique. cbn. repeat constructor; cbn; intuition discriminate. }
  destruct (users_emails_stay_unique sample_store eq_refl Hnd)
    as (Hadd & _ & _ & Hdel).
  split; [apply Hadd | split; [apply Hadd | apply Hdel]].
Defined.

(** ** Sessions *)

Lemma login_user_existing (st : store) (email jwt : value)
    (pre post : list doc) (s : doc) :
  st_fault st (CmdUpdateOne "sessions" [("user_id", email)] [("jwt", jwt)] true)
  = None ->
  st_sessions st = pre ++ s :: post ->
  List.Forall (fun x => filter_matches [("user_id", email)] x = false) pre ->
  filter_matches [("user_id", email)] s = true ->
  login_user email jwt st
  = (Ok success, set_coll st "sessions" (pre ++ set_field "jwt" jwt s :: post)).
Proof.
  intros Hf Hsplit Hpre Hs. unfold login_user, io_try, io_bind.
  rewrite (update_one_match "sessions" _ _ true st pre post s Hf Hsplit Hpre Hs).
  - reflexivity.
  - cbn [apply_set fold_left fst snd].
    now rewrite get_field_set_field_ne by discriminate.
  - cbn [apply_set fold_left fst snd]. unfold same_key, group_key.
    rewrite get_field_set_field_ne by discriminate. apply value_eqb_refl.
Qed.

Lemma login_user_new (st : store) (email jwt : value) :
  st_fault st (CmdUpdateOne "sessions" [("user_id", email)] [("jwt", jwt)] true)
  = None ->
  List.Forall (fun x => filter_matches [("user_id", email)] x = false)
              (st_sessions st) ->
  fresh_id st "sessions" = true ->
  login_user email jwt st
  = (Ok success,
     set_coll (bump st) "sessions"
       (st_sessions st ++ [session_doc_of (st_next_oid st) email jwt])).
Proof.
  intros Hf Hnone Hfresh.
  unfold login_user, update_one, check_cmd, io_try, io_bind, io_ret.
  rewrite Hf. cbv beta iota.
  change (get_coll st "sessions") with (st_sessions st).
  rewrite (proj2 (split_first_none _ _) Hnone).
  cbn [get_field String.eqb Ascii.eqb Bool.eqb apply_set fold_left fst snd
       set_field].
  unfold breaks_unique.
  change (get_coll (bump st) "sessions") with (get_coll st "sessions").
  rewrite (fresh_no_same_id st "sessions" [("user_id", email); ("jwt", jwt)]
             Hfresh).
  reflexivity.
Qed.

Lemma session_doc_matches (oid : Z) (email jwt : value) :
  filter_matches [("user_id", email)] (session_doc_of oid email jwt) = true.
Proof.
  unfold filter_matches. cbn [forallb fst snd].
  change (get_field "user_id" (session_doc_of oid email jwt)) with (Some email).
  now rewrite field_matches_refl.
Qed.

Lemma set_jwt_matches (email jwt : value) (s : doc) :
  filter_matches [("user_id", email)] (set_field "jwt" jwt s)
  = filter_matches [("user_id", email)] s.
Proof.
  unfold filter_matches. cbn [forallb fst snd].
  now rewrite get_field_set_field_ne by discriminate.
Qed.

(** X14: a session can be read back once written: after [login_user],
    which returns success, [get_user_session] on the same email returns a
    session of that user whose [jwt] is the token given. *)
Theorem login_then_get_session (st : store) (email jwt : value) :
  st_fault st (CmdUpdateOne "sessions" [("user_id", email)] [("jwt", jwt)] true)
  = None ->
  st_fault st (CmdFindOne "sessions" [("user_id", email)]) = None ->
  fresh_id st "sessions" = true ->
  fst (login_user email jwt st) = Ok success
  /\ exists s,
       get_user_session email (snd (login_user email jwt st))
       = (Ok (PyVal (VDoc s)), snd (login_user email jwt st))
       /\ get_field "jwt" s = Some jwt
       /\ filter_matches [("user_id", email)] s = true.
Proof.
  intros Hfu Hff Hfresh.
  destruct (first_match (filter_matches [("user_id", email)]) (st_sessions st))
    as [Hnone | (pre & s & post & Hsplit & Hs & Hpre)].
  - rewrite (login_user_new st email jwt Hfu Hnone Hfresh). cbn [fst snd].
    split; [reflexivity |].
    exists (session_doc_of (st_next_oid st) email jwt).
    split; [| split; [reflexivity | apply session_doc_matches]].
    unfold get_user_session, io_try, io_bind, io_ret.
    rewrite find_one_eq by exact Hff.
    change (get_coll (set_coll (bump st) "sessions" ?l) "sessions") with l.
    rewrite (find_app_none _ _ _ Hnone). cbn [List.find].
    now rewrite session_doc_matches.
  - rewrite (login_user_existing st email jwt pre post s Hfu Hsplit Hpre Hs).
    cbn [fst snd]. split; [reflexivity |].
    exists (set_field "jwt" jwt s).
    split; [| split; [apply get_field_set_field_eq
                     | now rewrite set_jwt_matches]].
    unfold get_user_session, io_try, io_bind, io_ret.
    rewrite find_one_eq by exact Hff.
    change (get_coll (set_coll st "sessions" ?l) "sessions") with l.
    rewrite (find_app_none _ _ _ Hpre). cbn [List.find].
    now rewrite set_jwt_matches, Hs.
Qed.

Lemma login_then_get_session_witness :
  fst (get_user_session (VStr "a@x.org")
         (snd (login_user (VStr "a@x.org") (VStr "t1") sample_store)))
  = Ok (PyVal (VDoc (sample_session 30 "a@x.org" "t1")))
  /\ exists s,
       fst (get_user_session (VStr "b@x.org")
              (snd (login_user (VStr "b@x.org") (VStr "t2") sample_store)))
       = Ok (PyVal (VDoc s))
       /\ get_field "jwt" s = Some (VStr "t2").
Proof.
  split; [reflexivity |].
  destruct (login_then_get_session sample_store (VStr "b@x.org") (VStr "t2")
              eq_refl eq_refl eq_refl) as (_ & s & Hs & Hjwt & _).
  exists s. split; [now rewrite Hs | exact Hjwt].
Defined.

(** X15: [login_user] never gives a user a second session: the number of
    sessions of the user afterwards is the number before, or 1 when there
    was none. *)
Theorem login_keeps_one_session (st : store) (email jwt : value) :
  st_fault st (CmdUpdateOne "sessions" [("user_id", email)] [("jwt", jwt)] true)
  = None ->
  fresh_id st "sessions" = true ->
  length (selected [("user_id", email)]
                   (st_sessions (snd (login_user email jwt st))))
  = Nat.max 1 (length (selected [("user_id", email)] (st_sessions st))).
Proof.
  intros Hfu Hfresh. unfold selected.
  destruct (first_match (filter_matches [("user_id", email)]) (st_sessions st))
    as [Hnone | (pre & s & post & Hsplit & Hs & Hpre)].
  - rewrite (login_user_new st email jwt Hfu Hnone Hfresh). cbn [snd].
    change (st_sessions (set_coll (bump st) "sessions" ?l)) with l.
    rewrite List.filter_app, (filter_none _ _ Hnone).
    cbn [List.filter app]. now rewrite session_doc_matches.
  - rewrite (login_user_existing st email jwt pre post s Hfu Hsplit Hpre Hs).
    cbn [snd]. change (st_sessions (set_coll st "sessions" ?l)) with l.
    rewrite Hsplit, !List.filter_app, (filter_none _ _ Hpre).
    cbn [List.filter app]. rewrite set_jwt_matches, Hs. cbn [length]. lia.
Qed.

Lemma login_keeps_one_session_witness :
  length (selected [("user_id", VStr "a@x.org")]
            (st_sessions (snd (login_user (VStr "a@x.org") (VStr "t1")
                                          sample_store))))
  = 1%nat.
Proof.
  exact (login_keeps_one_session sample_store (VStr "a@x.org") (VStr "t1")
           eq_refl eq_refl).
Defined.

Lemma remove_first_selected (f : doc) (ds : list doc) :
  length (selected f (remove_first (filter_matches f) ds))
  = Nat.pred (length (selected f ds)).
Proof.
  unfold selected, remove_first.
  destruct (split_first (filter_matches f) ds) as [[[pre d] post] |] eqn:E.
  - apply split_first_spec in E. destruct E as (-> & Hd & Hpre).
    rewrite !List.filter_app, (filter_none _ _ Hpre). cbn [List.filter app].
    now rewrite Hd.
  - apply split_first_none in E. now rewrite (filter_none _ _ E).
Qed.

Lemma remove_first_length (f : doc) (ds : list doc) :
  selected f ds <> [] ->
  S (length (remove_first (filter_matches f) ds)) = length ds.
Proof.
  unfold selected, remove_first. intros Hne.
  destruct (split_first (filter_matches f) ds) as [[[pre d] post] |] eqn:E.
  - apply split_first_spec in E. destruct E as (-> & _ & _).
    rewrite !length_app. cbn [length]. lia.
  - apply split_first_none in E. now rewrite (filter_none _ _ E) in Hne.
Qed.

Lemma find_selected (f : doc) (ds : list doc) :
  match List.find (filter_matches f) ds with
  | Some d => selected f ds <> [] /\ filter_matches f d = true
  | None => selected f ds = []
  end.
Proof.
  unfold selected. induction ds as [| d ds IH]; simpl; [reflexivity |].
  destruct (filter_matches f d) eqn:E; [split; [discriminate | exact E] |].
  exact IH.
Qed.

Lemma delete_session_state (st : store) (f : doc) :
  st_fault st (CmdDeleteOne "sessions" f) = None ->
  exists n st',
    delete_one "sessions" f st = (Ok (PyDeleteResult n), st')
    /\ st_fault st' = st_fault st /\ st_users st' = st_users st
    /\ st_db st' = st_db st
    /\ st_sessions st' = remove_first (filter_matches f) (st_sessions st).
Proof.
  intros Hf. unfold delete_one, check_cmd, io_bind, remove_first.
  rewrite Hf. cbv beta iota.
  change (get_coll st "sessions") with (st_sessions st).
  destruct (split_first _ (st_sessions st)) as [[[pre d] post] |];
    do 2 eexists; repeat split; reflexivity.
Qed.

Lemma delete_user_doc_state (st : store) (f : doc) :
  st_fault st (CmdDeleteOne "users" f) = None ->
  exists n st',
    delete_one "users" f st = (Ok (PyDeleteResult n), st')
    /\ st_fault st' = st_fault st /\ st_sessions st' = st_sessions st
    /\ st_db st' = st_db st
    /\ st_users st' = remove_first (filter_matches f) (st_users st).
Proof.
  intros Hf. unfold delete_one, check_cmd, io_bind, remove_first.
  rewrite Hf. cbv beta iota.
  change (get_coll st "users") with (st_users st).
  destruct (split_first _ (st_users st)) as [[[pre d] post] |];
    do 2 eexists; repeat split; reflexivity.
Qed.

Lemma login_user_state (st : store) (email jwt : value) :
  st_fault st (CmdUpdateOne "sessions" [("user_id", email)] [("jwt", jwt)] true)
  = None ->
  fresh_id st "sessions" = true ->
  exists st1,
    login_user email jwt st = (Ok success, st1)
    /\ st_fault st1 = st_fault st /\ st_users st1 = st_users st
    /\ length (selected [("user_id", email)] (st_sessions st1))
       = Nat.max 1 (length (selected [("user_id", email)] (st_sessions st))).
Proof.
  intros Hfu Hfresh. unfold selected.
  destruct (first_match (filter_matches [("user_id", email)]) (st_sessions st))
    as [Hnone | (pre & s & post & Hsplit & Hs & Hpre)].
  - rewrite (login_user_new st email jwt Hfu Hnone Hfresh).
    eexists. split; [reflexivity |]. split; [reflexivity |].
    split; [reflexivity |].
    change (st_sessions (set_coll (bump st) "sessions" ?l)) with l.
    rewrite List.filter_app, (filter_none _ _ Hnone).
    cbn [List.filter app]. now rewrite session_doc_matches.
  - rewrite (login_user_existing st email jwt pre post s Hfu Hsplit Hpre Hs).
    eexists. split; [reflexivity |]. split; [reflexivity |].
    split; [reflexivity |].
    change (st_sessions (set_coll st "sessions" ?l)) with l.
    rewrite Hsplit, !List.filter_app, (filter_none _ _ Hpre).
    cbn [List.filter app]. rewrite set_jwt_matches, Hs. cbn [length]. lia.
Qed.

Lemma logout_user_state (st : store) (email : value) :
  st_fault st (CmdDeleteOne "sessions" [("user_id", email)]) = None ->
  exists st',
    logout_user email st = (Ok success, st')
    /\ st_fault st' = st_fault st /\ st_users st' = st_users st
    /\ st_sessions st'
       = remove_first (filter_matches [("user_id", email)]) (st_sessions st).
Proof.
  intros Hf.
  destruct (delete_session_state st [("user_id", email)] Hf)
    as (n & st' & Hdel & Hfault & Hus & _ & Hss).
  exists st'. unfold logout_user, io_try, io_bind, io_ret. rewrite Hdel.
  auto.
Qed.

Lemma get_user_session_none (st : store) (email : value) :
  st_fault st (CmdFindOne "sessions" [("user_id", email)]) = None ->
  selected [("user_id", email)] (st_sessions st) = [] ->
  get_user_session email st = (Ok (PyVal VNull), st).
Proof.
  intros Hf Hnone. unfold get_user_session, io_try, io_bind, io_ret.
  rewrite find_one_eq by exact Hf.
  change (get_coll st "sessions") with (st_sessions st).
  pose proof (find_selected [("user_id", email)] (st_sessions st)) as H.
  destruct (List.find _ (st_sessions st)); [| reflexivity].
  destruct H as [H _]. contradiction.
Qed.

(** X16: logging in and out again leaves the user without a session:
    when the user had at most one session, after [login_user] and
    [logout_user], which both return success, [get_user_session] returns
    [None]. *)
Theorem login_then_logout (st : store) (email jwt : value) :
  st_fault st (CmdUpdateOne "sessions" [("user_id", email)] [("jwt", jwt)] true)
  = None ->
  st_fault st (CmdDeleteOne "sessions" [("user_id", email)]) = None ->
  st_fault st (CmdFindOne "sessions" [("user_id", email)]) = None ->
  fresh_id st "sessions" = true ->
  (length (selected [("user_id", email)] (st_sessions st)) <= 1)%nat ->
  let st1 := snd (login_user email jwt st) in
  let st2 := snd (logout_user email st1) in
  fst (login_user email jwt st) = Ok success
  /\ fst (logout_user email st1) = Ok success
  /\ get_user_session email st2 = (Ok (PyVal VNull), st2).
Proof.
  intros Hfu Hfd Hff Hfresh Hone. cbv zeta.
  destruct (login_user_state st email jwt Hfu Hfresh)
    as (st1 & -> & Hfault1 & _ & Hcount).
  cbn [fst snd].
  destruct (logout_user_state st1 email) as (st2 & -> & Hfault2 & _ & Hss2).
  { now rewrite Hfault1. }
  cbn [fst snd]. split; [reflexivity |]. split; [reflexivity |].
  apply get_user_session_none.
  - now rewrite Hfault2, Hfault1.
  - apply length_zero_iff_nil.
    rewrite Hss2, remove_first_selected, Hcount. lia.
Qed.

Lemma login_then_logout_witness :
  fst (get_user_session (VStr "a@x.org")
         (snd (logout_user (VStr "a@x.org")
                 (snd (login_user (VStr "a@x.org") (VStr "t1") sample_store)))))
  = Ok (PyVal VNull).
Proof.
  destruct (login_then_logout sample_store (VStr "a@x.org") (VStr "t1")
              eq_refl eq_refl eq_refl eq_refl) as (_ & _ & H).
  - cbn. lia.
  - now rewrite H.
Defined.

(** ** Deleting a user *)

(** What [delete_user] does when its three requests go through. *)
Lemma delete_user_eq (st : store) (email : value) :
  st_fault st (CmdDeleteOne "sessions" [("user_id", email)]) = None ->
  st_fault st (CmdDeleteOne "users" [("email", email)]) = None ->
  st_fault st (CmdFindOne "users" [("email", email)]) = None ->
  exists st',
    delete_user email st
    = (Ok (match selected [("email", email)] (st_users st') with
           | [] => success
           | _ :: _ => error_of (ValueError "Deletion unsuccessful")
           end), st')
    /\ st_users st'
       = remove_first (filter_matches [("email", email)]) (st_users st)
    /\ st_sessions st'
       = remove_first (filter_matches [("user_id", email)]) (st_sessions st).
Proof.
  intros Hfs Hfu Hff.
  destruct (delete_session_state st [("user_id", email)] Hfs)
    as (n1 & st1 & Hdel1 & Hfault1 & Hus1 & _ & Hss1).
  destruct (delete_user_doc_state st1 [("email", email)])
    as (n2 & st2 & Hdel2 & Hfault2 & Hss2 & _ & Hus2).
  { now rewrite Hfault1. }
  exists st2. split; [| split; [now rewrite Hus2, Hus1 | now rewrite Hss2, Hss1]].
  unfold delete_user, io_try, io_bind, get_user.
  rewrite Hdel1. cbv beta iota. rewrite Hdel2. cbv beta iota.
  rewrite find_one_eq by now rewrite Hfault2, Hfault1.
  change (get_coll st2 "users") with (st_users st2).
  pose proof (find_selected [("email", email)] (st_users st2)) as H.
  destruct (List.find _ (st_users st2)) as [u |].
  - destruct H as [H _].
    destruct (selected [("email", email)] (st_users st2));
      [contradiction | reflexivity].
  - now rewrite H.
Qed.

(** X17: when at most one user has the email, [delete_user] returns
    success, no user with that email is left, and one session of the user
    is gone. *)
Theorem delete_user_removes (st : store) (email : value) :
  st_fault st (CmdDeleteOne "sessions" [("user_id", email)]) = None ->
  st_fault st (CmdDeleteOne "users" [("email", email)]) = None ->
  st_fault st (CmdFindOne "users" [("email", email)]) = None ->
  (length (selected [("email", email)] (st_users st)) <= 1)%nat ->
  fst (delete_user email st) = Ok success
  /\ selected [("email", email)] (st_users (snd (delete_user email st))) = []
  /\ length (selected [("user_id", email)]
                      (st_sessions (snd (delete_user email st))))
     = Nat.pred (length (selected [("user_id", email)] (st_sessions st))).
Proof.
  intros Hfs Hfu Hff Hone.
  destruct (delete_user_eq st email Hfs Hfu Hff) as (st' & -> & Hus & Hss).
  cbn [fst snd].
  assert (Hnone : selected [("email", email)] (st_users st') = []).
  { apply length_zero_iff_nil. rewrite Hus, remove_first_selected. lia. }
  rewrite Hnone. split; [reflexivity |]. split; [reflexivity |].
  now rewrite Hss, remove_first_selected.
Qed.

Lemma delete_user_removes_witness :
  delete_user (VStr "a@x.org") sample_store
  = (Ok success,
     set_coll (set_coll sample_store "sessions" []) "users"
              [sample_user 21 "Bob" "b@x.org" "h2"])
  /\ selected [("email", VStr "a@x.org")]
              (st_users (snd (delete_user (VStr "a@x.org") sample_store))) = [].
Proof.
  split; [reflexivity |].
  apply (delete_user_removes sample_store (VStr "a@x.org")
           eq_refl eq_refl eq_refl).
  cbn. lia.
Defined.

(** X18: when two or more users have the email, [delete_user] deletes one
    of them and one session all the same, and then returns the error
    "Deletion unsuccessful" as a value. *)
Theorem delete_user_with_duplicates (st : store) (email : value) :
  st_fault st (CmdDeleteOne "sessions" [("user_id", email)]) = None ->
  st_fault st (CmdDeleteOne "users" [("email", email)]) = None ->
  st_fault st (CmdFindOne "users" [("email", email)]) = None ->
  (2 <= length (selected [("email", email)] (st_users st)))%nat ->
  fst (delete_user email st) = Ok (error_of (ValueError "Deletion unsuccessful"))
  /\ S (length (st_users (snd (delete_user email st)))) = length (st_users st)
  /\ length (selected [("user_id", email)]
                      (st_sessions (snd (delete_user email st))))
     = Nat.pred (length (selected [("user_id", email)] (st_sessions st))).
Proof.
  intros Hfs Hfu Hff Htwo.
  destruct (delete_user_eq st email Hfs Hfu Hff) as (st' & -> & Hus & Hss).
  cbn [fst snd].
  assert (Hlen : length (selected [("email", email)] (st_users st'))
                 = Nat.pred (length (selected [("email", email)] (st_users st)))).
  { now rewrite Hus, remove_first_selected. }
  split; [| split].
  - destruct (selected [("email", email)] (st_users st'));
      [cbn [length] in Hlen; lia | reflexivity].
  - rewrite Hus. apply remove_first_length.
    intros E. rewrite E in Htwo. cbn [length] in Htwo. lia.
  - now rewrite Hss, remove_first_selected.
Qed.

Lemma delete_user_with_duplicates_witness :
  fst (delete_user (VStr "a@x.org") twins_store)
  = Ok (error_of (ValueError "Deletion unsuccessful"))
  /\ S (length (st_users (snd (delete_user (VStr "a@x.org") twins_store))))
     = length (st_users twins_store).
Proof.
  destruct (delete_user_with_duplicates twins_store (VStr "a@x.org")
              eq_refl eq_refl eq_refl) as (Hr & Hl & _).
  - cbn. lia.
  - split; [exact Hr | exact Hl].
Defined.

(** ** What becomes of a failing request *)

(** X19: the session functions and [delete_user] do not raise when their
    first request fails in the store: they return [{"error": e}] with the
    exception [e] in it, and the store is as before. *)
Theorem session_functions_return_errors (st : store) (email jwt : value)
    (f : failure) :
  (st_fault st (CmdUpdateOne "sessions" [("user_id", email)] [("jwt", jwt)]
                             true) = Some f ->
   login_user email jwt st = (Ok (error_of (exn_of_failure f)), st))
  /\ (st_fault st (CmdDeleteOne "sessions" [("user_id", email)]) = Some f ->
      logout_user email st = (Ok (error_of (exn_of_failure f)), st)
      /\ delete_user email st = (Ok (error_of (exn_of_failure f)), st))
  /\ (st_fault st (CmdFindOne "sessions" [("user_id", email)]) = Some f ->
      get_user_session email st = (Ok (error_of (exn_of_failure f)), st)).
Proof.
  split; [| split].
  - intros Hf.
    unfold login_user, update_one, check_cmd, io_try, io_bind, io_ret.
    now rewrite Hf.
  - intros Hf. split.
    + unfold logout_user, delete_one, check_cmd, io_try, io_bind, io_ret.
      now rewrite Hf.
    + unfold delete_user, delete_one, check_cmd, io_try, io_bind, io_ret.
      now rewrite Hf.
  - intros Hf.
    unfold get_user_session, find_one, check_cmd, io_try, io_bind, io_ret.
    now rewrite Hf.
Qed.

Lemma session_functions_return_errors_witness :
  login_user (VStr "a@x.org") (VStr "t1") offline_store
  = (Ok (error_of (ConnectionFailure "connection refused")), offline_store)
  /\ logout_user (VStr "a@x.org") offline_store
     = (Ok (error_of (ConnectionFailure "connection refused")), offline_store).
Proof.
  destruct (session_functions_return_errors offline_store (VStr "a@x.org")
              (VStr "t1") (Unreachable "connection refused"))
    as (Hlogin & Hlogout & _).
  split; [apply Hlogin; reflexivity | apply Hlogout; reflexivity].
Defined.

(** X20: [add_user] catches the duplicate-key error only: when its insert
    fails in the store, a failure with a duplicate-key code is turned into
    the "already exists" error, and any other failure is raised to the
    caller; no user is added. *)
Theorem add_user_failure (st : store) (name email hashedpw : value)
    (f : failure) :
  st_fault st (CmdInsertOne "users" (user_doc_of name email hashedpw) true)
  = Some f ->
  add_user name email hashedpw st
  = (if is_duplicate_key (exn_of_failure f) then Ok email_exists
     else Raise (exn_of_failure f), bump st)
  /\ st_users (snd (add_user name email hashedpw st)) = st_users st.
Proof.
  intros Hf.
  assert (H : add_user name email hashedpw st
              = (if is_duplicate_key (exn_of_failure f) then Ok email_exists
                 else Raise (exn_of_failure f), bump st)).
  { unfold add_user, io_try, io_bind, io_ret, insert_one.
    fold (user_doc_of name email hashedpw).
    change (get_field "_id" (user_doc_of name email hashedpw))
      with (@None value).
    cbv beta iota. rewrite Hf.
    now destruct (is_duplicate_key (exn_of_failure f)). }
  rewrite H. split; reflexivity.
Qed.

Lemma add_user_failure_witness :
  add_user (VStr "Cid") (VStr "c@x.org") (VStr "h3") offline_store
  = (Raise (ConnectionFailure "connection refused"), bump offline_store).
Proof.
  exact (proj1 (add_user_failure offline_store (VStr "Cid") (VStr "c@x.org")
                  (VStr "h3") (Unreachable "connection refused") eq_refl)).
Defined.

(** X21: [delete_user] is not undone by a failure: when the session is
    deleted and the request on the users then fails, the error is
    returned as a value, the user is still there and the session is
    gone. *)
Theorem delete_user_half_done (st : store) (email : value) (f : failure) :
  st_fault st (CmdDeleteOne "sessions" [("user_id", email)]) = None ->
  st_fault st (CmdDeleteOne "users" [("email", email)]) = Some f ->
  fst (delete_user email st) = Ok (error_of (exn_of_failure f))
  /\ st_users (snd (delete_user email st)) = st_users st
  /\ st_sessions (snd (delete_user email st))
     = remove_first (filter_matches [("user_id", email)]) (st_sessions st).
Proof.
  intros Hfs Hfu.
  destruct (delete_session_state st [("user_id", email)] Hfs)
    as (n1 & st1 & Hdel1 & Hfault1 & Hus1 & _ & Hss1).
  assert (H : delete_user email st = (Ok (error_of (exn_of_failure f)), st1)).
  { unfold delete_user, io_try, io_bind. rewrite Hdel1. cbv beta iota.
    unfold delete_one, check_cmd, io_bind. rewrite Hfault1, Hfu.
    reflexivity. }
  rewrite H. auto.
Qed.

Lemma delete_user_half_done_witness :
  fst (delete_user (VStr "a@x.org") users_down_store)
  = Ok (error_of (ConnectionFailure "connection refused"))
  /\ st_users (snd (delete_user (VStr "a@x.org") users_down_store))
     = st_users users_down_store
  /\ st_sessions (snd (delete_user (VStr "a@x.org") users_down_store)) = [].
Proof.
  exact (delete_user_half_done users_down_store (VStr "a@x.org")
           (Unreachable "connection refused") eq_refl eq_refl).
Defined.

(** ** Preferences and the admin flag *)

Lemma set_other_field_matches (email : value) (k : string) (v : value)
    (u : doc) :
  k <> "email" ->
  filter_matches [("email", email)] (set_field k v u)
  = filter_matches [("email", email)] u.
Proof.
  intros Hk. unfold filter_matches. cbn [forallb fst snd].
  now rewrite get_field_set_field_ne.
Qed.

(** The update of one field other than [_id] and [email] of the first
    user with the email. *)
Lemma update_user_field (st : store) (email : value) (k : string) (v : value)
    (pre post : list doc) (u : doc) :
  k <> "_id" -> k <> "email" ->
  st_fault st (CmdUpdateOne "users" [("email", email)] [(k, v)] false) = None ->
  st_users st = pre ++ u :: post ->
  List.Forall (fun x => filter_matches [("email", email)] x = false) pre ->
  filter_matches [("email", email)] u = true ->
  update_one "users" [("email", email)] [(k, v)] false st
  = (Ok (PyUpdateResult 1 (if value_eqb (VDoc (set_field k v u)) (VDoc u)
                           then 0 else 1) None),
     set_coll st "users" (pre ++ set_field k v u :: post)).
Proof.
  intros Hid Hemail Hf Hsplit Hpre Hu.
  apply (update_one_match "users" _ _ false st pre post u Hf Hsplit Hpre Hu).
  - cbn [apply_set fold_left fst snd]. now rewrite get_field_set_field_ne.
  - cbn [apply_set fold_left fst snd]. unfold same_key, group_key.
    rewrite get_field_set_field_ne by exact Hemail. apply value_eqb_refl.
Qed.

(** X22: [update_prefs] on the email of a user stores the preferences,
    [{}] for [None], in the first user with that email and changes no
    other field and no other user; [get_user] then returns the user with
    these preferences. *)
Theorem update_prefs_then_get_user
    (st : store) (email prefs : value) (pre post : list doc) (u : doc) :
  st_fault st (CmdUpdateOne "users" [("email", email)]
                 [("preferences", prefs_or_empty prefs)] false) = None ->
  st_fault st (CmdFindOne "users" [("email", email)]) = None ->
  st_users st = pre ++ u :: post ->
  List.Forall (fun x => filter_matches [("email", email)] x = false) pre ->
  filter_matches [("email", email)] u = true ->
  exists u' modified,
    update_prefs email prefs st
    = (Ok (PyUpdateResult 1 modified None),
       set_coll st "users" (pre ++ u' :: post))
    /\ get_field "preferences" u' = Some (prefs_or_empty prefs)
    /\ (forall k, k <> "preferences" -> get_field k u' = get_field k u)
    /\ get_user email (snd (update_prefs email prefs st))
       = (Ok (VDoc u'), snd (update_prefs email prefs st)).
Proof.
  intros Hfu Hff Hsplit Hpre Hu.
  exists (set_field "preferences" (prefs_or_empty prefs) u).
  eexists.
  assert (H : update_prefs email prefs st
              = (Ok (PyUpdateResult 1
                       (if value_eqb
                             (VDoc (set_field "preferences"
                                              (prefs_or_empty prefs) u))
                             (VDoc u) then 0 else 1) None),
                 set_coll st "users"
                   (pre ++ set_field "preferences" (prefs_or_empty prefs) u
                    :: post))).
  { unfold update_prefs, io_try, io_bind, io_ret.
    fold (prefs_or_empty prefs).
    rewrite (update_user_field st email "preferences" _ pre post u)
      by (assumption || discriminate).
    reflexivity. }
  rewrite H. cbn [snd]. split; [reflexivity |].
  split; [apply get_field_set_field_eq |].
  split; [intros k Hk; now apply get_field_set_field_ne |].
  unfold get_user. rewrite find_one_eq by exact Hff.
  change (get_coll (set_coll st "users" ?l) "users") with l.
  rewrite (find_app_none _ _ _ Hpre). cbn [List.find].
  rewrite set_other_field_matches by discriminate. now rewrite Hu.
Qed.

Lemma update_prefs_then_get_user_witness :
  exists u',
    fst (get_user (VStr "b@x.org")
           (snd (update_prefs (VStr "b@x.org") VNull sample_store)))
    = Ok (VDoc u')
    /\ get_field "preferences" u' = Some (VDoc [])
    /\ get_field "name" u' = Some (VStr "Bob").
Proof.
  destruct (update_prefs_then_get_user sample_store (VStr "b@x.org") VNull
              [sample_user 20 "Ann" "a@x.org" "h1"] []
              (sample_user 21 "Bob" "b@x.org" "h2") eq_refl eq_refl eq_refl)
    as (u' & m & _ & Hp & Hk & Hg).
  - repeat constructor.
  - reflexivity.
  - exists u'. split; [now rewrite Hg |]. split; [exact Hp |].
    now rewrite Hk by discriminate.
Defined.

(** X23: [update_prefs] changes nothing when it cannot: on an email no
    user has it returns the error "no user found", and when its request
    fails in the store it returns [{"error": str(e)}]; it does not
    raise. *)
Theorem update_prefs_failure (st : store) (email prefs : value) :
  (st_fault st (CmdUpdateOne "users" [("email", email)]
                  [("preferences", prefs_or_empty prefs)] false) = None ->
   List.Forall (fun x => filter_matches [("email", email)] x = false)
               (st_users st) ->
   update_prefs email prefs st = (Ok no_user_found, st))
  /\ (forall f,
        st_fault st (CmdUpdateOne "users" [("email", email)]
                       [("preferences", prefs_or_empty prefs)] false) = Some f ->
        update_prefs email prefs st
        = (Ok (PyDict [("error", PyStrOf (exn_of_failure f))]), st)).
Proof.
  split.
  - intros Hf Hnone. unfold update_prefs, io_try, io_bind, io_ret.
    fold (prefs_or_empty prefs).
    now rewrite (update_one_no_match "users" _ _ st Hf Hnone).
  - intros f Hf.
    unfold update_prefs, update_one, check_cmd, io_try, io_bind, io_ret.
    fold (prefs_or_empty prefs). now rewrite Hf.
Qed.

Lemma update_prefs_failure_witness :
  update_prefs (VStr "z@x.org") (VDoc [("lang", VStr "en")]) sample_store
  = (Ok no_user_found, sample_store)
  /\ update_prefs (VStr "a@x.org") VNull users_down_store
     = (Ok (PyDict [("error", PyStrOf (ConnectionFailure "connection refused"))]),
        users_down_store).
Proof.
  split.
  - apply (proj1 (update_prefs_failure sample_store (VStr "z@x.org")
                    (VDoc [("lang", VStr "en")]))).
    + reflexivity.
    + repeat constructor.
  - apply (proj2 (update_prefs_failure users_down_store (VStr "a@x.org") VNull)
                 (Unreachable "connection refused")).
    reflexivity.
Defined.

(** X24: [make_admin] sets [isAdmin] to true in the first user with the
    email and changes nothing else; on an email no user has it changes
    nothing and says nothing: it returns [None] either way. *)
Theorem make_admin_flags (st : store) (email : value) :
  st_fault st (CmdUpdateOne "users" [("email", email)]
                 [("isAdmin", VBool true)] false) = None ->
  (List.Forall (fun x => filter_matches [("email", email)] x = false)
               (st_users st) ->
   make_admin email st = (Ok (PyVal VNull), st))
  /\ (forall pre u post,
        st_users st = pre ++ u :: post ->
        List.Forall (fun x => filter_matches [("email", email)] x = false) pre ->
        filter_matches [("email", email)] u = true ->
        exists u',
          make_admin email st
          = (Ok (PyVal VNull), set_coll st "users" (pre ++ u' :: post))
          /\ get_field "isAdmin" u' = Some (VBool true)
          /\ forall k, k <> "isAdmin" -> get_field k u' = get_field k u).
Proof.
  intros Hf. split.
  - intros Hnone. unfold make_admin, io_bind, io_ret.
    now rewrite (update_one_no_match "users" _ _ st Hf Hnone).
  - intros pre u post Hsplit Hpre Hu.
    exists (set_field "isAdmin" (VBool true) u). split; [| split].
    + unfold make_admin, io_bind, io_ret.
      now rewrite (update_user_field st email "isAdmin" _ pre post u)
        by (assumption || discriminate).
    + apply get_field_set_field_eq.
    + intros k Hk. now apply get_field_set_field_ne.
Qed.

Lemma make_admin_flags_witness :
  make_admin (VStr "z@x.org") sample_store = (Ok (PyVal VNull), sample_store)
  /\ exists u',
       make_admin (VStr "b@x.org") sample_store
       = (Ok (PyVal VNull),
          set_coll sample_store "users"
                   ([sample_user 20 "Ann" "a@x.org" "h1"] ++ u' :: []))
       /\ get_field "isAdmin" u' = Some (VBool true).
Proof.
  destruct (make_admin_flags sample_store (VStr "b@x.org") eq_refl)
    as [_ Hset].
  destruct (make_admin_flags sample_store (VStr "z@x.org") eq_refl)
    as [Hnone _].
  split.
  - apply Hnone. repeat constructor.
  - destruct (Hset [sample_user 20 "Ann" "a@x.org" "h1"]
                   (sample_user 21 "Bob" "b@x.org" "h2") [] eq_refl)
      as (u' & Hm & Ha & _).
    + repeat constructor.
    + reflexivity.
    + exists u'. split; assumption.
Defined.

(** * Paging at its bounds *)

Lemma unpaged_query_accepted (db : database) (filters : gmap string value)
    (full : list doc) :
  healthy db ->
  list_cursor db "movies" (unpaged filters) = Ok full ->
  check_query (compiled_query filters) = Ok tt.
Proof.
  intros Hh. rewrite unpaged_eq. unfold list_cursor, check_fault.
  rewrite Hh. cbn [bind c_query].
  destruct (check_query (compiled_query filters)) as [[] |];
    [reflexivity | discriminate].
Qed.

(** X25: a page size of 0 is no page size: with a store that does not
    fail, [get_movies] then returns the whole sorted match set, whatever
    the page number; the count is attached on page 0 as usual. *)
Theorem get_movies_page_size_zero
    (db : database) (filters : gmap string value) (full : list doc)
    (page : Z) :
  healthy db ->
  list_cursor db "movies" (unpaged filters) = Ok full ->
  get_movies db filters page 0
  = Ok (full,
        VInt (if (page =? 0)%Z
              then count_where (matches db (compiled_query filters)) (movies db)
              else 0)).
Proof.
  intros Hh Hfull. rewrite get_movies_eq.
  pose proof (unpaged_query_accepted db filters full Hh Hfull) as Hq.
  assert (Htotal :
    (if (page =? 0)%Z
     then let! c := count_documents db "movies" (compiled_query filters) in
          Ok (VInt c)
     else Ok (VInt 0))
    = Ok (VInt (if (page =? 0)%Z
                then count_where (matches db (compiled_query filters)) (movies db)
                else 0))).
  { destruct (page =? 0)%Z; [| reflexivity].
    unfold count_documents, check_fault. rewrite Hh, Hq. reflexivity. }
  rewrite Htotal. cbn [bind]. unfold cursor_skip, cursor_limit.
  rewrite Z.mul_0_l. change (0 <? 0)%Z with false.
  rewrite unpaged_eq in Hfull |- *.
  cbn [bind c_query c_project c_sort c_skip c_limit].
  now rewrite Hfull.
Qed.

Lemma get_movies_page_size_zero_witness :
  get_movies sample_db ann 1 0
  = Ok ([sample_movie 2 "B" ["Ann"] (Some 75%Z) None (Some 9%Z);
         sample_movie 1 "A" ["Ann"; "Bob"] (Some 45%Z) (Some 10%Z) (Some 5%Z);
         sample_movie 3 "C" ["Ann"] (Some 200%Z) (Some 95%Z) None],
        VInt 0).
Proof.
  exact (get_movies_page_size_zero sample_db ann _ 1 (fun _ => eq_refl) eq_refl).
Defined.

(** X26: a negative skip is refused before anything is asked of the
    store: when [movies_per_page * page] is negative, [get_movies] raises
    [ValueError], whatever the store and the filters. *)
Theorem get_movies_negative_skip
    (db : database) (filters : gmap string value) (page n : Z) :
  (n * page < 0)%Z ->
  get_movies db filters page n = Raise (ValueError "skip must be >= 0").
Proof.
  intros Hneg. rewrite get_movies_eq.
  destruct (Z.eqb_spec page 0) as [-> | _]; [lia |].
  cbn [bind]. unfold cursor_skip.
  destruct (Z.ltb_spec (n * page) 0); [reflexivity | lia].
Qed.

Lemma get_movies_negative_skip_witness :
  get_movies sample_db ann (-1) 20 = Raise (ValueError "skip must be >= 0").
Proof. apply get_movies_negative_skip. lia. Defined.



(** X28: the faceted search pages like [get_movies].  For filters with a
    cast list and no text, a store that does not fail, a page number from
    0, a positive page size, integers that fit in 64 bits and at least one
    movie matching the cast list, both functions return, and the [movies]
    facet of [get_movies_faceted] holds as many movies as [get_movies]
    returns for the same arguments, with the same review counts position
    by position; they are the same movies in the same order when the store
    puts movies with equal review counts in the same order in every
    request, or no two matching movies have the same review count; on page
    0 the two counts agree. *)
Theorem faceted_pages_like_get_movies
    (db : database) (filters : gmap string value) (names : list value)
    (page n : Z) :
  healthy db ->
  filters !! "text" = None ->
  filters !! "cast" = Some (VArr names) ->
  (0 <= page)%Z -> (0 < n)%Z ->
  faceted_fits (VArr names) page n = true ->
  cast_matches db (VArr names) <> [] ->
  exists facets count l l' total,
    get_movies_faceted db filters page n = Ok (facets, count)
    /\ get_movies db filters page n = Ok (l, total)
    /\ get_field "movies" facets = Some (VArr (map VDoc l'))
    /\ map reviews_key l' = map reviews_key l
    /\ (steady db \/ tie_free db filters -> l' = l)
    /\ (page = 0%Z -> total = count).
Proof.
  intros Hh Ht Hcast Hpage Hn Hfits Hne.
  assert (Hbuild := build_cast filters (VArr names) Ht Hcast).
  assert (Hq : compiled_query filters = QIn "cast" (VArr names))
    by (unfold compiled_query; now rewrite Hbuild).
  assert (Hs : compiled_sort filters
               = SortField "tomatoes.viewer.numReviews" DESCENDING)
    by (unfold compiled_sort; now rewrite Hbuild).
  assert (Hp : compiled_projection filters = None)
    by (unfold compiled_projection; now rewrite Hbuild).
  assert (Hcq : check_query (compiled_query filters) = Ok tt)
    by now rewrite Hq.
  destruct (get_movies_page db filters page n Hh Hcq Hpage Hn)
    as (g & Hg & Hget).
  assert (g = fun d => d) as ->.
  { rewrite Hp in Hg. cbn in Hg. congruence. }
  rewrite map_id in Hget.
  assert (Hm : matched db filters = cast_matches db (VArr names))
    by (unfold matched; now rewrite Hq).
  set (rank := tie_rank db (faceted_request (VArr names) page n)).
  set (rank' := tie_rank db (ReqFind "movies" (page_cursor filters page n))).
  assert (Hfor : sorted_for db filters (page_cursor filters page n)
                 = sort_by reviews_key DESCENDING
                           (arrange rank' (cast_matches db (VArr names)))).
  { unfold sorted_for. rewrite Hm, Hs. reflexivity. }
  exists (facet_doc (faceted_page db (VArr names) page n)).
  exists (VInt (Z.of_nat (length (cast_matches db (VArr names))))).
  eexists. exists (faceted_page db (VArr names) page n). eexists.
  split; [| split; [exact Hget | split; [| split; [| split]]]].
  - rewrite (get_movies_faceted_requests _ _ _ _ _ Hcast).
    rewrite aggregate_faceted, aggregate_counting, Hfits.
    assert (Hv : value_fits (VArr names) = true).
    { revert Hfits. unfold faceted_fits.
      destruct (value_fits (VArr names)); [reflexivity | discriminate]. }
    rewrite Hv. unfold check_fault.
    rewrite !Hh. cbn [bind check_query].
    destruct (Z.ltb_spec (n * page) 0); [nia |].
    destruct (Z.leb_spec n 0); [lia |].
    cbn [bind index0 try_except].
    destruct (cast_matches db (VArr names)); [contradiction | reflexivity].
  - exact (proj1 (facet_doc_totals _)).
  - rewrite Hfor. unfold faceted_page, cast_sorted, sort_docs. fold rank.
    fold reviews_key.
    rewrite <- !firstn_map, <- !skipn_map. do 2 f_equal.
    apply (sorted_keys_unique reviews_key DESCENDING).
    + now rewrite !sort_by_perm, !arrange_perm.
    + apply sort_by_sorted.
    + apply sort_by_sorted.
  - intros Hties. rewrite Hfor.
    unfold faceted_page, cast_sorted, sort_docs. fold rank. fold reviews_key.
    do 2 f_equal. apply sort_arranged_agree.
    destruct Hties as [Hsteady | Hfree]; [left | right].
    + intros d. apply Hsteady.
    + intros x y Hx Hy. rewrite <- Hm in Hx, Hy.
      specialize (Hfree x y Hx Hy). rewrite Hs in Hfree. exact Hfree.
  - intros ->. cbn [Z.eqb]. now rewrite Hq.
Qed.

Lemma faceted_pages_like_get_movies_witness :
  exists facets count l total,
    get_movies_faceted sample_db ann 0 2 = Ok (facets, count)
    /\ get_movies sample_db ann 0 2 = Ok (l, total)
    /\ get_field "movies" facets = Some (VArr (map VDoc l))
    /\ total = count.
Proof.
  destruct (faceted_pages_like_get_movies sample_db ann [VStr "Ann"] 0 2
              (fun _ => eq_refl) eq_refl eq_refl ltac:(lia) ltac:(lia) eq_refl)
    as (facets & count & l & l' & total & Hf & Hg & Hm & _ & Hsame & Hc).
  - discriminate.
  - rewrite (Hsame (or_introl (fun _ _ _ => eq_refl))) in Hm.
    exists facets, count, l, total.
    split; [exact Hf | split; [exact Hg | split; [exact Hm |]]].
    now apply Hc.
Defined.

(** * The order of the pages *)








